(** * Gold Coast planning scrapers: a shallow embedding and its properties

    The development follows the two source files of the repository:

    - [goldcoast_scraper.py]: the property workflow (area and lot/plan card,
      side-panel text, zone / density / overlay extraction, building height);
    - [pdonline_pdf_downloader.py]: the document workflow (search by
      application number, scan of the table rows, download of the signed
      decision notice).

    Text is modelled as [string]; a character is one code point below 256
    (Latin-1), so the superscript two of the area unit is the single
    character 178.  Python's [str] methods and the [re] patterns of the source
    are embedded as executable functions.

    The browser is an oracle that answers every call the code makes from the
    calls made so far; that history is the state threaded through the
    workflows, and a call either returns or raises.  The handles returned by
    [query_selector_all] are records of what interrogating them yields.
    Console output and [time.sleep] are left out. *)

From Stdlib Require Import Ascii String List Bool Arith Lia.
From stdpp Require Import gmap strings.
Import ListNotations.

Local Open Scope char_scope.
Local Open Scope string_scope.
Local Open Scope list_scope.
Local Open Scope nat_scope.

(** ** Python [str] operations *)

Module Py.

(** Code point of a character. *)
Definition ord (c : ascii) : nat := nat_of_ascii c.

(** [str.isspace] on one character, as used by [str.strip] and by the
    pattern class [\s]: TAB..CR, FS..US, space, NEL and NBSP. *)
Definition isspace (c : ascii) : bool :=
  let n := ord c in
  ((9 <=? n) && (n <=? 13)) || ((28 <=? n) && (n <=? 31))
  || (n =? 32) || (n =? 133) || (n =? 160).

(** Decimal digits ([\d]): below 256 only the ASCII digits are decimal. *)
Definition isdecimal (c : ascii) : bool :=
  let n := ord c in (48 <=? n) && (n <=? 57).

(** Word characters ([\w]): alphanumeric code points and the underscore. *)
Definition isword (c : ascii) : bool :=
  let n := ord c in
  isdecimal c
  || ((65 <=? n) && (n <=? 90)) || ((97 <=? n) && (n <=? 122)) || (n =? 95)
  || (n =? 170) || (n =? 178) || (n =? 179) || (n =? 181) || (n =? 185)
  || (n =? 186) || ((188 <=? n) && (n <=? 190))
  || ((192 <=? n) && (n <=? 214)) || ((216 <=? n) && (n <=? 246))
  || (248 <=? n).

(** Lower-case mapping of one character. *)
Definition lower_char (c : ascii) : ascii :=
  let n := ord c in
  if ((65 <=? n) && (n <=? 90))
     || ((192 <=? n) && (n <=? 222) && negb (n =? 215))
  then ascii_of_nat (n + 32) else c.

(** [s.lower()] *)
Fixpoint lower (s : string) : string :=
  match s with
  | EmptyString => EmptyString
  | String c s' => String (lower_char c) (lower s')
  end.

(** [s.lstrip()], [s.rstrip()] and [s.strip()] without arguments. *)
Fixpoint lstrip (s : string) : string :=
  match s with
  | EmptyString => EmptyString
  | String c s' => if isspace c then lstrip s' else s
  end.

Fixpoint rstrip (s : string) : string :=
  match s with
  | EmptyString => EmptyString
  | String c s' =>
      match rstrip s' with
      | EmptyString => if isspace c then EmptyString else String c EmptyString
      | r => String c r
      end
  end.

Definition strip (s : string) : string := rstrip (lstrip s).

(** Line boundaries of [str.splitlines]: LF, VT, FF, CR, FS, GS, RS, NEL
    (and CR LF as one boundary). *)
Definition islinebreak (c : ascii) : bool :=
  let n := ord c in
  ((10 <=? n) && (n <=? 13)) || ((28 <=? n) && (n <=? 30)) || (n =? 133).

(** [s.splitlines()]: the lines without their boundaries; a final boundary
    does not open a further, empty line. *)
Fixpoint splitlines (s : string) : list string :=
  match s with
  | EmptyString => []
  | String c s' =>
      if islinebreak c then
        EmptyString ::
          match s' with
          | String d s'' =>
              if (ord c =? 13) && (ord d =? 10) then splitlines s''
              else splitlines s'
          | EmptyString => []
          end
      else
        match splitlines s' with
        | [] => [String c EmptyString]
        | l :: ls => String c l :: ls
        end
  end.

(** [p] is a prefix of [s] ([s.startswith(p)]). *)
Fixpoint startswith (p s : string) : bool :=
  match p, s with
  | EmptyString, _ => true
  | String a p', String b s' => Ascii.eqb a b && startswith p' s'
  | String _ _, EmptyString => false
  end.

(** [sub in s] *)
Fixpoint contains (sub s : string) : bool :=
  startswith sub s
  || match s with
     | EmptyString => false
     | String _ s' => contains sub s'
     end.

(** [s.replace(c, "")] for a one-character [c]. *)
Fixpoint remove_char (c : ascii) (s : string) : string :=
  match s with
  | EmptyString => EmptyString
  | String a s' =>
      if Ascii.eqb a c then remove_char c s' else String a (remove_char c s')
  end.

(** [s.replace(a, b)] for one-character [a] and [b]. *)
Fixpoint replace_char (a b : ascii) (s : string) : string :=
  match s with
  | EmptyString => EmptyString
  | String c s' =>
      String (if Ascii.eqb c a then b else c) (replace_char a b s')
  end.

(** [s.endswith(p)] *)
Fixpoint endswith (p s : string) : bool :=
  String.eqb p s
  || match s with
     | EmptyString => false
     | String _ s' => endswith p s'
     end.

(** [s[n:]] and [s[:n]] *)
Fixpoint drop (n : nat) (s : string) : string :=
  match n, s with
  | S n', String _ s' => drop n' s'
  | _, _ => s
  end.

Fixpoint take (n : nat) (s : string) : string :=
  match n, s with
  | S n', String c s' => String c (take n' s')
  | _, _ => EmptyString
  end.

(** [x in l] for a list of strings. *)
Definition mem (x : string) (l : list string) : bool :=
  existsb (String.eqb x) l.

(** Truthiness of [Optional[str]]: [None] and the empty string are false. *)
Definition truthy (o : option string) : bool :=
  match o with
  | Some (String _ _) => true
  | _ => false
  end.

End Py.

(** ** The fragment of Python's [re] used by the scrapers

    A backtracking matcher in continuation-passing style: alternatives are
    tried left to right, a greedy repetition tries one more iteration before
    the continuation and a lazy one the continuation first, and [search]
    tries the start positions from left to right. *)

Module Re.

Inductive re : Type :=
| Eps
| Chr (p : ascii)                  (* a literal character *)
| Cls (f : ascii -> bool)          (* a class: \s, \d, \w, [...] *)
| Dot                              (* . *)
| Eos                              (* $ *)
| Seq (r1 r2 : re)
| Alt (r1 r2 : re)
| Star (greedy : bool) (r : re)    (* r* and r*? *)
| Group (n : nat) (r : re).        (* a capturing group *)

Record flags := { ignorecase : bool; dotall : bool }.

(** The groups captured so far, the most recent first. *)
Definition caps := list (nat * string).

Definition chr_match (fl : flags) (p a : ascii) : bool :=
  if ignorecase fl then Ascii.eqb (Py.lower_char p) (Py.lower_char a)
  else Ascii.eqb p a.

Section Matcher.
Context {A : Type} (fl : flags).

(** The iterations of a repetition whose body is matched by [body]: an
    iteration has to consume at least one character, so the length of the
    text bounds the number of iterations. *)
Fixpoint star_loop (greedy : bool)
    (body : (string -> caps -> option A) -> string -> caps -> option A)
    (k : string -> caps -> option A)
    (fuel : nat) (s : string) (c : caps) {struct fuel} : option A :=
  match fuel with
  | 0 => k s c
  | S fuel' =>
      let again s' c' :=
        if String.length s' <? String.length s
        then star_loop greedy body k fuel' s' c' else None in
      if greedy then
        match body again s c with
        | Some x => Some x
        | None => k s c
        end
      else
        match k s c with
        | Some x => Some x
        | None => body again s c
        end
  end.

Fixpoint run (r : re) (k : string -> caps -> option A)
    (s : string) (c : caps) {struct r} : option A :=
  match r with
  | Eps => k s c
  | Chr p =>
      match s with
      | String a s' => if chr_match fl p a then k s' c else None
      | EmptyString => None
      end
  | Cls f =>
      match s with
      | String a s' => if f a then k s' c else None
      | EmptyString => None
      end
  | Dot =>
      match s with
      | String a s' =>
          if dotall fl || negb (Py.ord a =? 10) then k s' c else None
      | EmptyString => None
      end
  | Eos =>
      match s with
      | EmptyString => k s c
      | String a EmptyString => if Py.ord a =? 10 then k s c else None
      | String _ (String _ _) => None
      end
  | Seq r1 r2 => run r1 (run r2 k) s c
  | Alt r1 r2 =>
      match run r1 k s c with
      | Some x => Some x
      | None => run r2 k s c
      end
  | Star greedy r' => star_loop greedy (run r') k (String.length s) s c
  | Group n r' =>
      run r'
        (fun s' c' =>
           k s' ((n, Py.take (String.length s - String.length s') s) :: c'))
        s c
  end.

End Matcher.

(** A literal string, one or more, zero or more. *)
Fixpoint lit (p : string) : re :=
  match p with
  | EmptyString => Eps
  | String a p' => Seq (Chr a) (lit p')
  end.

Definition plus (r : re) : re := Seq r (Star true r).
Definition star (r : re) : re := Star true r.

(** [m.group(n)] *)
Fixpoint group (n : nat) (c : caps) : option string :=
  match c with
  | [] => None
  | (i, v) :: c' => if i =? n then Some v else group n c'
  end.

(** [re.match]: a match anchored at the start of [s]. *)
Definition match_here (fl : flags) (r : re) (s : string) : option caps :=
  run fl r (fun _ c => Some c) s [].

(** [re.search]: the match at the leftmost start position that has one. *)
Fixpoint search (fl : flags) (r : re) (s : string) : option caps :=
  match match_here fl r s with
  | Some c => Some c
  | None =>
      match s with
      | EmptyString => None
      | String _ s' => search fl r s'
      end
  end.

(** The flag sets of the source: [re.I] and [re.DOTALL | re.I]. *)
Definition I : flags := {| ignorecase := true; dotall := false |}.
Definition DOTALL_I : flags := {| ignorecase := true; dotall := true |}.

End Re.

(** ** The browser automation layer

    An external collaborator: the code only calls it.  Every call is recorded
    in the history, and the browser answers a call from the history so far,
    so a page that changes between two calls is covered.  A call either
    returns or raises; an exception is identified with its message. *)

Module Browser.

Definition exn : Type := string.

Inductive outcome (A : Type) : Type :=
| Ok (a : A)
| Raise (e : exn).
Arguments Ok {A} a.
Arguments Raise {A} e.

(** What interrogating an element handle yields. *)
Record link : Type := {
  link_id : nat;
  link_text : outcome string;            (* [link.inner_text()] *)
}.

Record row : Type := {
  row_text : outcome string;             (* [row.inner_text()] *)
  row_cells : outcome (list (outcome string));
                                         (* [row.query_selector_all('td')] and
                                            each cell's [inner_text()] *)
  row_link : outcome (option link);
                                         (* [row.query_selector('td:first-child a')] *)
}.

Record table : Type := {
  table_id : nat;
  table_headers : outcome (list (outcome string));
                                         (* [table.query_selector_all('th')] and
                                            each header's [inner_text()] *)
}.

Record input : Type := {
  input_id : outcome (option string);    (* [inp.get_attribute('id')] *)
  input_name : outcome (option string);  (* [inp.get_attribute('name')] *)
}.

Inductive call : Type :=
| Launch
| NewContext
| NewPage
| SetDefaultTimeout (ms : N)
| Close
| Goto (url : string)
| WaitForLoadState (state : string)
| WaitForTimeout (ms : N)
| WaitForSelector (sel : string) (timeout : N)
| Click (target : string)
| Fill (target text : string)
| Press (key : string)
| Count (target : string)
| InnerText (target : string)
| InnerTextNth (target : string) (i : nat)
| ScrollIntoView (target : string)
| Screenshot (target path : string)
| Url
| QuerySelectorAll (sel : string)
| ClickHandle (id : nat)
| ScrollHandle (id : nat)
| Download (id : nat)
| SaveAs (path : string)
| GetSize (path : string).

Record browser : Type := {
  on_action : list call -> call -> outcome unit;
  on_text : list call -> call -> outcome string;
  on_count : list call -> call -> outcome nat;
  on_url : list call -> string;
  on_rows : list call -> call -> outcome (list row);
  on_tables : list call -> call -> outcome (list table);
  on_inputs : list call -> call -> outcome (list input);
}.

(** Computations that call the browser. *)
Definition M (A : Type) : Type :=
  browser -> list call -> outcome A * list call.

Definition ret {A : Type} (a : A) : M A := fun _ h => (Ok a, h).

Definition raise {A : Type} (e : exn) : M A := fun _ h => (Raise e, h).

Definition bind {A B : Type} (m : M A) (f : A -> M B) : M B :=
  fun b h =>
    match m b h with
    | (Ok a, h') => f a b h'
    | (Raise e, h') => (Raise e, h')
    end.

(** [try: m  except Exception as e: handler e] *)
Definition catch {A : Type} (m : M A) (handler : exn -> M A) : M A :=
  fun b h =>
    match m b h with
    | (Ok a, h') => (Ok a, h')
    | (Raise e, h') => handler e b h'
    end.

(** [try: m  finally: f] *)
Definition finally {A : Type} (m : M A) (f : M unit) : M A :=
  fun b h =>
    match m b h with
    | (r, h') =>
        match f b h' with
        | (Ok _, h'') => (r, h'')
        | (Raise e, h'') => (Raise e, h'')
        end
    end.

Definition ask {A : Type} (answer : browser -> list call -> call -> outcome A)
    (c : call) : M A :=
  fun b h => (answer b h c, h ++ [c]).

Definition action : call -> M unit := ask on_action.
Definition text : call -> M string := ask on_text.
Definition count : call -> M nat := ask on_count.
Definition rows : call -> M (list row) := ask on_rows.
Definition tables : call -> M (list table) := ask on_tables.
Definition inputs : call -> M (list input) := ask on_inputs.
Definition url : M string := fun b h => (Ok (on_url b h), h ++ [Url]).

(** Reading a snapshot of an element handle. *)
Definition of_outcome {A : Type} (o : outcome A) : M A := fun _ h => (o, h).

End Browser.

Declare Scope browser_scope.
Delimit Scope browser_scope with browser.
Notation "'let*' x ':=' m 'in' k" := (Browser.bind m (fun x => k))
  (at level 10, x binder, m at level 100, k at level 200, only parsing)
  : browser_scope.
Notation "m ;;; k" := (Browser.bind m (fun _ => k))
  (at level 100, k at level 200, only parsing, right associativity)
  : browser_scope.

(** ** [goldcoast_scraper.py] *)

Module Scraper.

Import Re.

(** Superscript two, code point 178. *)
Definition sup2 : ascii := ascii_of_nat 178.

(** The four zoning categories, in the order of the pattern. *)
Definition zone_phrases : list string :=
  [ "Low density residential"; "Low-medium density residential";
    "Medium density residential"; "High density residential" ].

(** [(Low density residential|Low-medium density residential|
      Medium density residential|High density residential)] *)
Definition zone_re : re :=
  Group 1
    (Alt (lit "Low density residential")
       (Alt (lit "Low-medium density residential")
          (Alt (lit "Medium density residential")
             (lit "High density residential")))).

(** [Residential\s+density[:\s]+(RD\d+)] *)
Definition density_re : re :=
  Seq (lit "Residential")
    (Seq (plus (Cls Py.isspace))
       (Seq (lit "density")
          (Seq (plus (Cls (fun a => Ascii.eqb a ":" || Py.isspace a)))
             (Group 1 (Seq (lit "RD") (plus (Cls Py.isdecimal))))))).

(** [Overlays(.*?)(?:LGIP|Local Government|Plan Zone|$)] *)
Definition overlay_re : re :=
  Seq (lit "Overlays")
    (Seq (Group 1 (Star false Dot))
       (Alt (lit "LGIP")
          (Alt (lit "Local Government") (Alt (lit "Plan Zone") Eos)))).

(** [Plan\s*Area\s*([\d.,]+)\s*m[²2]] *)
Definition area_re : re :=
  Seq (lit "Plan")
    (Seq (star (Cls Py.isspace))
       (Seq (lit "Area")
          (Seq (star (Cls Py.isspace))
             (Seq (Group 1
                     (plus (Cls (fun a => Py.isdecimal a || Ascii.eqb a "."
                                          || Ascii.eqb a ","))))
                (Seq (star (Cls Py.isspace))
                   (Seq (Chr "m")
                      (Cls (fun a => Ascii.eqb a sup2
                                     || Ascii.eqb a "2")))))))).

(** [Lot/Plan\s+(\w+)] *)
Definition lotplan_re : re :=
  Seq (lit "Lot/Plan")
    (Seq (plus (Cls Py.isspace)) (Group 1 (plus (Cls Py.isword)))).

(** [re.search(p, text, flags)] followed by [.group(1)] when it matched. *)
Definition search_group1 (fl : flags) (r : re) (text : string)
  : option string :=
  match search fl r text with
  | Some c => group 1 c
  | None => None
  end.

(** The three parts of [extract_zone_density_overlays]. *)

Definition extract_zone (panel_text : string) : option string :=
  search_group1 I zone_re panel_text.

Definition extract_density (panel_text : string) : option string :=
  search_group1 I density_re panel_text.

Definition exclude : list string := ["view section"; "show on map"; "overlays"].

(** [[ln.strip() for ln in overlay_text.splitlines() if ln.strip()]] *)
Definition stripped_lines (overlay_text : string) : list string :=
  map Py.strip
    (List.filter (fun ln => negb (String.eqb (Py.strip ln) EmptyString))
       (Py.splitlines overlay_text)).

(** [any(ex in ln.lower() for ex in exclude)] *)
Definition excluded (ln : string) : bool :=
  existsb (fun ex => Py.contains ex (Py.lower ln)) exclude.

(** One turn of the loop over [lines]. *)
Definition overlay_step (overlays : list string) (ln : string)
  : list string :=
  if excluded ln then overlays
  else if (5 <? String.length ln) && negb (Py.mem ln overlays)
       then overlays ++ [ln]
       else overlays.

Definition overlay_section (panel_text : string) : option string :=
  search_group1 DOTALL_I overlay_re panel_text.

Definition extract_overlays (panel_text : string) : list string :=
  match overlay_section panel_text with
  | Some overlay_text => fold_left overlay_step (stripped_lines overlay_text) []
  | None => []
  end.

Definition extract_zone_density_overlays (panel_text : string)
  : option string * option string * list string :=
  (extract_zone panel_text, extract_density panel_text,
   extract_overlays panel_text).

(** *** The page readers and the workflow *)

Import Browser.
Local Open Scope browser_scope.

Definition CITYPLAN_URL : string :=
  "https://cityplan.goldcoast.qld.gov.au/eplan/".

Record PropertyData : Type := {
  address : string;
  lot_plan : option string;
  zone : option string;
  residential_density : option string;
  area_sqm : option string;
  building_height : option string;
  overlays : list string;
}.

(** The [div]s of the property detail card. *)
Definition DETAIL_DIVS : string := "#isoplan-property-detail div".

(** The two searches made on the text of one [div], with the guards
    [area_match and not area] and [lotplan_match and not lotplan]. *)
Definition scan_div (txt : string) (acc : option string * option string)
  : option string * option string :=
  let '(area, lotplan) := acc in
  let area :=
    match search_group1 I area_re txt with
    | Some g => if negb (Py.truthy area)
                then Some (Py.remove_char "," g) else area
    | None => area
    end in
  let lotplan :=
    match search_group1 I lotplan_re txt with
    | Some g => if negb (Py.truthy lotplan) then Some g else lotplan
    | None => lotplan
    end in
  (area, lotplan).

(** [for i in range(count)]: a [div] whose text cannot be read is skipped. *)
Fixpoint scan_divs (indices : list nat) (acc : option string * option string)
  : M (option string * option string) :=
  match indices with
  | [] => ret acc
  | i :: rest =>
      let* r :=
        catch (let* t := text (InnerTextNth DETAIL_DIVS i) in ret (Some t))
              (fun _ => ret None) in
      match r with
      | Some t => scan_divs rest (scan_div (Py.strip t) acc)
      | None => scan_divs rest acc
      end
  end.

Definition extract_area_and_lotplan : M (option string * option string) :=
  catch
    (let* n := count (Count DETAIL_DIVS) in
     scan_divs (seq 0 n) (None, None))
    (fun _ => ret (None, None)).

Definition ZONE_TEXT : string :=
  "text=/Medium density residential|Low density residential|High density residential/i".

Definition panel_selectors : list string :=
  [ ".esri-feature__content-node"; ".esri-feature"; ".esri-widget";
    "[class*='property-info']"; "[class*='panel']" ].

(** [("zone" in text.lower() or "overlay" in text.lower())] *)
Definition is_panel_text (t : string) : bool :=
  Py.contains "zone" (Py.lower t) || Py.contains "overlay" (Py.lower t).

(** [for selector in selectors]: the first selector whose text can be read
    and looks like the panel decides. *)
Fixpoint try_selectors (selectors : list string) : M (option string) :=
  match selectors with
  | [] => ret None
  | selector :: rest =>
      let* r :=
        catch (let* t := text (InnerText selector) in ret (Some t))
              (fun _ => ret None) in
      match r with
      | Some t => if is_panel_text t then ret (Some t) else try_selectors rest
      | None => try_selectors rest
      end
  end.

Definition scrape_left_panel_text : M string :=
  catch
    (action (WaitForSelector ZONE_TEXT 10000%N) ;;;
     action (WaitForTimeout 2000%N) ;;;
     let* r := try_selectors panel_selectors in
     match r with
     | Some t => ret t
     | None => text (InnerText "body")
     end)
    (fun _ => text (InnerText "body")).

Definition enable_building_height_layer : M bool :=
  catch
    (action (ScrollIntoView "text=Overlays") ;;;
     action (WaitForTimeout 800%N) ;;;
     let* n := count (Count "text=Building height") in
     if 0 <? n then
       action (ScrollIntoView "text=Building height") ;;;
       action (Click "text=Building height") ;;;
       action (WaitForTimeout 2000%N) ;;;
       ret true
     else ret false)
    (fun _ => ret false).

Definition screenshot_map : M (option string) :=
  catch
    (action (Screenshot ".esri-view, #mapView" "map_height.png") ;;;
     ret (Some "map_height.png"))
    (fun _ => ret None).

(** The assignments of the workflow to the fields of [result]. *)
Definition set_area_and_lotplan (r : PropertyData)
    (v : option string * option string) : PropertyData :=
  {| address := address r; lot_plan := snd v; zone := zone r;
     residential_density := residential_density r; area_sqm := fst v;
     building_height := building_height r; overlays := overlays r |}.

Definition set_zone_density_overlays (r : PropertyData)
    (v : option string * option string * list string) : PropertyData :=
  {| address := address r; lot_plan := lot_plan r; zone := fst (fst v);
     residential_density := snd (fst v); area_sqm := area_sqm r;
     building_height := building_height r; overlays := snd v |}.

Definition set_building_height (r : PropertyData) (v : string)
  : PropertyData :=
  {| address := address r; lot_plan := lot_plan r; zone := zone r;
     residential_density := residential_density r; area_sqm := area_sqm r;
     building_height := Some v; overlays := overlays r |}.

Definition SEARCH_BOX : string := "input[placeholder*='Search for an address']".

(** The body of the [try] of [scrape_goldcoast_property]. *)
Definition scrape_steps (query : string) (result : PropertyData)
  : M PropertyData :=
  action (Goto CITYPLAN_URL) ;;;
  action (WaitForTimeout 2000%N) ;;;
  action (Click SEARCH_BOX) ;;;
  action (Fill SEARCH_BOX query) ;;;
  action (WaitForTimeout 1500%N) ;;;
  action (Press "ArrowDown") ;;;
  action (WaitForTimeout 800%N) ;;;
  action (Press "Enter") ;;;
  action (WaitForTimeout 5000%N) ;;;
  let* v := extract_area_and_lotplan in
  let result := set_area_and_lotplan result v in
  let* panel_text := scrape_left_panel_text in
  let result :=
    set_zone_density_overlays result
      (extract_zone_density_overlays panel_text) in
  let* enabled := enable_building_height_layer in
  let* result :=
    (if enabled : bool then
       let* screenshot_path := screenshot_map in
       if Py.truthy screenshot_path
       then ret (set_building_height result "(see screenshot)")
       else ret result
     else ret result) in
  action (WaitForTimeout 10000%N) ;;;
  ret result.

Definition scrape_goldcoast_property (query : string) : M PropertyData :=
  let result :=
    {| address := query; lot_plan := None; zone := None;
       residential_density := None; area_sqm := None;
       building_height := None; overlays := [] |} in
  action Launch ;;;
  action NewPage ;;;
  finally
    (catch (scrape_steps query result)
       (fun e =>
          action (Screenshot "page" "error_screenshot.png") ;;;
          raise e))
    (action Close).

End Scraper.

(** ** [pdonline_pdf_downloader.py] *)

Module Downloader.

Import Browser.
Local Open Scope browser_scope.

(** The values stored in the result [dict]. [PSizeKB n] stands for
    [round(n / 1024, 2)], the size of a file of [n] bytes. *)
Inductive pyval : Type :=
| PNone
| PBool (b : bool)
| PStr (s : string)
| PList (l : list string)
| PSizeKB (bytes : nat).

Definition failure (error : string) : gmap string pyval :=
  <["success" := PBool false]>
    (<["error" := PStr error]> (<["file_path" := PNone]> ∅)).

(** *** Step 6: the scan of the table rows *)

Definition MARKER : string := "Signed Decision Notice".

Definition keywords : list string :=
  ["Form"; "Plan"; "Report"; "Notice"; "Decision"; "Letter"].

(** One turn of the first loop over [all_rows]: the row is listed when its
    text holds a keyword, it has at least two cells and the second cell is
    not blank; a row that raises is passed over. *)
Definition document_of (r : row) : option (string * string) :=
  match row_text r with
  | Ok text =>
      if existsb (fun keyword => Py.contains keyword text) keywords then
        match row_cells r with
        | Ok (Ok link_text :: Ok name_text :: _) =>
            match Py.strip name_text with
            | EmptyString => None
            | name => Some (Py.strip link_text, name)
            end
        | _ => None
        end
      else None
  | Raise _ => None
  end.

Definition documents_found (all_rows : list row) : list (string * string) :=
  fold_left
    (fun found r =>
       match document_of r with
       | Some doc => found ++ [doc]
       | None => found
       end)
    all_rows [].

(** The second loop over [all_rows]. [decision_notice_link] is assigned
    before the text of the link is read, so a link whose text cannot be read
    stays assigned while the scan goes on; [break] ends the scan. *)
Fixpoint find_decision_notice (all_rows : list row)
    (decision_notice_link : option link) : option link :=
  match all_rows with
  | [] => decision_notice_link
  | r :: rest =>
      match row_text r with
      | Ok text =>
          if Py.contains MARKER text then
            match row_link r with
            | Ok (Some link_cell) =>
                match link_text link_cell with
                | Ok _ => Some link_cell
                | Raise _ => find_decision_notice rest (Some link_cell)
                end
            | _ => find_decision_notice rest decision_notice_link
            end
          else find_decision_notice rest decision_notice_link
      | Raise _ => find_decision_notice rest decision_notice_link
      end
  end.

Definition not_found (all_rows : list row) : gmap string pyval :=
  <["documents_available" := PList (map snd (documents_found all_rows))]>
    (<["success" := PBool false]>
       (<["error" := PStr "Signed Decision Notice not found"]>
          (<["file_path" := PNone]> ∅))).

(** [os.path.join(output_dir, filename)] for a relative [filename]. *)
Definition path_join (output_dir filename : string) : string :=
  match output_dir with
  | EmptyString => filename
  | _ => if Py.endswith "/" output_dir then output_dir +:+ filename
         else output_dir +:+ "/" +:+ filename
  end.

(** Steps 6 and 7: find the notice among the rows of the page, then
    download it. *)
Definition find_and_download (app_number output_dir : string)
  : M (gmap string pyval) :=
  let* all_rows := rows (QuerySelectorAll "table tr") in
  match find_decision_notice all_rows None with
  | None =>
      action Close ;;;
      ret (not_found all_rows)
  | Some decision_notice_link =>
      action (ClickHandle (link_id decision_notice_link)) ;;;
      action (Download (link_id decision_notice_link)) ;;;
      let filename :=
        "DA_" +:+ Py.replace_char "/" "_" app_number
        +:+ "_Decision_Notice.pdf" in
      let file_path := path_join output_dir filename in
      action (SaveAs file_path) ;;;
      let* file_size := count (GetSize file_path) in
      action Close ;;;
      ret (<["success" := PBool true]>
             (<["file_path" := PStr file_path]>
                (<["filename" := PStr filename]>
                   (<["application_number" := PStr app_number]>
                      (<["file_size_kb" := PSizeKB file_size]> ∅)))))
  end.

(** *** Steps 1 to 5: reaching the detail page *)

(** The double quote of the selectors. *)
Definition dq : string := String (ascii_of_nat 34) EmptyString.

Definition HOME_URL : string :=
  "https://cogc.cloud.infor.com/ePathway/epthprod/Web/default.aspx".

Definition ALL_APPLICATIONS : string :=
  "a:has-text(" +:+ dq +:+ "All applications" +:+ dq +:+ ")".
Definition TERMS_RADIO : string :=
  "input#ctl00_MainBodyContent_mDataList_ctl03_mDataGrid_ctl02_ctl00".
Definition NEXT_BUTTON : string :=
  "input[type=" +:+ dq +:+ "submit" +:+ dq +:+ "][value=" +:+ dq +:+ "Next"
  +:+ dq +:+ "]".
Definition TEXT_INPUT : string :=
  "input[type=" +:+ dq +:+ "text" +:+ dq +:+ "]".
Definition SEARCH_BUTTON : string :=
  "#ctl00_MainBodyContent_mGeneralEnquirySearchControl_mSearchButton".
Definition RESULT_ROWS : string :=
  "table#gridResults tr.ContentPanel, table#gridResults tr.AlternateContentPanel".

(** Step 1 *)
Definition navigate : M unit :=
  action (Goto HOME_URL) ;;;
  action (WaitForLoadState "networkidle") ;;;
  action (Click ALL_APPLICATIONS) ;;;
  action (WaitForLoadState "networkidle") ;;;
  action (Click TERMS_RADIO) ;;;
  action (Click NEXT_BUTTON) ;;;
  action (WaitForLoadState "networkidle").

Definition selectors_to_try : list string :=
  [ "#ctl00_MainBodyContent_mGeneralEnquirySearchControl_mTabControl_ctl00_mApplicationNumberTextBox";
    "input[type=" +:+ dq +:+ "text" +:+ dq +:+ "][id*=" +:+ dq
      +:+ "ApplicationNumber" +:+ dq +:+ "]";
    "#ctl00_MainBodyContent_mGeneralEnquirySearchControl_mTabControl_ctl00_mLicenceApplicationNumberTextBox" ].

(** [for selector in selectors_to_try]: wait for the field and fill it;
    [break] at the first selector for which both succeed.  The result is
    [input_filled]. *)
Fixpoint fill_first (selectors : list string) (app_number : string)
  : M bool :=
  match selectors with
  | [] => ret false
  | selector :: rest =>
      let* filled :=
        catch (action (WaitForSelector selector 5000%N) ;;;
               action (Fill selector app_number) ;;;
               ret true)
              (fun _ => ret false) in
      if filled : bool then ret true else fill_first rest app_number
  end.

(** The attributes read when the inputs are listed. *)
Fixpoint list_inputs (l : list input) : M unit :=
  match l with
  | [] => ret tt
  | inp :: rest =>
      let* _ := of_outcome (input_id inp) in
      let* _ := of_outcome (input_name inp) in
      list_inputs rest
  end.

(** Step 2 *)
Definition search (app_number : string) (debug : bool) : M unit :=
  let* input_filled := fill_first selectors_to_try app_number in
  (if input_filled : bool then ret tt
   else
     let* found := inputs (QuerySelectorAll TEXT_INPUT) in
     (if debug then list_inputs found else ret tt) ;;;
     action (Fill TEXT_INPUT app_number)) ;;;
  action (Click SEARCH_BUTTON) ;;;
  action (WaitForLoadState "networkidle").

(** The cells read when the result rows are listed: the first, and the third
    when there is one. *)
Fixpoint list_results (l : list row) : M unit :=
  match l with
  | [] => ret tt
  | r :: rest =>
      let* cells := of_outcome (row_cells r) in
      (match cells with
       | app_num :: _ :: more =>
           let* _ := of_outcome app_num in
           match more with
           | location :: _ => let* _ := of_outcome location in ret tt
           | [] => ret tt
           end
       | _ => ret tt
       end) ;;;
      list_results rest
  end.

(** [print(f"... {page.url}")], which [debug] guards: the address of the
    page is read for the print alone. *)
Definition log_url (debug : bool) : M unit :=
  if debug then url ;;; ret tt else ret tt.

(** Step 3, on the summary page: [Some d] when the function returns [d],
    [None] when it goes on to the detail page. *)
Definition open_first_result (debug : bool)
  : M (option (gmap string pyval)) :=
  catch
    (action (WaitForSelector "table#gridResults" 5000%N) ;;;
     let* found := rows (QuerySelectorAll RESULT_ROWS) in
     list_results found ;;;
     match found with
     | first :: _ =>
         let* l := of_outcome (row_link first) in
         match l with
         | Some l =>
             action (ClickHandle (link_id l)) ;;;
             action (WaitForLoadState "networkidle") ;;;
             log_url debug ;;;
             ret None
         | None =>
             action Close ;;;
             ret (Some (failure "No clickable link found"))
         end
     | [] =>
         action Close ;;;
         ret (Some (failure "No results found"))
     end)
    (fun _ =>
       action Close ;;;
       ret (Some (failure "Results table not found"))).

Definition detail_markers : list string :=
  [ "fieldset legend:has-text(" +:+ dq +:+ "Details" +:+ dq +:+ ")";
    "text=Application number"; "text=Application description";
    "text=Application documents" ].

Fixpoint find_markers (markers found_markers : list string)
  : M (list string) :=
  match markers with
  | [] => ret found_markers
  | marker :: rest =>
      let* ok := catch (action (WaitForSelector marker 3000%N) ;;; ret true)
                       (fun _ => ret false) in
      find_markers rest
        (if ok : bool then found_markers ++ [marker] else found_markers)
  end.

Definition sanitized (app_number : string) : string :=
  Py.replace_char "/" "_" app_number.

(** Step 4 *)
Definition verify_detail_page (app_number : string) (debug : bool) : M unit :=
  let* found_markers := find_markers detail_markers [] in
  match found_markers with
  | [] =>
      if debug then
        action (Screenshot "page"
                  ("debug_detail_page_" +:+ sanitized app_number +:+ ".png"))
      else ret tt
  | _ :: _ => ret tt
  end.

(** [[h.inner_text().strip() for h in headers]] *)
Fixpoint header_texts (headers : list (outcome string)) : M (list string) :=
  match headers with
  | [] => ret []
  | h :: rest =>
      let* t := of_outcome h in
      let* ts := header_texts rest in
      ret (Py.strip t :: ts)
  end.

Fixpoint find_documents_table (l : list table) : M bool :=
  match l with
  | [] => ret false
  | t :: rest =>
      let* headers := of_outcome (table_headers t) in
      let* texts := header_texts headers in
      if Py.mem "Link" texts && Py.mem "Name" texts then
        action (ScrollHandle (table_id t)) ;;;
        ret true
      else find_documents_table rest
  end.

(** Step 5 *)
Definition locate_documents (app_number : string) (debug : bool) : M unit :=
  let* by_heading :=
    catch (action (WaitForSelector "text=Application documents" 5000%N) ;;;
           action (ScrollIntoView "text=Application documents") ;;;
           ret true)
          (fun _ => ret false) in
  let* docs_section_found :=
    (if by_heading : bool then ret true
     else
       catch (let* found := tables (QuerySelectorAll "table") in
              find_documents_table found)
             (fun _ => ret false)) in
  if docs_section_found : bool then ret tt
  else if debug then
    action (Screenshot "page"
              ("debug_no_docs_" +:+ sanitized app_number +:+ ".png"))
  else ret tt.

(** The body of the [try]. *)
Definition download_steps (app_number output_dir : string) (debug : bool)
  : M (gmap string pyval) :=
  navigate ;;;
  search app_number debug ;;;
  log_url debug ;;;
  let* current := url in
  let* returned :=
    (if Py.contains "EnquirySummaryView" current
     then open_first_result debug
     else ret None) in
  match returned with
  | Some d => ret d
  | None =>
      log_url debug ;;;
      verify_detail_page app_number debug ;;;
      locate_documents app_number debug ;;;
      find_and_download app_number output_dir
  end.

(** The [except Exception as e] of the function: the snapshot is taken
    inside its own [try], and the failure returned is the one caught. *)
Definition on_error (app_number : string) (debug : bool) (e : exn)
  : M (gmap string pyval) :=
  (if debug then
     catch (let* _ := url in
            action (Screenshot "page"
                      ("error_screenshot_" +:+ sanitized app_number
                       +:+ ".png")))
           (fun _ => ret tt)
   else ret tt) ;;;
  action Close ;;;
  ret (failure e).

Definition download_decision_notice (app_number output_dir : string)
    (debug : bool) : M (gmap string pyval) :=
  action Launch ;;;
  action NewContext ;;;
  action NewPage ;;;
  action (SetDefaultTimeout 30000%N) ;;;
  catch (download_steps app_number output_dir debug)
        (on_error app_number debug).

End Downloader.

(** ** The command line of [goldcoast_scraper.py] *)

Module Cli.

Import Browser.
Local Open Scope browser_scope.

(** [sep.join(l)] *)
Fixpoint join (sep : string) (l : list string) : string :=
  match l with
  | [] => EmptyString
  | [x] => x
  | x :: rest => x +:+ sep +:+ join sep rest
  end.

(** The query: the arguments after the program name joined by spaces when
    there are any, else the line typed at the prompt, trimmed.  [typed] is
    the outcome of [input()]. *)
Definition query_of (argv : list string) (typed : outcome string)
  : outcome string :=
  if 1 <? List.length argv then Ok (join " " (tl argv))
  else match typed with
       | Ok line => Ok (Py.strip line)
       | Raise e => Raise e
       end.

(** The [__main__] block; the result is the exit status, [sys.exit(1)] or
    the end of the script. *)
Definition main (argv : list string) (typed : outcome string) : M nat :=
  let* query := of_outcome (query_of argv typed) in
  match query with
  | EmptyString => ret 1
  | String _ _ =>
      catch (Scraper.scrape_goldcoast_property query ;;; ret 0)
            (fun _ => ret 1)
  end.

End Cli.

(** * Vocabulary of the statements *)

(** [p] matches at the start of [s], character by character. *)
Fixpoint lit_startswith (fl : Re.flags) (p s : string) : bool :=
  match p, s with
  | EmptyString, _ => true
  | String a p', String b s' => Re.chr_match fl a b && lit_startswith fl p' s'
  | String _ _, EmptyString => false
  end.

(** [p.lower() in blob.lower()]: [blob] holds [p] in some case variation. *)
Definition mentions (p blob : string) : bool :=
  Py.contains (Py.lower p) (Py.lower blob).

(** The first suffix of [s], from [s] itself down to the empty string, on
    which [f] answers. *)
Fixpoint first_suffix {A : Type} (f : string -> option A) (s : string)
  : option A :=
  match f s with
  | Some x => Some x
  | None =>
      match s with
      | EmptyString => None
      | String _ s' => first_suffix f s'
      end
  end.

(** A line feed. *)
Definition LF : string := String (ascii_of_nat 10) EmptyString.

(** Where the overlay section ends: at one of the three end anchors, at the
    end of the text, or at its final line feed. *)
Definition end_anchors : list string :=
  ["LGIP"; "Local Government"; "Plan Zone"].

Definition at_section_end (rest : string) : bool :=
  existsb (fun a => lit_startswith Re.I a rest) end_anchors
  || String.eqb rest EmptyString || String.eqb rest LF.

(** Where the spec lets the section end: at an end anchor or at the end of
    the text. *)
Definition at_anchor_or_end (rest : string) : bool :=
  existsb (fun a => lit_startswith Re.I a rest) end_anchors
  || String.eqb rest EmptyString.

(** The group of the overlay pattern when the text after the start anchor is
    [s1]: the text up to the first place where the section ends. *)
Definition section_of (s1 : string) : option Re.caps :=
  first_suffix
    (fun s' =>
       if at_section_end s'
       then Some [(1, Py.take (String.length s1 - String.length s') s1)]
       else None) s1.

(** The lines the overlay loop lets through. *)
Definition kept (ln : string) : bool :=
  negb (Scraper.excluded ln) && (5 <? String.length ln).

(** The elements of [l] that are not in [seen], each at its first
    occurrence. *)
Fixpoint first_seen (seen l : list string) : list string :=
  match l with
  | [] => []
  | x :: t =>
      if Py.mem x seen then first_seen seen t
      else x :: first_seen (seen ++ [x]) t
  end.

(** The blob of the Section Scanner example, and a blob whose section holds
    one short line. *)
Definition scanner_blob : string :=
  "Overlays" +:+ LF +:+ "Flood overlay" +:+ LF +:+ "Show on map" +:+ LF
  +:+ "Bushfire overlay" +:+ LF +:+ "Flood overlay" +:+ LF +:+ "LGIP".

Definition short_line_blob : string :=
  "Overlays" +:+ LF +:+ "Flood" +:+ LF +:+ "LGIP".

(** A browser on which every call succeeds and every page is empty, and one
    whose property card shows the given [div]s. *)
Definition quiet : Browser.browser :=
  {| Browser.on_action := fun _ _ => Browser.Ok tt;
     Browser.on_text := fun _ _ => Browser.Ok EmptyString;
     Browser.on_count := fun _ _ => Browser.Ok 0;
     Browser.on_url := fun _ => EmptyString;
     Browser.on_rows := fun _ _ => Browser.Ok [];
     Browser.on_tables := fun _ _ => Browser.Ok [];
     Browser.on_inputs := fun _ _ => Browser.Ok [] |}.

Definition card (divs : list string) : Browser.browser :=
  {| Browser.on_action := fun _ _ => Browser.Ok tt;
     Browser.on_text := fun _ c =>
       match c with
       | Browser.InnerTextNth _ i =>
           match nth_error divs i with
           | Some t => Browser.Ok t
           | None => Browser.Raise "Timeout 1000ms exceeded."
           end
       | _ => Browser.Ok EmptyString
       end;
     Browser.on_count := fun _ c =>
       match c with
       | Browser.Count _ => Browser.Ok (List.length divs)
       | _ => Browser.Ok 0
       end;
     Browser.on_url := fun _ => EmptyString;
     Browser.on_rows := fun _ _ => Browser.Ok [];
     Browser.on_tables := fun _ _ => Browser.Ok [];
     Browser.on_inputs := fun _ _ => Browser.Ok [] |}.

(** The area line of a property card: the label, then the value and its
    unit, written with the superscript two. *)
Definition area_value : string :=
  "1,234.5 m" +:+ String Scraper.sup2 EmptyString.
Definition area_line : string := "Plan Area " +:+ area_value.

(** What one attempt of the panel resolver yields when the calls made so far
    are [h]: the text of the selector when it can be read and looks like the
    panel. *)
Definition panel_resolves (b : Browser.browser) (h : list Browser.call)
    (selector : string) : option string :=
  match Browser.on_text b h (Browser.InnerText selector) with
  | Browser.Ok t => if Scraper.is_panel_text t then Some t else None
  | Browser.Raise _ => None
  end.






(** A browser on which the zone text never shows up within the readiness
    bound while the page body reads [body]. *)
Definition slow_panel (body : string) : Browser.browser :=
  {| Browser.on_action := fun _ c =>
       match c with
       | Browser.WaitForSelector _ 10000%N =>
           Browser.Raise "Timeout 10000ms exceeded."
       | _ => Browser.Ok tt
       end;
     Browser.on_text := fun _ c =>
       match c with
       | Browser.InnerText "body" => Browser.Ok body
       | _ => Browser.Raise "Timeout 2000ms exceeded."
       end;
     Browser.on_count := fun _ _ => Browser.Ok 0;
     Browser.on_url := fun _ => EmptyString;
     Browser.on_rows := fun _ _ => Browser.Ok [];
     Browser.on_tables := fun _ _ => Browser.Ok [];
     Browser.on_inputs := fun _ _ => Browser.Ok [] |}.

(** A browser that cannot reach the site and cannot take a snapshot
    either. *)
Definition offline : Browser.browser :=
  {| Browser.on_action := fun _ c =>
       match c with
       | Browser.Goto _ => Browser.Raise "net::ERR_INTERNET_DISCONNECTED"
       | Browser.Screenshot _ _ =>
           Browser.Raise "Page.screenshot: Target closed"
       | _ => Browser.Ok tt
       end;
     Browser.on_text := fun _ _ => Browser.Ok EmptyString;
     Browser.on_count := fun _ _ => Browser.Ok 0;
     Browser.on_url := fun _ => EmptyString;
     Browser.on_rows := fun _ _ => Browser.Ok [];
     Browser.on_tables := fun _ _ => Browser.Ok [];
     Browser.on_inputs := fun _ _ => Browser.Ok [] |}.

(** The link of a row that ends the scan for the decision notice: the text
    of the row can be read and holds the marker, the first cell holds a link,
    and the text of the link can be read. *)
Definition hit (r : Browser.row) : option Browser.link :=
  match Browser.row_text r with
  | Browser.Ok text =>
      if Py.contains Downloader.MARKER text then
        match Browser.row_link r with
        | Browser.Ok (Some l) =>
            match Browser.link_text l with
            | Browser.Ok _ => Some l
            | Browser.Raise _ => None
            end
        | _ => None
        end
      else None
  | Browser.Raise _ => None
  end.

(** The display name of a row: the trimmed text of its second cell. *)
Definition display_name (r : Browser.row) : option string :=
  match Browser.row_cells r with
  | Browser.Ok (_ :: Browser.Ok name_text :: _) => Some (Py.strip name_text)
  | _ => None
  end.

(** The document rows [document_of] lists, in the order of the rows. *)
Definition listed (all_rows : list Browser.row) : list (string * string) :=
  flat_map
    (fun r =>
       match Downloader.document_of r with
       | Some doc => [doc]
       | None => []
       end)
    all_rows.

(** Rows of a documents table: with a link in the first cell, and without. *)
Definition view (id : nat) : Browser.link :=
  {| Browser.link_id := id; Browser.link_text := Browser.Ok "View" |}.

Definition doc_row (id : nat) (name : string) : Browser.row :=
  {| Browser.row_text := Browser.Ok name;
     Browser.row_cells := Browser.Ok [Browser.Ok "View"; Browser.Ok name];
     Browser.row_link := Browser.Ok (Some (view id)) |}.

Definition plain_row (name : string) : Browser.row :=
  {| Browser.row_text := Browser.Ok name;
     Browser.row_cells :=
       Browser.Ok [Browser.Ok EmptyString; Browser.Ok name];
     Browser.row_link := Browser.Ok None |}.

(** A browser whose page shows the given table rows. *)
Definition showing (all_rows : list Browser.row) : Browser.browser :=
  {| Browser.on_action := fun _ _ => Browser.Ok tt;
     Browser.on_text := fun _ _ => Browser.Ok EmptyString;
     Browser.on_count := fun _ _ => Browser.Ok 0;
     Browser.on_url := fun _ => EmptyString;
     Browser.on_rows := fun _ _ => Browser.Ok all_rows;
     Browser.on_tables := fun _ _ => Browser.Ok [];
     Browser.on_inputs := fun _ _ => Browser.Ok [] |}.

(** The browser can be started and closed. *)
Definition lifecycle_ok (b : Browser.browser) : Prop :=
  forall h c,
    In c [Browser.Launch; Browser.NewContext; Browser.NewPage;
          Browser.SetDefaultTimeout 30000%N; Browser.Close] ->
    Browser.on_action b h c = Browser.Ok tt.

(** Every character of [s] passes the test [f]. *)
Fixpoint all_chars (f : ascii -> bool) (s : string) : bool :=
  match s with
  | EmptyString => true
  | String a s' => f a && all_chars f s'
  end.

(** [s] starts, or ends, with a whitespace character. *)
Definition starts_with_space (s : string) : bool :=
  match s with
  | EmptyString => false
  | String a _ => Py.isspace a
  end.

Fixpoint ends_with_space (s : string) : bool :=
  match s with
  | EmptyString => false
  | String a EmptyString => Py.isspace a
  | String _ s' => ends_with_space s'
  end.

(** The longest prefix of [s] whose characters pass [f], and what follows
    it. *)
Fixpoint span_of (f : ascii -> bool) (s : string) : string :=
  match s with
  | EmptyString => EmptyString
  | String a s' => if f a then String a (span_of f s') else EmptyString
  end.

Fixpoint after_span (f : ascii -> bool) (s : string) : string :=
  match s with
  | EmptyString => EmptyString
  | String a s' => if f a then after_span f s' else s
  end.

(** The first character of [s] passes the test [f]. *)
Definition head_is (f : ascii -> bool) (s : string) : bool :=
  match s with
  | EmptyString => false
  | String a _ => f a
  end.

(** The characters of an area value as matched, and once normalised. *)
Definition area_char (a : ascii) : bool :=
  Py.isdecimal a || Ascii.eqb a "." || Ascii.eqb a ",".

Definition digit_or_dot (a : ascii) : bool :=
  Py.isdecimal a || Ascii.eqb a ".".

(** One of the four zoning phrases matches at offset [i] of [blob]. *)
Definition phrase_starts_at (i : nat) (blob : string) : bool :=
  existsb (fun q => lit_startswith Re.I q (Py.drop i blob))
    Scraper.zone_phrases.

(** What the card loop keeps true of the pair it builds. *)
Definition card_fields_ok (v : option string * option string) : Prop :=
  (forall a, fst v = Some a -> all_chars digit_or_dot a = true)
  /\ (forall l, snd v = Some l ->
                l <> EmptyString /\ all_chars Py.isword l = true).

(** The name under which the notice of an application is saved, and the
    [dict] returned after a download of [n] bytes. *)
Definition notice_filename (app_number : string) : string :=
  "DA_" +:+ Py.replace_char "/" "_" app_number +:+ "_Decision_Notice.pdf".

Definition downloaded (app_number output_dir : string) (n : nat)
  : gmap string Downloader.pyval :=
  <["success" := Downloader.PBool true]>
    (<["file_path" :=
         Downloader.PStr
           (Downloader.path_join output_dir (notice_filename app_number))]>
       (<["filename" := Downloader.PStr (notice_filename app_number)]>
          (<["application_number" := Downloader.PStr app_number]>
             (<["file_size_kb" := Downloader.PSizeKB n]> ∅)))).

(** The two shapes of a result: a download with its path, or a failure with
    its reason and no path. *)
Definition result_ok (d : gmap string Downloader.pyval) : Prop :=
  (d !! "success" = Some (Downloader.PBool true)
   /\ (exists path, d !! "file_path" = Some (Downloader.PStr path))
   /\ d !! "error" = None)
  \/ (d !! "success" = Some (Downloader.PBool false)
      /\ d !! "file_path" = Some Downloader.PNone
      /\ exists reason, d !! "error" = Some (Downloader.PStr reason)).

(** The browser can always be closed. *)
Definition closes (b : Browser.browser) : Prop :=
  forall h, Browser.on_action b h Browser.Close = Browser.Ok tt.

(** A browser on which no selector ever shows up and no snapshot can be
    taken. *)
Definition blind : Browser.browser :=
  {| Browser.on_action := fun _ c =>
       match c with
       | Browser.WaitForSelector _ _ =>
           Browser.Raise "Timeout exceeded."
       | Browser.Screenshot _ _ =>
           Browser.Raise "Page.screenshot: Target closed"
       | _ => Browser.Ok tt
       end;
     Browser.on_text := fun _ _ => Browser.Ok EmptyString;
     Browser.on_count := fun _ _ => Browser.Ok 0;
     Browser.on_url := fun _ => EmptyString;
     Browser.on_rows := fun _ _ => Browser.Ok [];
     Browser.on_tables := fun _ _ => Browser.Ok [];
     Browser.on_inputs := fun _ _ => Browser.Ok [] |}.

(** The phrase [q] starts at place [j] of [blob], in whatever case. *)
Definition occurs_at (q : string) (j : nat) (blob : string) : bool :=
  lit_startswith Re.I q (Py.drop j blob).

(** [p] is the one zoning phrase that [blob] names: wherever one of the four
    phrases occurs in [blob], the occurrence is one of [p] or lies inside
    one of [p], as [medium density residential] lies inside
    [Low-medium density residential]. *)
Definition names_only (p blob : string) : Prop :=
  forall q j,
    In q Scraper.zone_phrases -> occurs_at q j blob = true ->
    exists i,
      occurs_at p i blob = true /\ i <= j
      /\ j + String.length q <= i + String.length p.

(** [names_only], decided by a scan of the places of [blob]. *)
Definition names_only_check (p blob : string) : bool :=
  let places := seq 0 (S (String.length blob)) in
  forallb
    (fun q =>
       forallb
         (fun j =>
            implb (occurs_at q j blob)
              (existsb
                 (fun i =>
                    occurs_at p i blob && (i <=? j)
                    && (j + String.length q <=? i + String.length p))
                 places))
         places)
    Scraper.zone_phrases.

(** The link in the first cell of a row whose text can be read and holds
    the marker. *)
Definition marked_link (r : Browser.row) : option Browser.link :=
  match Browser.row_text r with
  | Browser.Ok text =>
      if Py.contains Downloader.MARKER text then
        match Browser.row_link r with
        | Browser.Ok (Some l) => Some l
        | _ => None
        end
      else None
  | Browser.Raise _ => None
  end.

(** * Properties *)

(** ** Strings *)

#[local] Arguments String.append !_ _ / : simpl nomatch.

Section StringFacts.

Lemma append_nil_r (s : string) : s +:+ "" = s.
Proof. induction s as [|a s IH]; simpl; [reflexivity | now rewrite IH]. Qed.

Lemma append_assoc (s t u : string) : (s +:+ t) +:+ u = s +:+ (t +:+ u).
Proof. induction s as [|a s IH]; simpl; [reflexivity | now rewrite IH]. Qed.

Lemma length_append (s t : string) :
  String.length (s +:+ t) = String.length s + String.length t.
Proof. induction s as [|a s IH]; simpl; [reflexivity | now rewrite IH]. Qed.

Lemma take_drop (n : nat) (s : string) : Py.take n s +:+ Py.drop n s = s.
Proof.
  revert s; induction n as [|n IH]; intros [|a s]; simpl; try reflexivity.
  now rewrite IH.
Qed.

Lemma length_drop (n : nat) (s : string) :
  String.length (Py.drop n s) = String.length s - n.
Proof.
  revert s; induction n as [|n IH]; intros [|a s]; simpl; auto with arith.
Qed.

Lemma take_append (s t : string) : Py.take (String.length s) (s +:+ t) = s.
Proof. induction s as [|a s IH]; simpl; [now destruct t | now rewrite IH]. Qed.

Lemma length_lower (s : string) :
  String.length (Py.lower s) = String.length s.
Proof. induction s as [|a s IH]; simpl; [reflexivity | now rewrite IH]. Qed.

(** The part of [s] consumed when the matcher has reached [drop n s]. *)
Lemma take_consumed (n : nat) (s : string) :
  n <= String.length s ->
  Py.take (String.length s - String.length (Py.drop n s)) s = Py.take n s.
Proof. intros H. rewrite length_drop. f_equal. lia. Qed.

(** Two splits of one string at the same length are the same split. *)
Lemma append_same_length (s t s' t' : string) :
  s +:+ t = s' +:+ t' -> String.length s = String.length s' ->
  s = s' /\ t = t'.
Proof.
  revert s'; induction s as [|a s IH]; intros [|a' s']; simpl;
    intros E L; try discriminate; [now split|].
  injection E as -> E. injection L as L.
  destruct (IH _ E L) as [-> ->]. now split.
Qed.

End StringFacts.

(** ** The matcher *)

Section MatcherFacts.

Import Re.

(** The equations of [run] that the proofs rewrite with. *)
Lemma run_Seq {A : Type} (fl : flags) (r1 r2 : re)
    (k : string -> caps -> option A) (s : string) (c : caps) :
  run fl (Seq r1 r2) k s c = run fl r1 (run fl r2 k) s c.
Proof. reflexivity. Qed.

Lemma run_Alt {A : Type} (fl : flags) (r1 r2 : re)
    (k : string -> caps -> option A) (s : string) (c : caps) :
  run fl (Alt r1 r2) k s c
  = match run fl r1 k s c with
    | Some x => Some x
    | None => run fl r2 k s c
    end.
Proof. reflexivity. Qed.

Lemma run_Star {A : Type} (fl : flags) (greedy : bool) (r : re)
    (k : string -> caps -> option A) (s : string) (c : caps) :
  run fl (Star greedy r) k s c
  = star_loop greedy (run fl r) k (String.length s) s c.
Proof. reflexivity. Qed.

Lemma run_Group {A : Type} (fl : flags) (n : nat) (r : re)
    (k : string -> caps -> option A) (s : string) (c : caps) :
  run fl (Group n r) k s c
  = run fl r
      (fun s' c' =>
         k s' ((n, Py.take (String.length s - String.length s') s) :: c'))
      s c.
Proof. reflexivity. Qed.

Lemma run_lit {A : Type} (fl : flags) (p : string)
    (k : string -> caps -> option A) (s : string) (c : caps) :
  run fl (lit p) k s c =
  if lit_startswith fl p s then k (Py.drop (String.length p) s) c else None.
Proof.
  revert s; induction p as [|a p IH]; intros s; simpl.
  - now destruct s.
  - destruct s as [|b s]; [reflexivity|].
    destruct (chr_match fl a b); simpl; [apply IH | reflexivity].
Qed.

Lemma lit_startswith_length (fl : flags) (p s : string) :
  lit_startswith fl p s = true -> String.length p <= String.length s.
Proof.
  revert s; induction p as [|a p IH]; intros [|b s]; simpl;
    try discriminate; try lia.
  intros H. apply andb_prop in H as [_ H]. apply IH in H. lia.
Qed.

(** Under [re.I] a literal matches the strings with the same lower case. *)
Lemma lit_startswith_I (p s : string) :
  lit_startswith I p s = true <->
  exists z rest, s = z +:+ rest /\ Py.lower z = Py.lower p.
Proof.
  revert s; induction p as [|a p IH]; intros s; simpl.
  - split; [intros _; exists "", s; now split | reflexivity].
  - destruct s as [|b s].
    + split; [discriminate|]. intros (z & rest & E & L).
      destruct z; simpl in *; [discriminate L | discriminate E].
    + unfold chr_match at 1; simpl. rewrite andb_true_iff, IH, Ascii.eqb_eq.
      split.
      * intros (Hc & z & rest & -> & L). exists (String b z), rest.
        simpl. now rewrite L, Hc.
      * intros (z & rest & E & L). destruct z as [|b' z]; [discriminate L|].
        simpl in *. injection E as -> ->. injection L as -> L.
        split; [reflexivity | now exists z, rest].
Qed.

Lemma lit_startswith_take (p s : string) :
  lit_startswith I p s = true ->
  Py.lower (Py.take (String.length p) s) = Py.lower p.
Proof.
  intros H. apply lit_startswith_I in H as (z & rest & -> & L).
  assert (String.length z = String.length p) as <-
    by now rewrite <- (length_lower z), L, length_lower.
  now rewrite take_append.
Qed.

(** [first_suffix] answers on the leftmost suffix on which [f] does. *)
Lemma first_suffix_Some {A : Type} (f : string -> option A) (s : string)
    (x : A) :
  first_suffix f s = Some x ->
  exists pre suf,
    s = pre +:+ suf /\ f suf = Some x /\
    forall pre' suf', s = pre' +:+ suf' ->
      String.length pre' < String.length pre -> f suf' = None.
Proof.
  induction s as [|a s IH]; simpl.
  - destruct (f "") eqn:E; [|discriminate].
    intros [= ->]. exists "", "". repeat split; auto. simpl; lia.
  - destruct (f (String a s)) eqn:E.
    + intros [= ->]. exists "", (String a s). repeat split; auto.
      simpl; lia.
    + intros H. destruct (IH H) as (pre & suf & -> & Hm & Hl).
      exists (String a pre), suf. repeat split; auto.
      intros [|a' pre'] suf'; simpl.
      * now intros <- _.
      * intros [= <- E'] L. apply (Hl pre' suf' E'). lia.
Qed.

Lemma first_suffix_None {A : Type} (f : string -> option A) (s : string) :
  first_suffix f s = None ->
  forall pre suf, s = pre +:+ suf -> f suf = None.
Proof.
  induction s as [|a s IH]; simpl.
  - destruct (f "") eqn:E; [discriminate|].
    intros _ [|] suf; simpl; [now intros <- | discriminate].
  - destruct (f (String a s)) eqn:E; [discriminate|].
    intros H [|a' pre] suf; simpl; [now intros <-|].
    intros [= <- E']. now apply (IH H pre).
Qed.

Lemma search_first_suffix (fl : flags) (r : re) (s : string) :
  search fl r s = first_suffix (match_here fl r) s.
Proof.
  induction s as [|a s IH]; simpl; [reflexivity|].
  now rewrite IH.
Qed.

(** [search] returns the match at the leftmost start position. *)
Lemma search_Some (fl : flags) (r : re) (s : string) (c : caps) :
  search fl r s = Some c ->
  exists pre suf,
    s = pre +:+ suf /\ match_here fl r suf = Some c /\
    forall pre' suf', s = pre' +:+ suf' ->
      String.length pre' < String.length pre ->
      match_here fl r suf' = None.
Proof. rewrite search_first_suffix. apply first_suffix_Some. Qed.

Lemma search_None (fl : flags) (r : re) (s : string) :
  search fl r s = None ->
  forall pre suf, s = pre +:+ suf -> match_here fl r suf = None.
Proof. rewrite search_first_suffix. apply first_suffix_None. Qed.

(** A lazy [.*?] under [re.DOTALL] hands the continuation the suffixes of
    the text, the longest first. *)
Lemma run_lazy_dot_star {A : Type} (k : string -> caps -> option A)
    (fuel : nat) (s : string) (c : caps) :
  String.length s <= fuel ->
  star_loop false (run DOTALL_I Dot) k fuel s c
  = first_suffix (fun s' => k s' c) s.
Proof.
  revert s; induction fuel as [|fuel IH]; intros s L.
  - destruct s; [|simpl in L; lia]. simpl. now destruct (k "" c).
  - destruct s as [|a s]; cbn [star_loop first_suffix run].
    + now destruct (k "" c).
    + destruct (k (String a s) c); [reflexivity|].
      cbn [dotall DOTALL_I orb].
      replace (String.length s <? String.length (String a s)) with true
        by (symmetry; apply Nat.ltb_lt; simpl; lia).
      apply IH. simpl in L. lia.
Qed.

End MatcherFacts.

(** ** Zone extraction *)

Section ZoneFacts.

Import Re Scraper.

Lemma startswith_lower (p s : string) :
  Py.startswith (Py.lower p) (Py.lower s) = lit_startswith I p s.
Proof.
  revert s; induction p as [|a p IH]; intros [|b s]; simpl; try reflexivity.
  now rewrite IH.
Qed.

Lemma mentions_iff (p blob : string) :
  mentions p blob = true <->
  exists pre suf, blob = pre +:+ suf /\ lit_startswith I p suf = true.
Proof.
  unfold mentions. induction blob as [|a s IH].
  - simpl. rewrite orb_false_r. change "" with (Py.lower "") at 1.
    rewrite startswith_lower. split.
    + intros H. now exists "", "".
    + intros ([|] & suf & E & H); simpl in E; [now subst | discriminate].
  - change (Py.lower (String a s))
      with (String (Py.lower_char a) (Py.lower s)).
    cbn [Py.contains].
    change (String (Py.lower_char a) (Py.lower s))
      with (Py.lower (String a s)).
    rewrite orb_true_iff, startswith_lower, IH. split.
    + intros [H | (pre & suf & -> & H)].
      * now exists "", (String a s).
      * now exists (String a pre), suf.
    + intros ([|a' pre] & suf & E & H); simpl in E.
      * left. now subst.
      * right. injection E as <- ->. now exists pre, suf.
Qed.

(** One phrase tried at the start of [s], inside the group. *)
Lemma run_lit_group (p s : string) :
  run I (lit p)
    (fun s' c' =>
       Some ((1, Py.take (String.length s - String.length s') s) :: c')) s []
  = if lit_startswith I p s
    then Some [(1, Py.take (String.length p) s)] else None.
Proof.
  rewrite run_lit. destruct (lit_startswith I p s) eqn:E; [|reflexivity].
  rewrite take_consumed by (now apply lit_startswith_length in E).
  reflexivity.
Qed.

(** An anchored match of the zone pattern is a match of one phrase, and its
    group is the text under that phrase. *)
Lemma zone_match_here_Some (s : string) (c : caps) :
  match_here I zone_re s = Some c ->
  exists p, In p zone_phrases /\ lit_startswith I p s = true /\
            c = [(1, Py.take (String.length p) s)].
Proof.
  unfold match_here, zone_re. cbn [run]. rewrite !run_lit_group.
  repeat match goal with
  | |- context [lit_startswith I ?p s] =>
      let E := fresh "E" in
      destruct (lit_startswith I p s) eqn:E;
      [ intros H; exists p; split; [simpl; tauto|]; split; [exact E|];
        now injection H as <- | ]
  end.
  discriminate.
Qed.

Lemma zone_match_here_None (s p : string) :
  match_here I zone_re s = None ->
  In p zone_phrases -> lit_startswith I p s = false.
Proof.
  unfold match_here, zone_re. cbn [run]. rewrite !run_lit_group.
  repeat match goal with
  | |- context [if lit_startswith I ?q s then _ else _] =>
      let E := fresh "E" in
      destruct (lit_startswith I q s) eqn:E; [discriminate|]
  end.
  intros _. simpl. intros [<- | [<- | [<- | [<- | []]]]]; assumption.
Qed.

(** Whatever the blob, a zone that is returned is the text under the
    leftmost occurrence of any of the four phrases. *)
Lemma extract_zone_leftmost (blob z : string) :
  extract_zone blob = Some z ->
  exists p pre post,
    In p zone_phrases /\ blob = pre +:+ z +:+ post /\
    Py.lower z = Py.lower p /\
    forall q pre' z' post',
      In q zone_phrases ->
      blob = pre' +:+ z' +:+ post' -> Py.lower z' = Py.lower q ->
      String.length pre <= String.length pre'.
Proof.
  unfold extract_zone, search_group1.
  destruct (search I zone_re blob) as [c|] eqn:S; [|discriminate].
  apply search_Some in S as (pre & suf & E & Hc & Hleft).
  apply zone_match_here_Some in Hc as (p & Hp & Hs & ->).
  cbn [group Nat.eqb]. intros [= <-].
  exists p, pre, (Py.drop (String.length p) suf).
  rewrite take_drop. repeat split; auto using lit_startswith_take.
  intros q pre' z' post' Hq E' L'.
  destruct (Nat.le_gt_cases (String.length pre) (String.length pre'))
    as [Hle | Hlt]; [exact Hle | exfalso].
  apply (Hleft pre' (z' +:+ post')) in Hlt; [|congruence].
  apply (zone_match_here_None _ q) in Hlt; [|exact Hq].
  assert (lit_startswith I q (z' +:+ post') = true) as Ht
    by (apply lit_startswith_I; now exists z', post').
  congruence.
Qed.

Lemma extract_zone_None (blob : string) :
  extract_zone blob = None <->
  forall q, In q zone_phrases -> mentions q blob = false.
Proof.
  unfold extract_zone, search_group1. split.
  - intros H q Hq. destruct (mentions q blob) eqn:M; [exfalso | reflexivity].
    apply mentions_iff in M as (pre & suf & E & Hs).
    destruct (search I zone_re blob) as [c|] eqn:S.
    + apply search_Some in S as (? & ? & _ & Hc & _).
      apply zone_match_here_Some in Hc as (? & _ & _ & ->). discriminate.
    + apply search_None with (pre := pre) (suf := suf) in S; [|exact E].
      apply (zone_match_here_None _ q) in S; [congruence | exact Hq].
  - intros Hnone.
    destruct (search I zone_re blob) as [c|] eqn:S; [exfalso | reflexivity].
    apply search_Some in S as (pre & suf & E & Hc & _).
    apply zone_match_here_Some in Hc as (p' & Hp' & Hs & _).
    specialize (Hnone p' Hp').
    assert (mentions p' blob = true)
      by (apply mentions_iff; now exists pre, suf).
    congruence.
Qed.

Lemma lower_take (n : nat) (s : string) :
  Py.lower (Py.take n s) = Py.take n (Py.lower s).
Proof.
  revert s; induction n as [|n IH]; intros [|a s]; simpl; try reflexivity.
  now rewrite IH.
Qed.

Lemma take_append_le (n : nat) (z rest : string) :
  n <= String.length z -> Py.take n (z +:+ rest) = Py.take n z.
Proof.
  revert z; induction n as [|n IH]; intros z L.
  - now destruct (z +:+ rest), z.
  - destruct z as [|a z]; simpl in *; [lia|]. now rewrite IH by lia.
Qed.

(** A phrase that matches at the start of [s] fixes the first four
    characters of [s] up to case. *)
Lemma lit_startswith_take4 (p s : string) :
  lit_startswith I p s = true -> 4 <= String.length p ->
  Py.lower (Py.take 4 s) = Py.take 4 (Py.lower p).
Proof.
  intros H L. apply lit_startswith_I in H as (z & rest & -> & E).
  assert (String.length z = String.length p) as Lz
    by now rewrite <- (length_lower z), E, length_lower.
  rewrite take_append_le by lia. now rewrite lower_take, E.
Qed.

(** At one place of a text at most one of the four phrases matches. *)
Lemma zone_phrases_exclusive (p q s : string) :
  In p zone_phrases -> In q zone_phrases ->
  lit_startswith I p s = true -> lit_startswith I q s = true -> p = q.
Proof.
  intros Hp Hq Sp Sq.
  assert (Py.take 4 (Py.lower p) = Py.take 4 (Py.lower q)) as E.
  { rewrite <- (lit_startswith_take4 p s), <- (lit_startswith_take4 q s);
      auto.
    - simpl in Hq. destruct Hq as [<- | [<- | [<- | [<- | []]]]]; simpl; lia.
    - simpl in Hp. destruct Hp as [<- | [<- | [<- | [<- | []]]]]; simpl; lia. }
  simpl in Hp, Hq.
  destruct Hp as [<- | [<- | [<- | [<- | []]]]];
    destruct Hq as [<- | [<- | [<- | [<- | []]]]];
    try reflexivity; vm_compute in E; discriminate E.
Qed.

Lemma length_take (n : nat) (s : string) :
  n <= String.length s -> String.length (Py.take n s) = n.
Proof.
  revert s; induction n as [|n IH]; intros [|a s]; simpl; try reflexivity;
    try lia.
  intros L. rewrite IH; lia.
Qed.

(** A phrase that starts at a place of the blob splits the blob there. *)
Lemma occurs_at_split (q : string) (j : nat) (blob : string) :
  In q zone_phrases -> occurs_at q j blob = true ->
  j + String.length q <= String.length blob
  /\ exists z post,
       blob = Py.take j blob +:+ z +:+ post /\ Py.lower z = Py.lower q.
Proof.
  unfold occurs_at. intros Hq H.
  pose proof (lit_startswith_length _ _ _ H) as L. rewrite length_drop in L.
  assert (0 < String.length q) as Lq
    by (simpl in Hq; destruct Hq as [<- | [<- | [<- | [<- | []]]]];
        simpl; lia).
  split; [lia|].
  apply lit_startswith_I in H as (z & post & E & Hz).
  exists z, post. split; [|exact Hz]. rewrite <- E. symmetry. apply take_drop.
Qed.

Lemma split_occurs_at (q pre z post : string) :
  Py.lower z = Py.lower q ->
  occurs_at q (String.length pre) (pre +:+ z +:+ post) = true.
Proof.
  intros Hz. unfold occurs_at.
  replace (Py.drop (String.length pre) (pre +:+ z +:+ post))
    with (z +:+ post).
  - apply lit_startswith_I. now exists z, post.
  - clear. induction pre as [|a pre IH]; simpl; [now destruct (z +:+ post)|].
    exact IH.
Qed.

(** A blob that mentions no phrase but [p] names [p] only. *)
Lemma only_mentioned_names_only (p blob : string) :
  (forall q, In q zone_phrases -> mentions q blob = true -> q = p) ->
  names_only p blob.
Proof.
  intros Huniq q j Hq H. exists j.
  assert (q = p) as <-.
  { apply Huniq; [exact Hq|]. apply mentions_iff.
    exists (Py.take j blob), (Py.drop j blob).
    split; [symmetry; apply take_drop | exact H]. }
  split; [exact H | lia].
Qed.

Lemma names_only_check_true (p blob : string) :
  names_only_check p blob = true -> names_only p blob.
Proof.
  unfold names_only_check. intros C q j Hq H.
  destruct (occurs_at_split _ _ _ Hq H) as [L _].
  rewrite forallb_forall in C. specialize (C q Hq).
  rewrite forallb_forall in C.
  assert (In j (seq 0 (S (String.length blob)))) as Hj
    by (apply in_seq; lia).
  specialize (C j Hj). rewrite H in C. cbn [implb] in C.
  apply existsb_exists in C as (i & _ & C).
  apply andb_prop in C as [C C3]. apply andb_prop in C as [C1 C2].
  apply Nat.leb_le in C2, C3. now exists i.
Qed.

(** C1.  When the blob names exactly one of the four zoning phrases, in
    whatever case and however often, [extract_zone] returns the text of the
    blob under the leftmost occurrence of that phrase, in the blob's own
    casing; when none of the four occurs, the zone is absent.  A blob names
    [Low-medium density residential] alone although the letters of
    [medium density residential] stand inside it. *)
Theorem zone_single_phrase (blob : string) :
  (forall p,
     In p zone_phrases -> mentions p blob = true -> names_only p blob ->
     exists pre z post,
       blob = pre +:+ z +:+ post /\ Py.lower z = Py.lower p /\
       extract_zone blob = Some z /\
       forall pre' z' post',
         blob = pre' +:+ z' +:+ post' -> Py.lower z' = Py.lower p ->
         String.length pre <= String.length pre')
  /\ ((forall q, In q zone_phrases -> mentions q blob = false) ->
      extract_zone blob = None).
Proof.
  split.
  - intros p Hp Hm Honly.
    destruct (extract_zone blob) as [z|] eqn:Z.
    + destruct (extract_zone_leftmost _ _ Z)
        as (p' & pre & post & Hp' & E & L & Hleft).
      assert (p' = p) as ->.
      { assert (occurs_at p' (String.length pre) blob = true) as O'
          by (rewrite E; now apply split_occurs_at).
        destruct (Honly _ _ Hp' O') as (i & O & Li & _).
        destruct (occurs_at_split _ _ _ Hp O) as (Lb & z0 & post0 & E0 & Hz0).
        pose proof (Hleft p _ _ _ Hp E0 Hz0) as Lpre.
        rewrite length_take in Lpre by lia.
        assert (i = String.length pre) as -> by lia.
        apply (zone_phrases_exclusive p' p
                 (Py.drop (String.length pre) blob) Hp' Hp O' O). }
      exists pre, z, post. repeat split; auto.
      intros pre' z' post'. now apply Hleft.
    + rewrite (proj1 (extract_zone_None blob) Z p Hp) in Hm. discriminate.
  - apply (proj2 (extract_zone_None blob)).
Qed.

(** The blob of a side panel that names its zone in capitals, one whose zone
    holds the letters of another phrase, and one that names none. *)
Lemma zone_single_phrase_witness :
  (exists pre z post,
     "Zone: MEDIUM Density Residential (RD5)" = pre +:+ z +:+ post /\
     Py.lower z = Py.lower "Medium density residential" /\
     extract_zone "Zone: MEDIUM Density Residential (RD5)" = Some z /\
     forall pre' z' post',
       "Zone: MEDIUM Density Residential (RD5)" = pre' +:+ z' +:+ post' ->
       Py.lower z' = Py.lower "Medium density residential" ->
       String.length pre <= String.length pre')
  /\ (exists pre z post,
        "Zone: Low-Medium DENSITY residential" = pre +:+ z +:+ post /\
        Py.lower z = Py.lower "Low-medium density residential" /\
        extract_zone "Zone: Low-Medium DENSITY residential" = Some z /\
        forall pre' z' post',
          "Zone: Low-Medium DENSITY residential" = pre' +:+ z' +:+ post' ->
          Py.lower z' = Py.lower "Low-medium density residential" ->
          String.length pre <= String.length pre')
  /\ extract_zone "Zone: Rural" = None.
Proof.
  split; [|split].
  - apply (proj1 (zone_single_phrase "Zone: MEDIUM Density Residential (RD5)")
             "Medium density residential").
    + simpl; tauto.
    + vm_compute; reflexivity.
    + apply names_only_check_true. vm_compute; reflexivity.
  - apply (proj1 (zone_single_phrase "Zone: Low-Medium DENSITY residential")
             "Low-medium density residential").
    + simpl; tauto.
    + vm_compute; reflexivity.
    + apply names_only_check_true. vm_compute; reflexivity.
  - apply (proj2 (zone_single_phrase "Zone: Rural")).
    intros q [<- | [<- | [<- | [<- | []]]]]; vm_compute; reflexivity.
Defined.

End ZoneFacts.

(** ** The overlay section and its lines *)

Section OverlayFacts.

Import Re Scraper.

Lemma ord_10 (a : ascii) : (Py.ord a =? 10) = Ascii.eqb a (ascii_of_nat 10).
Proof. destruct a as [[] [] [] [] [] [] [] []]; reflexivity. Qed.

Lemma lit_startswith_dotall (p s : string) :
  lit_startswith DOTALL_I p s = lit_startswith I p s.
Proof.
  revert s; induction p as [|a p IH]; intros [|b s]; simpl; auto.
  now rewrite IH.
Qed.

(** The end of the overlay pattern, [(?:LGIP|Local Government|Plan Zone|$)],
    matches exactly where the section ends. *)
Lemma run_end_anchor (s : string) (c : caps) :
  run DOTALL_I
    (Alt (lit "LGIP")
       (Alt (lit "Local Government") (Alt (lit "Plan Zone") Eos)))
    (fun _ c' => Some c') s c
  = if at_section_end s then Some c else None.
Proof.
  cbn [run]. rewrite !run_lit.
  unfold at_section_end, end_anchors. cbn [existsb].
  rewrite !lit_startswith_dotall.
  destruct (lit_startswith I "LGIP" s); [reflexivity|].
  destruct (lit_startswith I "Local Government" s); [reflexivity|].
  destruct (lit_startswith I "Plan Zone" s); [reflexivity|].
  destruct s as [|a [|b s]].
  - reflexivity.
  - rewrite ord_10. unfold LF. simpl.
    now destruct (Ascii.eqb a (ascii_of_nat 10)).
  - unfold LF. simpl. now destruct (Ascii.eqb a (ascii_of_nat 10)).
Qed.

Lemma first_suffix_ext {A : Type} (f g : string -> option A) (s : string) :
  (forall s', f s' = g s') -> first_suffix f s = first_suffix g s.
Proof.
  intros E. induction s as [|a s IH]; simpl; rewrite E; [reflexivity|].
  now rewrite IH.
Qed.

Lemma overlay_match_here (s : string) :
  match_here DOTALL_I overlay_re s
  = if lit_startswith I "Overlays" s
    then section_of (Py.drop (String.length "Overlays") s) else None.
Proof.
  unfold match_here, overlay_re.
  rewrite run_Seq, run_lit, lit_startswith_dotall.
  destruct (lit_startswith I "Overlays" s); [|reflexivity].
  rewrite run_Seq, run_Group, run_Star, run_lazy_dot_star by lia.
  apply first_suffix_ext. intros s'. apply run_end_anchor.
Qed.

Lemma section_of_Some (s1 : string) (c : caps) :
  section_of s1 = Some c ->
  exists sect rest,
    s1 = sect +:+ rest /\ c = [(1, sect)] /\ at_section_end rest = true /\
    forall sect' rest', s1 = sect' +:+ rest' ->
      String.length sect' < String.length sect ->
      at_section_end rest' = false.
Proof.
  intros H. apply first_suffix_Some in H as (sect & rest & -> & H & Hmin).
  exists sect, rest. split; [reflexivity|].
  destruct (at_section_end rest) eqn:E; [|discriminate].
  injection H as <-. rewrite length_append, Nat.add_sub, take_append.
  repeat split. intros sect' rest' E' L. specialize (Hmin _ _ E' L).
  now destruct (at_section_end rest').
Qed.

Lemma section_of_total (s1 : string) : section_of s1 <> None.
Proof.
  intros H.
  apply first_suffix_None with (pre := s1) (suf := "") in H;
    [discriminate | now rewrite append_nil_r].
Qed.

(** The overlay section of a blob: the text between the leftmost start
    anchor and the first place after it where the section ends. *)
Lemma overlay_section_Some (blob sect : string) :
  overlay_section blob = Some sect ->
  exists pre a rest,
    blob = pre +:+ a +:+ sect +:+ rest /\
    Py.lower a = Py.lower "Overlays" /\
    (forall pre' suf', blob = pre' +:+ suf' ->
       String.length pre' < String.length pre ->
       lit_startswith I "Overlays" suf' = false) /\
    at_section_end rest = true /\
    (forall sect' rest', sect +:+ rest = sect' +:+ rest' ->
       String.length sect' < String.length sect ->
       at_section_end rest' = false).
Proof.
  unfold overlay_section, search_group1.
  destruct (search DOTALL_I overlay_re blob) as [c|] eqn:S; [|discriminate].
  apply search_Some in S as (pre & suf & -> & Hc & Hleft).
  rewrite overlay_match_here in Hc.
  destruct (lit_startswith I "Overlays" suf) eqn:Ha; [|discriminate].
  apply section_of_Some in Hc as (sect' & rest & E & -> & Hend & Hmin).
  cbn [group Nat.eqb]. intros [= ->].
  exists pre, (Py.take (String.length "Overlays") suf), rest.
  rewrite <- E, take_drop. repeat split; auto using lit_startswith_take.
  - intros pre' suf' E' L. specialize (Hleft _ _ E' L).
    rewrite overlay_match_here in Hleft.
    destruct (lit_startswith I "Overlays" suf'); [|reflexivity].
    now apply section_of_total in Hleft.
Qed.

Lemma overlay_section_None (blob : string) :
  overlay_section blob = None -> mentions "Overlays" blob = false.
Proof.
  unfold overlay_section, search_group1. intros H.
  destruct (mentions "Overlays" blob) eqn:M; [exfalso | reflexivity].
  apply mentions_iff in M as (pre & suf & E & Ha).
  destruct (search DOTALL_I overlay_re blob) as [c|] eqn:S.
  - apply search_Some in S as (pre1 & suf1 & _ & Hc & _).
    rewrite overlay_match_here in Hc.
    destruct (lit_startswith I "Overlays" suf1); [|discriminate].
    apply section_of_Some in Hc as (? & ? & _ & -> & _). discriminate.
  - apply search_None with (pre := pre) (suf := suf) in S; [|exact E].
    rewrite overlay_match_here, Ha in S. now apply section_of_total in S.
Qed.

Lemma mem_In (x : string) (l : list string) : Py.mem x l = true <-> In x l.
Proof.
  unfold Py.mem. rewrite existsb_exists. split.
  - intros (y & Hy & E). apply String.eqb_eq in E. now subst.
  - intros H. exists x. split; [exact H | apply String.eqb_refl].
Qed.

(** The overlay loop keeps the lines that pass both tests, at their first
    occurrence. *)
Lemma overlay_loop (lines acc : list string) :
  fold_left overlay_step lines acc
  = acc ++ first_seen acc (List.filter kept lines).
Proof.
  revert acc; induction lines as [|ln lines IH]; intros acc; simpl.
  - now rewrite app_nil_r.
  - rewrite IH. unfold overlay_step, kept at 1 2.
    destruct (excluded ln); simpl; [reflexivity|].
    destruct (5 <? String.length ln); simpl; [|reflexivity].
    destruct (Py.mem ln acc); simpl; [reflexivity|].
    now rewrite <- app_assoc.
Qed.

Lemma first_seen_In (x : string) (l seen : list string) :
  In x (first_seen seen l) <-> In x l /\ ~ In x seen.
Proof.
  revert seen; induction l as [|y l IH]; intros seen; simpl; [tauto|].
  destruct (Py.mem y seen) eqn:M.
  - apply mem_In in M. rewrite IH. split; [tauto|].
    intros [[-> | H] Hn]; tauto.
  - assert (~ In y seen) as Hy
      by (intros H; apply mem_In in H; congruence).
    simpl. rewrite IH, in_app_iff. simpl. split.
    + intros [-> | [H Hn]]; tauto.
    + intros [[-> | H] Hn]; [tauto|].
      destruct (String.string_dec y x) as [-> | Hne]; [tauto|].
      right. split; [exact H|]. intros [? | [? | []]]; tauto.
Qed.

Lemma first_seen_NoDup (l seen : list string) :
  List.NoDup (first_seen seen l).
Proof.
  revert seen; induction l as [|y l IH]; intros seen; simpl.
  - constructor.
  - destruct (Py.mem y seen); [apply IH|].
    constructor; [|apply IH].
    rewrite first_seen_In, in_app_iff. simpl. tauto.
Qed.

Lemma stripped_lines_In (ln text : string) :
  In ln (stripped_lines text) <->
  exists raw, In raw (Py.splitlines text) /\ Py.strip raw = ln /\ ln <> "".
Proof.
  unfold stripped_lines. rewrite in_map_iff. split.
  - intros (raw & <- & H). apply filter_In in H as [H N].
    exists raw. repeat split; auto.
    apply negb_true_iff, String.eqb_neq in N. exact N.
  - intros (raw & H & <- & N). exists raw. split; [reflexivity|].
    apply filter_In. split; [exact H|].
    now apply negb_true_iff, String.eqb_neq.
Qed.


(** C2.  On the example blob the overlay extraction isolates the four lines
    between [Overlays] and [LGIP], drops [Show on map] although the exclusion
    is written in lower case, keeps the first of the two [Flood overlay]
    lines, and returns the two names in the order they were first seen. *)
Theorem overlays_of_scanner_blob :
  overlay_section scanner_blob
  = Some (LF +:+ "Flood overlay" +:+ LF +:+ "Show on map" +:+ LF
          +:+ "Bushfire overlay" +:+ LF +:+ "Flood overlay" +:+ LF)
  /\ In "show on map" exclude
  /\ excluded "Show on map" = true
  /\ extract_overlays scanner_blob = ["Flood overlay"; "Bushfire overlay"]
  /\ snd (extract_zone_density_overlays scanner_blob)
     = ["Flood overlay"; "Bushfire overlay"].
Proof.
  repeat split; try (vm_compute; reflexivity).
  simpl; tauto.
Qed.

(** C3, as stated, fails: the line [Flood] of the section is not blank, holds
    no excluded text and repeats no earlier line, yet it is not returned. *)
Lemma overlays_short_line_dropped :
  overlay_section short_line_blob = Some (LF +:+ "Flood" +:+ LF)
  /\ In "Flood" (stripped_lines (LF +:+ "Flood" +:+ LF))
  /\ excluded "Flood" = false
  /\ ~ In "Flood" (extract_overlays short_line_blob).
Proof.
  repeat split; try (vm_compute; reflexivity).
  - vm_compute. tauto.
  - vm_compute. tauto.
Qed.

(** Appending a line feed to a text adds at most one empty line. *)
Lemma splitlines_LF (s : string) :
  Py.splitlines (s +:+ LF) = Py.splitlines s
  \/ Py.splitlines (s +:+ LF) = Py.splitlines s ++ [""].
Proof.
  remember (String.length s) as n eqn:L.
  revert s L; induction n as [n IH] using lt_wf_ind; intros s L.
  destruct s as [|c s'].
  - right. reflexivity.
  - assert (Hs' : Py.splitlines (s' +:+ LF) = Py.splitlines s'
                  \/ Py.splitlines (s' +:+ LF) = Py.splitlines s' ++ [""])
      by (apply (IH (String.length s')); [subst; simpl; lia | reflexivity]).
    change (String c s' +:+ LF) with (String c (s' +:+ LF)).
    cbn [Py.splitlines].
    destruct (Py.islinebreak c) eqn:B.
    + destruct s' as [|d s''].
      * simpl. destruct (Py.ord c =? 13); simpl; [left | right]; reflexivity.
      * change (String d s'' +:+ LF) with (String d (s'' +:+ LF)).
        cbv iota.
        destruct ((Py.ord c =? 13) && (Py.ord d =? 10)).
        -- destruct (IH (String.length s'')) with (s := s'') as [E | E];
             [subst; simpl; lia | reflexivity | |]; rewrite E; auto.
        -- change (String d (s'' +:+ LF)) with (String d s'' +:+ LF).
           destruct Hs' as [E | E]; rewrite E; auto.
    + destruct Hs' as [E | E]; rewrite E; [now left|].
      destruct (Py.splitlines s') as [|l ls]; simpl; [now left | now right].
Qed.

(** So the final line feed that [$] leaves out of the group holds no line. *)
Lemma stripped_lines_LF (s : string) :
  stripped_lines (s +:+ LF) = stripped_lines s.
Proof.
  unfold stripped_lines.
  destruct (splitlines_LF s) as [-> | ->]; [reflexivity|].
  rewrite List.filter_app. simpl. now rewrite app_nil_r.
Qed.

Lemma at_section_end_cases (rest : string) :
  at_section_end rest = at_anchor_or_end rest || String.eqb rest LF.
Proof. reflexivity. Qed.

(** The group of the overlay pattern and the section of the spec, which runs
    to an end anchor or to the end of the blob, have the same lines. *)
Lemma isolated_section (blob sect : string) :
  overlay_section blob = Some sect ->
  exists pre a sect' rest,
    blob = pre +:+ a +:+ sect' +:+ rest /\
    Py.lower a = Py.lower "Overlays" /\
    (forall pre' suf', blob = pre' +:+ suf' ->
       String.length pre' < String.length pre ->
       lit_startswith I "Overlays" suf' = false) /\
    at_anchor_or_end rest = true /\
    (forall sect'' rest', sect' +:+ rest = sect'' +:+ rest' ->
       String.length sect'' < String.length sect' ->
       at_anchor_or_end rest' = false) /\
    stripped_lines sect' = stripped_lines sect.
Proof.
  intros H.
  apply overlay_section_Some in H
    as (pre & a & rest & E & La & Hleft & Hend & Hmin).
  destruct (at_anchor_or_end rest) eqn:A.
  - exists pre, a, sect, rest. repeat split; auto.
    intros s r Es Ls. specialize (Hmin s r Es Ls).
    rewrite at_section_end_cases in Hmin.
    now apply orb_false_iff in Hmin as [-> _].
  - rewrite at_section_end_cases, A in Hend. simpl in Hend.
    apply String.eqb_eq in Hend. subst rest.
    exists pre, a, (sect +:+ LF), "".
    rewrite append_nil_r. repeat split; auto using stripped_lines_LF.
    intros s r Es Ls. rewrite length_append in Ls. simpl in Ls.
    destruct (Nat.eq_dec (String.length s) (String.length sect)) as [Q | Q].
    + symmetry in Q. destruct (append_same_length _ _ _ _ Es Q) as [_ <-].
      exact A.
    + assert (String.length s < String.length sect) as Ls' by lia.
      specialize (Hmin s r Es Ls').
      rewrite at_section_end_cases in Hmin.
      now apply orb_false_iff in Hmin as [-> _].
Qed.

Lemma overlay_section_mentions (blob sect : string) :
  overlay_section blob = Some sect -> mentions "Overlays" blob = true.
Proof.
  intros H. apply overlay_section_Some in H as (pre & a & rest & -> & La & _).
  apply mentions_iff. exists pre, (a +:+ sect +:+ rest). split; [reflexivity|].
  apply lit_startswith_I. now exists a, (sect +:+ rest).
Qed.

(** C3, amended.  When the blob has no start anchor nothing is returned.
    Otherwise the section runs from the leftmost [Overlays], in any case, to
    the first place after it where an end anchor starts, or to the end of the
    blob, and the output holds exactly the lines of the section that, once
    trimmed, are not blank, hold no excluded text in any case and are longer
    than five characters, each once, in the order of their first
    occurrence. *)
Theorem overlays_kept_lines (blob : string) :
  (mentions "Overlays" blob = false -> extract_overlays blob = [])
  /\ (mentions "Overlays" blob = true ->
      exists pre a sect rest,
        blob = pre +:+ a +:+ sect +:+ rest /\
        Py.lower a = Py.lower "Overlays" /\
        (forall pre' suf', blob = pre' +:+ suf' ->
           String.length pre' < String.length pre ->
           lit_startswith I "Overlays" suf' = false) /\
        at_anchor_or_end rest = true /\
        (forall sect' rest', sect +:+ rest = sect' +:+ rest' ->
           String.length sect' < String.length sect ->
           at_anchor_or_end rest' = false) /\
        extract_overlays blob
        = first_seen [] (List.filter kept (stripped_lines sect)) /\
        List.NoDup (extract_overlays blob) /\
        forall ln,
          In ln (extract_overlays blob) <->
          (exists raw,
             In raw (Py.splitlines sect) /\ Py.strip raw = ln /\ ln <> "")
          /\ excluded ln = false /\ 5 < String.length ln).
Proof.
  destruct (overlay_section blob) as [sect0|] eqn:S.
  - split.
    + intros M. apply overlay_section_mentions in S. congruence.
    + intros _.
      destruct (isolated_section _ _ S)
        as (pre & a & sect & rest & E & La & Hleft & Hend & Hmin & Hlines).
      exists pre, a, sect, rest.
      assert (extract_overlays blob
              = first_seen [] (List.filter kept (stripped_lines sect))) as X
        by (unfold extract_overlays; rewrite S, Hlines; apply overlay_loop).
      repeat (split; [assumption|]). rewrite X.
      split; [apply first_seen_NoDup|].
      intros ln. rewrite first_seen_In, filter_In, stripped_lines_In.
      unfold kept. rewrite andb_true_iff, negb_true_iff, Nat.ltb_lt.
      simpl. tauto.
  - split.
    + intros _. unfold extract_overlays. now rewrite S.
    + intros M. apply overlay_section_None in S. congruence.
Qed.

(** The example blob once more, and a blob without the start anchor. *)
Lemma overlays_kept_lines_witness :
  extract_overlays "Zone: Low density residential" = []
  /\ exists pre a sect rest,
       scanner_blob = pre +:+ a +:+ sect +:+ rest /\
       at_anchor_or_end rest = true /\
       extract_overlays scanner_blob
       = first_seen [] (List.filter kept (stripped_lines sect)).
Proof.
  split.
  - apply (proj1 (overlays_kept_lines "Zone: Low density residential")).
    vm_compute. reflexivity.
  - destruct (proj2 (overlays_kept_lines scanner_blob))
      as (pre & a & sect & rest & E & _ & _ & Hend & _ & X & _).
    + vm_compute. reflexivity.
    + now exists pre, a, sect, rest.
Defined.

End OverlayFacts.

(** ** The property card *)

Section CardFacts.

Import Re Browser Scraper.

Lemma remove_char_absent (c : ascii) (s : string) :
  Py.contains (String c "") s = false -> Py.remove_char c s = s.
Proof.
  induction s as [|a s IH]; simpl; [reflexivity|].
  rewrite andb_true_r, Ascii.eqb_sym. intros H.
  apply orb_false_iff in H as [-> H]. now rewrite IH.
Qed.

(** A card none of whose texts matches the area pattern leaves the area
    absent, whatever was found for the lot/plan. *)
Lemma scan_divs_no_area (b : browser) (indices : list nat) :
  (forall h i t,
     on_text b h (InnerTextNth DETAIL_DIVS i) = Ok t ->
     search_group1 I area_re (Py.strip t) = None) ->
  forall lotplan h, exists lotplan' h',
    scan_divs indices (None, lotplan) b h = (Ok (None, lotplan'), h').
Proof.
  intros Hno. induction indices as [|i rest IH]; intros lotplan h.
  - now exists lotplan, h.
  - cbn [scan_divs]. unfold bind at 1, catch, bind, text, ask, ret.
    destruct (on_text b h (InnerTextNth DETAIL_DIVS i)) as [t|e] eqn:E.
    + unfold scan_div. rewrite (Hno _ _ _ E). apply IH.
    + apply IH.
Qed.

(** C6.  A matched area value loses its thousands separators: the value
    [1,234.5 m²], read after its label [Plan Area] on the card, gives
    [1234.5]; a matched value without separators is returned as it is; and
    when no text of the card matches the area pattern the area is absent, not
    the empty string. *)
Theorem area_normalization :
  (forall txt g lotplan,
     search_group1 I area_re txt = Some g ->
     fst (scan_div txt (None, lotplan)) = Some (Py.remove_char "," g))
  /\ search_group1 I area_re area_line = Some "1,234.5"
  /\ Py.remove_char "," "1,234.5" = "1234.5"
  /\ fst (extract_area_and_lotplan (card [area_line]) [])
     = Ok (Some "1234.5", None)
  /\ (forall txt g lotplan,
        search_group1 I area_re txt = Some g ->
        Py.contains "," g = false ->
        fst (scan_div txt (None, lotplan)) = Some g)
  /\ (forall b h,
        (forall h' i t,
           on_text b h' (InnerTextNth DETAIL_DIVS i) = Ok t ->
           search_group1 I area_re (Py.strip t) = None) ->
        exists lotplan h',
          extract_area_and_lotplan b h = (Ok (None, lotplan), h')).
Proof.
  assert (forall txt g lotplan,
            search_group1 I area_re txt = Some g ->
            fst (scan_div txt (None, lotplan))
            = Some (Py.remove_char "," g)) as N.
  { intros txt g lotplan Hg. unfold scan_div. rewrite Hg. simpl.
    destruct (search_group1 I lotplan_re txt);
      [destruct (negb (Py.truthy lotplan))|]; reflexivity. }
  split; [exact N|].
  split; [vm_compute; reflexivity|].
  split; [vm_compute; reflexivity|].
  split; [vm_compute; reflexivity|].
  split.
  - intros txt g lotplan Hg Hc. rewrite (N _ _ _ Hg).
    now rewrite remove_char_absent.
  - intros b h Hno. unfold extract_area_and_lotplan, catch, bind, count, ask.
    destruct (on_count b h (Count DETAIL_DIVS)) as [n|e].
    + destruct (scan_divs_no_area b (seq 0 n) Hno None
                  (h ++ [Count DETAIL_DIVS])) as (lp & h' & ->).
      now exists lp, h'.
    + now exists None, (h ++ [Count DETAIL_DIVS]).
Qed.

(** The card line of the source's own comment, whose value has no separator,
    and a card with a lot/plan line only. *)
Lemma area_normalization_witness :
  fst (scan_div "Plan Area 200 m2" (None, None)) = Some "200"
  /\ exists lotplan h',
       extract_area_and_lotplan (card ["Lot/Plan 4GTP446"]) []
       = (Ok (None, lotplan), h').
Proof.
  split.
  - apply (proj1 (proj2 (proj2 (proj2 (proj2 area_normalization))))).
    + vm_compute; reflexivity.
    + vm_compute; reflexivity.
  - apply (proj2 (proj2 (proj2 (proj2 (proj2 area_normalization))))).
    intros h' [|[|i]] t; simpl; intros [= <-]; vm_compute; reflexivity.
Defined.

End CardFacts.

(** ** The locator loops *)

Section ResolverFacts.

Import Browser Scraper Downloader.

Lemma try_selectors_cons (b : browser) (selector : string)
    (rest : list string) (h : list call) :
  try_selectors (selector :: rest) b h
  = match panel_resolves b h selector with
    | Some t => (Ok (Some t), h ++ [InnerText selector])
    | None => try_selectors rest b (h ++ [InnerText selector])
    end.
Proof.
  cbn [try_selectors].
  unfold panel_resolves, bind at 1, catch, bind, text, ask, ret.
  destruct (on_text b h (InnerText selector)) as [t|e]; [|reflexivity].
  now destruct (is_panel_text t).
Qed.

(** The panel resolver reads a prefix of the selectors, in their order; each
    selector but the last read did not resolve, and the last one gave the
    result. *)
Lemma try_selectors_order (b : browser) (selectors : list string)
    (h : list call) :
  exists tried later winner,
    selectors = tried ++ later /\
    try_selectors selectors b h = (Ok winner, h ++ map InnerText tried) /\
    (winner = None -> later = []) /\
    (tried = [] -> winner = None) /\
    forall pre x post, tried = pre ++ x :: post ->
      panel_resolves b (h ++ map InnerText pre) x
      = match post with [] => winner | _ :: _ => None end.
Proof.
  revert h; induction selectors as [|sel rest IH]; intros h.
  - exists [], [], None. simpl. rewrite app_nil_r.
    repeat split; auto. intros [|] ? ?; discriminate.
  - rewrite try_selectors_cons.
    destruct (panel_resolves b h sel) as [t|] eqn:E.
    + exists [sel], rest, (Some t). repeat split; auto; try discriminate.
      intros [|y pre] x post; simpl.
      * intros [= <- <-]. now rewrite app_nil_r.
      * intros [= _ H]. now destruct pre.
    + destruct (IH (h ++ [InnerText sel]))
        as (tried & later & w & -> & R & Hl & He & Hp).
      exists (sel :: tried), later, w. rewrite R. simpl.
      rewrite <- app_assoc. repeat split; auto; try discriminate.
      intros [|y pre] x post; simpl.
      * intros [= <- <-]. rewrite app_nil_r, E.
        destruct tried; [now rewrite He | reflexivity].
      * intros [= <- ->].
        specialize (Hp pre x post eq_refl).
        now rewrite <- app_assoc in Hp.
Qed.







End ResolverFacts.

(** ** The property workflow *)

Section WorkflowFacts.

Import Browser Scraper.

(** C8.  When the wait for the zone text raises, the panel-text capture
    makes one more call, the read of the page body, and its outcome is the
    outcome of the capture: the text of the body when the read returns. *)
Theorem panel_timeout_reads_body (b : browser) (h : list call) (e : exn) :
  on_action b h (WaitForSelector ZONE_TEXT 10000) = Raise e ->
  scrape_left_panel_text b h
  = (on_text b (h ++ [WaitForSelector ZONE_TEXT 10000]) (InnerText "body"),
     h ++ [WaitForSelector ZONE_TEXT 10000; InnerText "body"])
  /\ forall txt,
       on_text b (h ++ [WaitForSelector ZONE_TEXT 10000]) (InnerText "body")
       = Ok txt ->
       fst (scrape_left_panel_text b h) = Ok txt.
Proof.
  intros H.
  assert (scrape_left_panel_text b h
          = (on_text b (h ++ [WaitForSelector ZONE_TEXT 10000])
               (InnerText "body"),
             h ++ [WaitForSelector ZONE_TEXT 10000; InnerText "body"])) as E.
  { unfold scrape_left_panel_text, catch, bind at 1, action, ask at 1.
    rewrite H. unfold text, ask. now rewrite <- app_assoc. }
  split; [exact E|]. intros txt Hb. now rewrite E, Hb.
Qed.

(** A panel that stays empty for ten seconds on a page whose body names the
    zone: the capture returns the body, and the workflow ends with a
    record. *)
Lemma panel_timeout_reads_body_witness :
  fst (scrape_left_panel_text (slow_panel "Zone: Low density residential") [])
  = Ok "Zone: Low density residential"
  /\ fst (scrape_goldcoast_property "12 Example St"
            (slow_panel "Zone: Low density residential") [])
     = Ok {| address := "12 Example St"; lot_plan := None;
             zone := Some "Low density residential";
             residential_density := None; area_sqm := None;
             building_height := None; overlays := [] |}.
Proof.
  split.
  - apply (proj2 (panel_timeout_reads_body
                    (slow_panel "Zone: Low density residential") []
                    "Timeout 10000ms exceeded." eq_refl)).
    reflexivity.
  - vm_compute. reflexivity.
Defined.


Lemma bind_Ok {A B : Type} (m : M A) (f : A -> M B) (b : browser)
    (h h' : list call) (r : B) :
  bind m f b h = (Ok r, h') ->
  exists a h1, m b h = (Ok a, h1) /\ f a b h1 = (Ok r, h').
Proof.
  unfold bind. destruct (m b h) as [[a|e] h1]; [|discriminate].
  intros H. now exists a, h1.
Qed.

(** A step that went well, when only the rest of the run matters. *)
Ltac skip_step H := apply bind_Ok in H as (? & ? & _ & H).

(** The steps of the workflow leave the address of the record alone. *)
Lemma scrape_steps_address (query : string) (result r : PropertyData)
    (b : browser) (h h' : list call) :
  scrape_steps query result b h = (Ok r, h') -> address r = address result.
Proof.
  unfold scrape_steps. intros H.
  do 12 skip_step H.
  apply bind_Ok in H as (r1 & ? & H1 & H).
  skip_step H.
  injection H as <- _.
  match type of H1 with
  | (if ?c then _ else _) _ _ = _ => destruct c
  end.
  - apply bind_Ok in H1 as (p & ? & _ & H1).
    destruct (Py.truthy p); now injection H1 as <- _.
  - now injection H1 as <- _.
Qed.

(** C9, on the property workflow.  With the site unreachable the steps fail
    with the network error; the handler then takes its snapshot outside any
    [try], the snapshot fails, and the caller receives the error of the
    snapshot in place of the network error.  The handler of the document
    workflow, on the same browser, returns the network error. *)
Theorem error_snapshot_masks_failure :
  fst (scrape_steps "12 Example St"
         {| address := "12 Example St"; lot_plan := None; zone := None;
            residential_density := None; area_sqm := None;
            building_height := None; overlays := [] |}
         offline [Launch; NewPage])
  = Raise "net::ERR_INTERNET_DISCONNECTED"
  /\ scrape_goldcoast_property "12 Example St" offline []
     = (Raise "Page.screenshot: Target closed",
        [Launch; NewPage; Goto CITYPLAN_URL;
         Screenshot "page" "error_screenshot.png"; Close])
  /\ fst (Downloader.download_decision_notice "MIN/2024/216" "/tmp" true
            offline [])
     = Ok (Downloader.failure "net::ERR_INTERNET_DISCONNECTED").
Proof. repeat split; vm_compute; reflexivity. Qed.



End WorkflowFacts.

(** ** The row scans of the document workflow *)

Section RowFacts.

Import Browser Downloader.

(** Rows that do not end the scan are passed over; they may leave a link
    assigned. *)
Lemma find_decision_notice_hit (pre post : list row) (r : row) (l : link) :
  (forall x, In x pre -> hit x = None) -> hit r = Some l ->
  forall found, find_decision_notice (pre ++ r :: post) found = Some l.
Proof.
  intros Hpre Hr. induction pre as [|x pre IH]; intros found.
  - simpl. unfold hit in Hr.
    destruct (row_text r) as [t|]; [|discriminate].
    destruct (Py.contains MARKER t); [|discriminate].
    destruct (row_link r) as [[l'|]|]; try discriminate.
    destruct (link_text l'); [|discriminate]. exact Hr.
  - assert (hit x = None) as Hx by (apply Hpre; now left).
    assert (forall f, find_decision_notice (pre ++ r :: post) f = Some l)
      as IH' by (apply IH; intros y Hy; apply Hpre; now right).
    simpl. unfold hit in Hx.
    destruct (row_text x) as [t|]; [|apply IH'].
    destruct (Py.contains MARKER t); [|apply IH'].
    destruct (row_link x) as [[l'|]|]; try apply IH'.
    destruct (link_text l'); [discriminate | apply IH'].
Qed.

(** C4, as stated, fails: the second row is the first whose text holds the
    marker, but its first cell holds no link, and the third row is the one
    selected. *)
Lemma first_marker_row_not_selected :
  Py.contains MARKER "Plan Form" = false
  /\ Py.contains MARKER "Signed Decision Notice" = true
  /\ row_link (plain_row "Signed Decision Notice") = Ok None
  /\ find_decision_notice
       [ doc_row 1 "Plan Form"; plain_row "Signed Decision Notice";
         doc_row 3 "Signed Decision Notice (draft)" ] None
     = Some (view 3).
Proof. repeat split; vm_compute; reflexivity. Qed.

(** C4, amended.  The scan returns the link of the first row whose text can
    be read and holds the marker and whose first cell holds a link, whatever
    the rows after it, when the text of that link can be read; a row that
    holds the marker and no link in its first cell is passed over.  Of the
    rows [Plan Form], [Signed Decision Notice],
    [Signed Decision Notice (draft)], each with its link, it returns the
    second, whatever stands in third place. *)
Theorem row_matcher_first_hit :
  (forall r l,
     marked_link r = Some l <->
     exists text,
       row_text r = Ok text /\ Py.contains MARKER text = true /\
       row_link r = Ok (Some l))
  /\ (forall pre r post l link_text_read found,
        (forall x, In x pre -> marked_link x = None) ->
        marked_link r = Some l -> link_text l = Ok link_text_read ->
        find_decision_notice (pre ++ r :: post) found = Some l)
  /\ (forall r rest text found,
        row_text r = Ok text -> Py.contains MARKER text = true ->
        row_link r = Ok None ->
        find_decision_notice (r :: rest) found
        = find_decision_notice rest found)
  /\ (forall third,
        find_decision_notice
          [ doc_row 1 "Plan Form"; doc_row 2 "Signed Decision Notice"; third ]
          None
        = Some (view 2)).
Proof.
  split; [|split; [|split]].
  - intros r l. unfold marked_link. split.
    + destruct (row_text r) as [t|]; [|discriminate].
      destruct (Py.contains MARKER t) eqn:C; [|discriminate].
      destruct (row_link r) as [[l'|]|]; try discriminate.
      intros [= ->]. now exists t.
    + intros (t & -> & -> & ->). reflexivity.
  - intros pre r post l lt found Hpre Hr Hl.
    apply find_decision_notice_hit.
    + intros x Hx. specialize (Hpre x Hx). unfold marked_link in Hpre.
      unfold hit. destruct (row_text x) as [t|]; [|reflexivity].
      destruct (Py.contains MARKER t); [|reflexivity].
      destruct (row_link x) as [[l'|]|]; [discriminate | reflexivity..].
    + unfold marked_link in Hr. unfold hit.
      destruct (row_text r) as [t|]; [|discriminate].
      destruct (Py.contains MARKER t); [|discriminate].
      destruct (row_link r) as [[l'|]|]; try discriminate.
      injection Hr as ->. now rewrite Hl.
  - intros r rest text found Ht Hc Hl. simpl. now rewrite Ht, Hc, Hl.
  - intros third.
    apply (find_decision_notice_hit [doc_row 1 "Plan Form"] [third]).
    + intros x [<- | []]. vm_compute. reflexivity.
    + vm_compute. reflexivity.
Qed.

(** The three rows of the example. *)
Lemma row_matcher_first_hit_witness :
  find_decision_notice
    ([doc_row 1 "Plan Form"]
     ++ doc_row 2 "Signed Decision Notice"
     :: [doc_row 3 "Signed Decision Notice (draft)"]) None
  = Some (view 2)
  /\ find_decision_notice
       [ plain_row "Signed Decision Notice";
         doc_row 3 "Signed Decision Notice (draft)" ] None
     = find_decision_notice [doc_row 3 "Signed Decision Notice (draft)"] None.
Proof.
  split.
  - apply (proj1 (proj2 row_matcher_first_hit) [doc_row 1 "Plan Form"]
             (doc_row 2 "Signed Decision Notice")
             [doc_row 3 "Signed Decision Notice (draft)"] (view 2) "View").
    + intros x [<- | []]. vm_compute. reflexivity.
    + vm_compute. reflexivity.
    + reflexivity.
  - apply (proj1 (proj2 (proj2 row_matcher_first_hit))
             (plain_row "Signed Decision Notice")
             [doc_row 3 "Signed Decision Notice (draft)"]
             "Signed Decision Notice").
    + reflexivity.
    + vm_compute. reflexivity.
    + reflexivity.
Defined.


Lemma documents_found_listed (all_rows : list row) :
  documents_found all_rows = listed all_rows.
Proof.
  unfold documents_found, listed.
  enough (forall acc,
            fold_left
              (fun found r =>
                 match document_of r with
                 | Some doc => found ++ [doc]
                 | None => found
                 end) all_rows acc
            = acc ++ flat_map
                (fun r => match document_of r with
                          | Some doc => [doc]
                          | None => []
                          end) all_rows) as H by apply (H []).
  induction all_rows as [|r rows IH]; intros acc; simpl.
  - now rewrite app_nil_r.
  - rewrite IH. destruct (document_of r); simpl; [|reflexivity].
    now rewrite <- app_assoc.
Qed.

Lemma document_of_Some (r : row) (link_name name : string) :
  document_of r = Some (link_name, name) <->
  exists text link_text name_text more,
    row_text r = Ok text /\
    existsb (fun keyword => Py.contains keyword text) keywords = true /\
    row_cells r = Ok (Ok link_text :: Ok name_text :: more) /\
    link_name = Py.strip link_text /\ name = Py.strip name_text /\
    name <> "".
Proof.
  unfold document_of. split.
  - destruct (row_text r) as [t|]; [|discriminate].
    destruct (existsb _ keywords) eqn:K; [|discriminate].
    destruct (row_cells r) as [[|[lt|] [|[nt|] more]]|]; try discriminate.
    destruct (Py.strip nt) eqn:N; [discriminate|].
    intros [= <- <-]. exists t, lt, nt, more. rewrite N.
    repeat split; auto.
  - intros (t & lt & nt & more & -> & -> & -> & -> & -> & N).
    destruct (Py.strip nt); [now destruct N | reflexivity].
Qed.

Lemma find_decision_notice_no_marker (all_rows : list row) :
  (forall r t, In r all_rows -> row_text r = Ok t ->
               Py.contains MARKER t = false) ->
  forall found, find_decision_notice all_rows found = found.
Proof.
  induction all_rows as [|r rows IH]; intros H found; simpl; [reflexivity|].
  assert (forall f, find_decision_notice rows f = f) as IH'
    by (intros f; apply IH; intros x t Hx; apply H; now right).
  destruct (row_text r) as [t|] eqn:T; [|apply IH'].
  rewrite (H r t (or_introl eq_refl) T). apply IH'.
Qed.

(** The handler of the document workflow returns the failure it caught,
    whether or not the snapshot could be taken. *)
Lemma on_error_returns (b : browser) (app_number : string) (debug : bool)
    (e : exn) (h : list call) :
  lifecycle_ok b ->
  exists h', on_error app_number debug e b h = (Ok (failure e), h').
Proof.
  intros L. unfold on_error, bind at 1.
  assert (exists h1,
            (if debug
             then catch
                    (bind url
                       (fun _ =>
                          action
                            (Screenshot "page"
                               ("error_screenshot_" +:+ sanitized app_number
                                +:+ ".png"))))
                    (fun _ => ret tt)
             else ret tt) b h = (Ok tt, h1)) as (h1 & ->).
  { destruct debug; [|now exists h].
    unfold catch, bind, url, action, ask, ret.
    destruct (on_action b (h ++ [Url]) _) as [[]|]; eauto. }
  unfold bind, action, ask, ret.
  rewrite (L h1 Close) by (simpl; tauto). eauto.
Qed.


(** C5, as stated, fails: the one row of the page is visited and has the
    display name [Survey Map], yet the failure lists no document, the row
    holding none of the keywords. *)
Lemma not_found_omits_rows :
  Py.contains MARKER "Survey Map" = false
  /\ find_and_download "MIN/2024/216" "/tmp"
       (showing [doc_row 1 "Survey Map"]) []
  = (Ok (not_found [doc_row 1 "Survey Map"]),
     [QuerySelectorAll "table tr"; Close])
  /\ not_found [doc_row 1 "Survey Map"] !! "documents_available"
     = Some (PList [])
  /\ map display_name [doc_row 1 "Survey Map"] = [Some "Survey Map"].
Proof. repeat split; vm_compute; reflexivity. Qed.

(** C5, amended.  When no row that can be read holds the marker, the scan
    returns a [dict] with [success] false, no [file_path], the error text and,
    under [documents_available], the names of the rows that hold one of the
    document keywords and have a second cell that is not blank, in the order
    of the rows; the function as a whole returns a [dict] on every run on
    which the browser can be started and closed. *)
Theorem no_match_result :
  (forall b h all_rows app_number output_dir,
     on_rows b h (QuerySelectorAll "table tr") = Ok all_rows ->
     (forall r t, In r all_rows -> row_text r = Ok t ->
                  Py.contains MARKER t = false) ->
     on_action b (h ++ [QuerySelectorAll "table tr"]) Close = Ok tt ->
     find_and_download app_number output_dir b h
     = (Ok (not_found all_rows), h ++ [QuerySelectorAll "table tr"; Close])
     /\ not_found all_rows !! "success" = Some (PBool false)
     /\ not_found all_rows !! "file_path" = Some PNone
     /\ not_found all_rows !! "error"
        = Some (PStr "Signed Decision Notice not found")
     /\ not_found all_rows !! "documents_available"
        = Some (PList (map snd (listed all_rows)))
     /\ forall name,
          In name (map snd (listed all_rows)) <->
          exists r text link_text name_text more,
            In r all_rows /\ row_text r = Ok text /\
            existsb (fun keyword => Py.contains keyword text) keywords = true /\
            row_cells r = Ok (Ok link_text :: Ok name_text :: more) /\
            name = Py.strip name_text /\ name <> "")
  /\ (forall b h app_number output_dir debug,
        lifecycle_ok b ->
        exists d h',
          download_decision_notice app_number output_dir debug b h
          = (Ok d, h')).
Proof.
  split.
  - intros b h all_rows app_number output_dir Hrows Hno Hclose.
    split; [|split; [|split; [|split; [|split]]]].
    + unfold find_and_download, bind at 1, rows, ask. rewrite Hrows.
      rewrite (find_decision_notice_no_marker all_rows Hno).
      unfold bind, action, ask, ret. rewrite Hclose.
      now rewrite <- app_assoc.
    + reflexivity.
    + reflexivity.
    + reflexivity.
    + unfold not_found. rewrite lookup_insert_eq.
      now rewrite documents_found_listed.
    + intros name. unfold listed. rewrite in_map_iff. split.
      * intros ([lk nm] & <- & H). apply in_flat_map in H as (r & Hr & H).
        destruct (document_of r) as [[lk' nm']|] eqn:D; [|destruct H].
        destruct H as [[= -> ->] | []].
        apply document_of_Some in D
          as (t & lt & nt & more & ? & ? & ? & ? & ? & ?).
        now exists r, t, lt, nt, more.
      * intros (r & t & lt & nt & more & Hr & Ht & Hk & Hc & -> & N).
        exists (Py.strip lt, Py.strip nt). split; [reflexivity|].
        apply in_flat_map. exists r. split; [exact Hr|].
        assert (document_of r = Some (Py.strip lt, Py.strip nt)) as ->
          by (apply document_of_Some; now exists t, lt, nt, more).
        now left.
  - intros b h app_number output_dir debug L.
    unfold download_decision_notice, bind, action, ask.
    rewrite (L h Launch) by (simpl; tauto).
    rewrite (L _ NewContext) by (simpl; tauto).
    rewrite (L _ NewPage) by (simpl; tauto).
    rewrite (L _ (SetDefaultTimeout 30000)) by (simpl; tauto).
    unfold catch.
    destruct (download_steps app_number output_dir debug b _) as [[d|e] h1].
    + now exists d, h1.
    + destruct (on_error_returns b app_number debug e h1 L) as (h' & ->).
      now exists (failure e), h'.
Qed.

(** A page whose documents table holds two plans and no decision notice. *)
Lemma no_match_result_witness :
  find_and_download "MIN/2024/216" "/tmp"
    (showing [doc_row 1 "Plan Form"; doc_row 2 "Site Plan"]) []
  = (Ok (not_found [doc_row 1 "Plan Form"; doc_row 2 "Site Plan"]),
     [] ++ [QuerySelectorAll "table tr"; Close])
  /\ not_found [doc_row 1 "Plan Form"; doc_row 2 "Site Plan"]
       !! "documents_available"
     = Some (PList ["Plan Form"; "Site Plan"])
  /\ exists d h',
       download_decision_notice "MIN/2024/216" "/tmp" true
         (showing [doc_row 1 "Plan Form"; doc_row 2 "Site Plan"]) []
       = (Ok d, h').
Proof.
  destruct (proj1 no_match_result
              (showing [doc_row 1 "Plan Form"; doc_row 2 "Site Plan"]) []
              [doc_row 1 "Plan Form"; doc_row 2 "Site Plan"]
              "MIN/2024/216" "/tmp" eq_refl) as (R & _ & _ & _ & D & _).
  - intros r t [<- | [<- | []]] [= <-]; vm_compute; reflexivity.
  - reflexivity.
  - split; [exact R|]. split; [exact D|].
    apply (proj2 no_match_result). intros h c _. reflexivity.
Defined.

End RowFacts.

(** * Further properties of the code *)

(** ** Trimming and line splitting *)

Section TrimFacts.

Lemma lstrip_head (s : string) : starts_with_space (Py.lstrip s) = false.
Proof.
  induction s as [|a s IH]; simpl; [reflexivity|].
  destruct (Py.isspace a) eqn:E; [exact IH | simpl; exact E].
Qed.

Lemma lstrip_fixed (s : string) :
  starts_with_space s = false -> Py.lstrip s = s.
Proof. destruct s as [|a s]; simpl; [reflexivity | now intros ->]. Qed.

Lemma rstrip_head (s : string) :
  starts_with_space s = false -> starts_with_space (Py.rstrip s) = false.
Proof.
  destruct s as [|a s]; simpl; [reflexivity|]. intros E.
  destruct (Py.rstrip s); [now rewrite E | exact E].
Qed.

Lemma rstrip_last (s : string) : ends_with_space (Py.rstrip s) = false.
Proof.
  induction s as [|a s IH]; simpl; [reflexivity|].
  destruct (Py.rstrip s) as [|b r] eqn:R.
  - destruct (Py.isspace a) eqn:E; simpl; [reflexivity | exact E].
  - exact IH.
Qed.

Lemma rstrip_fixed (s : string) :
  ends_with_space s = false -> Py.rstrip s = s.
Proof.
  induction s as [|a s IH]; simpl; [reflexivity|].
  destruct s as [|b s].
  - simpl. now intros ->.
  - intros E. rewrite (IH E). reflexivity.
Qed.

Lemma all_chars_lstrip (f : ascii -> bool) (s : string) :
  all_chars f s = true -> all_chars f (Py.lstrip s) = true.
Proof.
  induction s as [|a s IH]; simpl; [reflexivity|].
  intros H. destruct (Py.isspace a); [|exact H].
  apply andb_prop in H as [_ H]. now apply IH.
Qed.

Lemma all_chars_rstrip (f : ascii -> bool) (s : string) :
  all_chars f s = true -> all_chars f (Py.rstrip s) = true.
Proof.
  induction s as [|a s IH]; simpl; [reflexivity|].
  intros H. apply andb_prop in H as [Ha H]. specialize (IH H).
  destruct (Py.rstrip s) as [|b r].
  - destruct (Py.isspace a); simpl; [reflexivity | now rewrite Ha].
  - simpl in *. now rewrite Ha.
Qed.

(** [strip] leaves no whitespace at either end, is idempotent, and keeps
    nothing that was not in the text. *)
Lemma strip_clean (s : string) :
  starts_with_space (Py.strip s) = false
  /\ ends_with_space (Py.strip s) = false
  /\ Py.strip (Py.strip s) = Py.strip s.
Proof.
  unfold Py.strip.
  assert (starts_with_space (Py.rstrip (Py.lstrip s)) = false) as H1
    by (apply rstrip_head, lstrip_head).
  assert (ends_with_space (Py.rstrip (Py.lstrip s)) = false) as H2
    by apply rstrip_last.
  repeat split; auto.
  rewrite (lstrip_fixed _ H1). now apply rstrip_fixed.
Qed.

Lemma all_chars_strip (f : ascii -> bool) (s : string) :
  all_chars f s = true -> all_chars f (Py.strip s) = true.
Proof. intros H. now apply all_chars_rstrip, all_chars_lstrip. Qed.

(** No line of [splitlines] holds a line boundary. *)
Lemma splitlines_no_break (s : string) :
  forall l, In l (Py.splitlines s) ->
            all_chars (fun a => negb (Py.islinebreak a)) l = true.
Proof.
  remember (String.length s) as n eqn:L.
  revert s L; induction n as [n IH] using lt_wf_ind; intros s L l.
  destruct s as [|c s']; [intros []|].
  assert (Hs' : forall l', In l' (Py.splitlines s') ->
                  all_chars (fun a => negb (Py.islinebreak a)) l' = true)
    by (apply (IH (String.length s')); [subst; simpl; lia | reflexivity]).
  cbn [Py.splitlines]. destruct (Py.islinebreak c) eqn:B.
  - intros [<- | H]; [reflexivity|].
    destruct s' as [|d s'']; [destruct H|].
    destruct ((Py.ord c =? 13) && (Py.ord d =? 10)); [|now apply Hs'].
    apply (IH (String.length s'')) with (s := s'');
      [subst; simpl; lia | reflexivity | exact H].
  - destruct (Py.splitlines s') as [|l0 ls] eqn:E.
    + intros [<- | []]. simpl. now rewrite B.
    + intros [<- | H].
      * simpl. rewrite B. simpl. apply Hs'. now left.
      * apply Hs'. now right.
Qed.

End TrimFacts.

(** ** Repetitions of a character class *)

Section ClassFacts.

Import Re.

Lemma span_after (f : ascii -> bool) (s : string) :
  s = span_of f s +:+ after_span f s.
Proof.
  induction s as [|a s IH]; simpl; [reflexivity|].
  destruct (f a); simpl; [now rewrite <- IH | reflexivity].
Qed.

Lemma span_all (f : ascii -> bool) (s : string) :
  all_chars f (span_of f s) = true.
Proof.
  induction s as [|a s IH]; simpl; [reflexivity|].
  destruct (f a) eqn:E; simpl; [now rewrite E | reflexivity].
Qed.

Lemma after_span_head (f : ascii -> bool) (s : string) :
  match after_span f s with
  | EmptyString => True
  | String a _ => f a = false
  end.
Proof.
  induction s as [|a s IH]; simpl; [exact Logic.I|].
  destruct (f a) eqn:E; [exact IH | exact E].
Qed.

Lemma length_after_span (f : ascii -> bool) (s : string) :
  String.length (after_span f s) <= String.length s.
Proof.
  induction s as [|a s IH]; simpl; [lia|]. destruct (f a); simpl; lia.
Qed.

(** Whatever a repetition of a class hands to its continuation is the text
    less a prefix made of characters of the class. *)
Lemma star_cls_Some {A : Type} (fl : flags) (greedy : bool)
    (f : ascii -> bool) (k : string -> caps -> option A) (fuel : nat)
    (s : string) (c : caps) (x : A) :
  star_loop greedy (run fl (Cls f)) k fuel s c = Some x ->
  exists pre s',
    s = pre +:+ s' /\ all_chars f pre = true /\ k s' c = Some x.
Proof.
  revert s; induction fuel as [|fuel IH]; intros s; cbn [star_loop].
  - intros H. now exists "", s.
  - assert (forall s0,
              run fl (Cls f)
                (fun s' c' =>
                   if String.length s' <? String.length s0
                   then star_loop greedy (run fl (Cls f)) k fuel s' c'
                   else None) s0 c = Some x ->
              exists pre s', s0 = pre +:+ s' /\ all_chars f pre = true
                             /\ k s' c = Some x) as Hbody.
    { intros [|a s1]; cbn [run]; [discriminate|].
      destruct (f a) eqn:Fa; [|discriminate].
      destruct (String.length s1 <? String.length (String a s1));
        [|discriminate].
      intros H. apply IH in H as (pre & s' & -> & Hp & Hk).
      exists (String a pre), s'. simpl. now rewrite Fa. }
    destruct greedy.
    + destruct (run fl (Cls f) _ s c) as [y|] eqn:B.
      * intros [= ->]. now apply Hbody.
      * intros H. now exists "", s.
    + destruct (k s c) as [y|] eqn:K.
      * intros [= ->]. now exists "", s.
      * apply Hbody.
Qed.

Lemma run_Cls {A : Type} (fl : flags) (f : ascii -> bool)
    (k : string -> caps -> option A) (s : string) (c : caps) :
  run fl (Cls f) k s c
  = match s with
    | String a s' => if f a then k s' c else None
    | EmptyString => None
    end.
Proof. reflexivity. Qed.

Lemma run_Chr {A : Type} (fl : flags) (p : ascii)
    (k : string -> caps -> option A) (s : string) (c : caps) :
  run fl (Chr p) k s c
  = match s with
    | String a s' => if chr_match fl p a then k s' c else None
    | EmptyString => None
    end.
Proof. reflexivity. Qed.

Lemma run_star_cls_Some {A : Type} (fl : flags) (f : ascii -> bool)
    (k : string -> caps -> option A) (s : string) (c : caps) (x : A) :
  run fl (star (Cls f)) k s c = Some x ->
  exists pre s',
    s = pre +:+ s' /\ all_chars f pre = true /\ k s' c = Some x.
Proof. unfold star. rewrite run_Star. apply star_cls_Some. Qed.

Lemma run_plus_cls_Some {A : Type} (fl : flags) (f : ascii -> bool)
    (k : string -> caps -> option A) (s : string) (c : caps) (x : A) :
  run fl (plus (Cls f)) k s c = Some x ->
  exists a pre s',
    s = String a (pre +:+ s') /\ f a = true /\ all_chars f pre = true /\
    k s' c = Some x.
Proof.
  unfold plus. rewrite run_Seq, run_Cls.
  destruct s as [|a s1]; [discriminate|].
  destruct (f a) eqn:Fa; [|discriminate].
  rewrite run_Star. intros H.
  apply star_cls_Some in H as (pre & s' & -> & Hp & Hk).
  now exists a, pre, s'.
Qed.

(** A greedy repetition of a class whose continuation accepts everything
    takes every character of the class there is. *)
Lemma star_cls_greedy {A : Type} (fl : flags) (f : ascii -> bool)
    (k : string -> caps -> option A) (fuel : nat) (s : string) (c : caps) :
  (forall s', k s' c <> None) -> String.length s <= fuel ->
  star_loop true (run fl (Cls f)) k fuel s c = k (after_span f s) c.
Proof.
  intros Hk. revert s; induction fuel as [|fuel IH]; intros s L.
  - destruct s; [reflexivity | simpl in L; lia].
  - cbn [star_loop]. destruct s as [|a s1]; cbn [run after_span].
    + reflexivity.
    + destruct (f a); [|reflexivity].
      replace (String.length s1 <? String.length (String a s1)) with true
        by (symmetry; apply Nat.ltb_lt; simpl; lia).
      rewrite IH by (simpl in L; lia).
      destruct (k (after_span f s1) c) eqn:K; [reflexivity|].
      now apply Hk in K.
Qed.

Lemma run_lit_Some {A : Type} (fl : flags) (p : string)
    (k : string -> caps -> option A) (s : string) (c : caps) (x : A) :
  run fl (lit p) k s c = Some x ->
  lit_startswith fl p s = true
  /\ k (Py.drop (String.length p) s) c = Some x.
Proof.
  rewrite run_lit. destruct (lit_startswith fl p s); [|discriminate].
  now split.
Qed.

End ClassFacts.

(** ** The shape of the extracted fields *)

Section FieldFacts.

Import Re Browser Scraper.

Lemma append_cons (a : ascii) (s t : string) :
  String a s +:+ t = String a (s +:+ t).
Proof. reflexivity. Qed.

Lemma take_all_but (x y z : string) :
  z = x +:+ y -> Py.take (String.length z - String.length y) z = x.
Proof. intros ->. now rewrite length_append, Nat.add_sub, take_append. Qed.

Lemma drop_append' (s t : string) : Py.drop (String.length s) (s +:+ t) = t.
Proof. induction s as [|a s IH]; simpl; [now destruct t | exact IH]. Qed.

Lemma head_after_span (f : ascii -> bool) (s : string) :
  head_is f (after_span f s) = false.
Proof.
  pose proof (after_span_head f s) as H.
  now destruct (after_span f s).
Qed.

(** An anchored match of the density pattern: the label, then [RD] in any
    case and every digit that follows. *)
Lemma density_match_here (s : string) (c : caps) :
  match_here I density_re s = Some c ->
  exists lead rd digits rest,
    s = lead +:+ rd +:+ digits +:+ rest /\
    Py.lower rd = "rd" /\ digits <> "" /\
    all_chars Py.isdecimal digits = true /\
    head_is Py.isdecimal rest = false /\
    c = [(1, rd +:+ digits)].
Proof.
  unfold match_here, density_re. intros H.
  rewrite run_Seq in H. apply run_lit_Some in H as [_ H].
  rewrite run_Seq in H.
  apply run_plus_cls_Some in H as (a1 & p1 & s2 & E1 & _ & _ & H).
  rewrite run_Seq in H. apply run_lit_Some in H as [_ H].
  rewrite run_Seq in H.
  apply run_plus_cls_Some in H as (a2 & p2 & s4 & E2 & _ & _ & H).
  rewrite run_Group, run_Seq in H. apply run_lit_Some in H as [Hrd H].
  unfold plus in H. rewrite run_Seq, run_Cls in H.
  destruct (Py.drop (String.length "RD") s4) as [|d s6] eqn:E3;
    [discriminate|].
  destruct (Py.isdecimal d) eqn:Dd; [|discriminate].
  rewrite run_Star, star_cls_greedy in H by (discriminate || lia).
  injection H as <-.
  pose proof (take_drop (String.length "Residential") s) as T1.
  pose proof (take_drop (String.length "density") s2) as T2.
  pose proof (take_drop (String.length "RD") s4) as T3.
  rewrite E1 in T1. rewrite E2 in T2. rewrite E3 in T3.
  pose proof (span_after Py.isdecimal s6) as T4.
  set (rd := Py.take (String.length "RD") s4) in *.
  set (digits := String d (span_of Py.isdecimal s6)).
  set (rest := after_span Py.isdecimal s6) in *.
  assert (s4 = (rd +:+ digits) +:+ rest) as E4.
  { rewrite <- T3 at 1. rewrite T4 at 1. unfold digits.
    now rewrite append_assoc. }
  exists (Py.take (String.length "Residential") s
          +:+ String a1 p1 +:+ Py.take (String.length "density") s2
          +:+ String a2 p2), rd, digits, rest.
  split.
  { rewrite <- T1 at 1. rewrite <- T2 at 1. rewrite E4 at 1.
    repeat (rewrite append_assoc || rewrite append_cons). reflexivity. }
  split; [now apply lit_startswith_take in Hrd|].
  split; [discriminate|].
  split; [unfold digits; simpl; now rewrite Dd, span_all|].
  split; [apply head_after_span|].
  do 2 f_equal. now apply take_all_but.
Qed.

(** An anchored match of the area pattern: its group is a non-empty run of
    digits, dots and commas. *)
Lemma area_match_here (s : string) (c : caps) :
  match_here I area_re s = Some c ->
  exists lead g tail,
    s = lead +:+ g +:+ tail /\ g <> "" /\
    all_chars area_char g = true /\ c = [(1, g)].
Proof.
  unfold match_here, area_re. intros H.
  rewrite run_Seq in H. apply run_lit_Some in H as [_ H].
  rewrite run_Seq in H.
  apply run_star_cls_Some in H as (p1 & s2 & E1 & _ & H).
  rewrite run_Seq in H. apply run_lit_Some in H as [_ H].
  rewrite run_Seq in H.
  apply run_star_cls_Some in H as (p2 & s3 & E2 & _ & H).
  rewrite run_Seq, run_Group in H.
  apply run_plus_cls_Some in H as (a & pre & s4 & E3 & Fa & Hp & H).
  cbv beta in H. rewrite run_Seq in H.
  apply run_star_cls_Some in H as (p3 & s5 & E4 & _ & H).
  rewrite run_Seq, run_Chr in H.
  destruct s5 as [|m s6]; [discriminate|].
  destruct (chr_match I "m" m); [|discriminate].
  rewrite run_Cls in H. destruct s6 as [|u s7]; [discriminate|].
  match type of H with
  | (if ?t then _ else _) = _ => destruct t; [|discriminate]
  end.
  injection H as <-.
  pose proof (take_drop (String.length "Plan") s) as T1.
  pose proof (take_drop (String.length "Area") s2) as T2.
  rewrite E1 in T1. rewrite E2 in T2.
  exists (Py.take (String.length "Plan") s +:+ p1
          +:+ Py.take (String.length "Area") s2 +:+ p2),
    (String a pre), s4.
  split.
  { rewrite <- T1 at 1. rewrite <- T2 at 1. rewrite E3.
    repeat (rewrite append_assoc || rewrite append_cons). reflexivity. }
  split; [discriminate|].
  split; [simpl; unfold area_char at 1; now rewrite Fa|].
  do 2 f_equal. now apply take_all_but.
Qed.

(** An anchored match of the lot/plan pattern: its group is every word
    character that follows the label and its whitespace. *)
Lemma lotplan_match_here (s : string) (c : caps) :
  match_here I lotplan_re s = Some c ->
  exists lead g rest,
    s = lead +:+ g +:+ rest /\ g <> "" /\
    all_chars Py.isword g = true /\ head_is Py.isword rest = false /\
    c = [(1, g)].
Proof.
  unfold match_here, lotplan_re. intros H.
  rewrite run_Seq in H. apply run_lit_Some in H as [_ H].
  rewrite run_Seq in H.
  apply run_plus_cls_Some in H as (a1 & p1 & s2 & E1 & _ & _ & H).
  rewrite run_Group in H. unfold plus in H. rewrite run_Seq, run_Cls in H.
  destruct s2 as [|w s3]; [discriminate|].
  destruct (Py.isword w) eqn:Ww; [|discriminate].
  rewrite run_Star, star_cls_greedy in H by (discriminate || lia).
  injection H as <-.
  pose proof (take_drop (String.length "Lot/Plan") s) as T1.
  rewrite E1 in T1.
  pose proof (span_after Py.isword s3) as T2.
  exists (Py.take (String.length "Lot/Plan") s +:+ String a1 p1),
    (String w (span_of Py.isword s3)), (after_span Py.isword s3).
  split.
  { rewrite <- T1 at 1. rewrite T2 at 1.
    repeat (rewrite append_assoc || rewrite append_cons). reflexivity. }
  split; [discriminate|].
  split; [simpl; now rewrite Ww, span_all|].
  split; [apply head_after_span|].
  do 2 f_equal.
  apply (take_all_but (String w (span_of Py.isword s3))
           (after_span Py.isword s3) (String w s3)).
  simpl. now rewrite <- T2.
Qed.

Lemma search_group1_Some (fl : flags) (r : re) (text g : string) :
  search_group1 fl r text = Some g ->
  exists pre suf c,
    text = pre +:+ suf /\ match_here fl r suf = Some c /\ group 1 c = Some g.
Proof.
  unfold search_group1.
  destruct (search fl r text) as [c|] eqn:S; [|discriminate].
  apply search_Some in S as (pre & suf & E & Hc & _).
  intros G. now exists pre, suf, c.
Qed.

(** X1.  A density that is returned is [RD], in the casing of the text,
    followed by all the digits that follow it there, at least one. *)
Theorem density_shape (blob d : string) :
  extract_density blob = Some d ->
  exists pre rd digits rest,
    blob = pre +:+ rd +:+ digits +:+ rest /\ d = rd +:+ digits /\
    Py.lower rd = "rd" /\ digits <> "" /\
    all_chars Py.isdecimal digits = true /\
    head_is Py.isdecimal rest = false.
Proof.
  intros H. apply search_group1_Some in H as (pre & suf & c & -> & Hc & G).
  apply density_match_here in Hc
    as (lead & rd & digits & rest & -> & L & N & D & R & ->).
  cbn [group Nat.eqb] in G. injection G as <-.
  exists (pre +:+ lead), rd, digits, rest.
  rewrite append_assoc. repeat split; auto.
Qed.

Lemma density_shape_witness :
  exists pre rd digits rest,
    "Residential density: rd25 dwellings" = pre +:+ rd +:+ digits +:+ rest /\
    "rd25" = rd +:+ digits /\
    Py.lower rd = "rd" /\ digits <> "" /\
    all_chars Py.isdecimal digits = true /\
    head_is Py.isdecimal rest = false.
Proof.
  apply (density_shape "Residential density: rd25 dwellings" "rd25").
  vm_compute. reflexivity.
Defined.

Lemma remove_commas_clean (g : string) :
  all_chars area_char g = true ->
  all_chars digit_or_dot (Py.remove_char "," g) = true.
Proof.
  induction g as [|a g IH]; simpl; [reflexivity|].
  intros H. apply andb_prop in H as [Ha H]. specialize (IH H).
  destruct (Ascii.eqb a ",") eqn:C; [exact IH|].
  simpl. rewrite IH, andb_true_r. unfold area_char in Ha.
  unfold digit_or_dot. now rewrite C, orb_false_r in Ha.
Qed.

Lemma scan_div_fields_ok (txt : string) (acc : option string * option string) :
  card_fields_ok acc -> card_fields_ok (scan_div txt acc).
Proof.
  destruct acc as [area lotplan]. intros [Ha Hl]. unfold scan_div.
  split; cbn [fst snd].
  - destruct (search_group1 I area_re txt) as [g|] eqn:G; [|exact Ha].
    destruct (negb (Py.truthy area)); [|exact Ha].
    intros a [= <-].
    apply search_group1_Some in G as (pre & suf & c & _ & Hc & G).
    apply area_match_here in Hc as (lead & g' & tail & _ & _ & Hg & ->).
    cbn [group Nat.eqb] in G. injection G as <-.
    now apply remove_commas_clean.
  - destruct (search_group1 I lotplan_re txt) as [g|] eqn:G; [|exact Hl].
    destruct (negb (Py.truthy lotplan)); [|exact Hl].
    intros l [= <-].
    apply search_group1_Some in G as (pre & suf & c & _ & Hc & G).
    apply lotplan_match_here in Hc
      as (lead & g' & rest & _ & N & Hg & _ & ->).
    cbn [group Nat.eqb] in G. injection G as <-. now split.
Qed.

(** The card loop returns, reads every [div] once and in order, and keeps
    whatever [scan_div] keeps. *)
Lemma scan_divs_run (P : option string * option string -> Prop)
    (b : browser) :
  (forall txt acc, P acc -> P (scan_div txt acc)) ->
  forall indices acc h, P acc ->
    exists v,
      scan_divs indices acc b h
      = (Ok v, h ++ map (InnerTextNth DETAIL_DIVS) indices) /\ P v.
Proof.
  intros Hstep. induction indices as [|i rest IH]; intros acc h Hacc.
  - exists acc. simpl. now rewrite app_nil_r.
  - cbn [scan_divs]. unfold bind at 1, catch, bind, text, ask, ret.
    destruct (on_text b h (InnerTextNth DETAIL_DIVS i)) as [t|e].
    + destruct (IH (scan_div (Py.strip t) acc)
                  (h ++ [InnerTextNth DETAIL_DIVS i]) (Hstep _ _ Hacc))
        as (v & -> & Hv).
      exists v. simpl. now rewrite <- app_assoc.
    + destruct (IH acc (h ++ [InnerTextNth DETAIL_DIVS i]) Hacc)
        as (v & -> & Hv).
      exists v. simpl. now rewrite <- app_assoc.
Qed.

(** X2.  [extract_area_and_lotplan] never raises.  When the count of the
    card's [div]s raises it returns nothing for both fields; otherwise it
    reads each [div] once, in order, to the last one.  An area it returns
    holds digits and dots only, and a lot/plan is a non-empty run of word
    characters. *)
Theorem card_reader_behaviour (b : browser) (h : list call) :
  exists v h',
    extract_area_and_lotplan b h = (Ok v, h')
    /\ (forall a, fst v = Some a -> all_chars digit_or_dot a = true)
    /\ (forall l, snd v = Some l ->
                  l <> "" /\ all_chars Py.isword l = true)
    /\ (forall e, on_count b h (Count DETAIL_DIVS) = Raise e ->
                  v = (None, None) /\ h' = h ++ [Count DETAIL_DIVS])
    /\ (forall n, on_count b h (Count DETAIL_DIVS) = Ok n ->
                  h' = h ++ [Count DETAIL_DIVS]
                         ++ map (InnerTextNth DETAIL_DIVS) (seq 0 n)).
Proof.
  unfold extract_area_and_lotplan, catch, bind at 1, count, ask.
  destruct (on_count b h (Count DETAIL_DIVS)) as [n|e].
  - destruct (scan_divs_run card_fields_ok b scan_div_fields_ok (seq 0 n)
                (None, None) (h ++ [Count DETAIL_DIVS]))
      as (v & -> & Ha & Hl).
    { split; cbn [fst snd]; discriminate. }
    exists v, ((h ++ [Count DETAIL_DIVS])
               ++ map (InnerTextNth DETAIL_DIVS) (seq 0 n)).
    split; [reflexivity|]. split; [exact Ha|]. split; [exact Hl|].
    split; [discriminate|].
    intros m [= <-]. now rewrite <- app_assoc.
  - exists (None, None), (h ++ [Count DETAIL_DIVS]).
    split; [reflexivity|]. split; [discriminate|]. split; [discriminate|].
    split; [now intros e' _ | discriminate].
Qed.

Lemma card_reader_behaviour_witness :
  exists v h',
    extract_area_and_lotplan (card [area_line; "Lot/Plan 4GTP446"]) []
    = (Ok v, h')
    /\ h' = [Count DETAIL_DIVS; InnerTextNth DETAIL_DIVS 0;
             InnerTextNth DETAIL_DIVS 1].
Proof.
  destruct (card_reader_behaviour (card [area_line; "Lot/Plan 4GTP446"]) [])
    as (v & h' & E & _ & _ & _ & Hn).
  exists v, h'. split; [exact E|]. apply (Hn 2). reflexivity.
Defined.

(** X3.  The first area and the first lot/plan found on the card are kept:
    no later [div] changes a field that holds a non-empty value.  An area
    that normalised to the empty string does not count as found, and the
    next match replaces it. *)
Theorem card_first_match_wins :
  (forall b indices a lotplan h, a <> "" ->
     exists lotplan' h',
       scan_divs indices (Some a, lotplan) b h = (Ok (Some a, lotplan'), h'))
  /\ (forall b indices area l h, l <> "" ->
        exists area' h',
          scan_divs indices (area, Some l) b h = (Ok (area', Some l), h'))
  /\ (forall txt g lotplan,
        search_group1 I area_re txt = Some g ->
        fst (scan_div txt (Some "", lotplan))
        = Some (Py.remove_char "," g)).
Proof.
  split; [|split].
  - intros b indices a lotplan h Na.
    destruct (scan_divs_run (fun v => fst v = Some a) b) with
      (indices := indices) (acc := (Some a, lotplan)) (h := h)
      as ([ar lp] & -> & Hv); [| reflexivity | simpl in Hv; subst; eauto].
    intros txt [ar lp]. cbn [fst]. intros ->. unfold scan_div. cbn [fst].
    destruct a; [now destruct Na|].
    now destruct (search_group1 I area_re txt).
  - intros b indices area l h Nl.
    destruct (scan_divs_run (fun v => snd v = Some l) b) with
      (indices := indices) (acc := (area, Some l)) (h := h)
      as ([ar lp] & -> & Hv); [| reflexivity | simpl in Hv; subst; eauto].
    intros txt [ar lp]. cbn [snd]. intros ->. unfold scan_div. cbn [snd].
    destruct l; [now destruct Nl|].
    now destruct (search_group1 I lotplan_re txt).
  - intros txt g lotplan G. unfold scan_div. rewrite G. reflexivity.
Qed.

Lemma card_first_match_wins_witness :
  exists lotplan' h',
    scan_divs [0; 1] (Some "450", None) (card ["Plan Area 9 m2"; "x"]) []
    = (Ok (Some "450", lotplan'), h').
Proof.
  apply (proj1 card_first_match_wins). discriminate.
Defined.

(** X4.  The zone is decided by the first place of the text where a phrase
    starts: when [z] is a case variation of a phrase [p] and no phrase starts
    before it, the zone is [z] itself.  So a text that names
    [Low-medium density residential] first gets that zone, not the
    [medium density residential] inside it. *)
Theorem zone_first_phrase (pre z post p : string) :
  In p zone_phrases -> Py.lower z = Py.lower p ->
  (forall i, i < String.length pre ->
             phrase_starts_at i (pre +:+ z +:+ post) = false) ->
  extract_zone (pre +:+ z +:+ post) = Some z.
Proof.
  intros Hp Hz Hnone.
  assert (lit_startswith I p (z +:+ post) = true) as Sp
    by (apply lit_startswith_I; now exists z, post).
  unfold extract_zone, search_group1.
  destruct (search I zone_re (pre +:+ z +:+ post)) as [c|] eqn:S.
  - apply search_Some in S as (pre0 & suf0 & E & Hc & Hleft).
    apply zone_match_here_Some in Hc as (q & Hq & Sq & ->).
    cbn [group Nat.eqb]. f_equal.
    destruct (Nat.lt_trichotomy (String.length pre0) (String.length pre))
      as [Lt | [Eq | Gt]].
    + exfalso. specialize (Hnone _ Lt). unfold phrase_starts_at in Hnone.
      rewrite E, drop_append' in Hnone.
      assert (existsb (fun q0 => lit_startswith I q0 suf0) zone_phrases
              = true) as X
        by (apply existsb_exists; now exists q).
      congruence.
    + symmetry in Eq.
      destruct (append_same_length _ _ _ _ E Eq) as [-> <-].
      rewrite (zone_phrases_exclusive q p _ Hq Hp Sq Sp).
      assert (String.length z = String.length p) as <-
        by now rewrite <- (length_lower z), Hz, length_lower.
      apply take_append.
    + exfalso. apply (Hleft pre (z +:+ post)) in Gt; [|reflexivity].
      apply (zone_match_here_None _ p) in Gt; [congruence | exact Hp].
  - exfalso.
    apply search_None with (pre := pre) (suf := z +:+ post) in S;
      [|reflexivity].
    apply (zone_match_here_None _ p) in S; [congruence | exact Hp].
Qed.

Lemma zone_first_phrase_witness :
  extract_zone ("Zone: " +:+ "LOW-medium density residential" +:+ " (RD5)")
  = Some "LOW-medium density residential".
Proof.
  apply (zone_first_phrase "Zone: " "LOW-medium density residential" " (RD5)"
           "Low-medium density residential").
  - simpl; tauto.
  - reflexivity.
  - intros [|[|[|[|[|[|i]]]]]] L; try (vm_compute; reflexivity).
    simpl in L. lia.
Defined.

(** X5.  An overlay name that is returned is one trimmed line: it holds no
    line boundary, has no whitespace at either end, and trimming it again
    changes nothing. *)
Theorem overlay_names_clean (blob ln : string) :
  In ln (extract_overlays blob) ->
  all_chars (fun a => negb (Py.islinebreak a)) ln = true
  /\ starts_with_space ln = false
  /\ ends_with_space ln = false
  /\ Py.strip ln = ln.
Proof.
  unfold extract_overlays.
  destruct (overlay_section blob) as [sect|]; [|intros []].
  rewrite overlay_loop. simpl. intros H.
  apply first_seen_In in H as [H _]. apply filter_In in H as [H _].
  apply stripped_lines_In in H as (raw & Hraw & <- & _).
  destruct (strip_clean raw) as (H1 & H2 & H3).
  repeat split; auto.
  apply all_chars_strip. now apply (splitlines_no_break sect).
Qed.

Lemma overlay_names_clean_witness :
  all_chars (fun a => negb (Py.islinebreak a)) "Bushfire overlay" = true
  /\ starts_with_space "Bushfire overlay" = false
  /\ ends_with_space "Bushfire overlay" = false
  /\ Py.strip "Bushfire overlay" = "Bushfire overlay".
Proof.
  apply (overlay_names_clean scanner_blob). vm_compute. tauto.
Defined.

End FieldFacts.

(** ** The property workflow as a whole *)

(** A step of a run that went well, when only what follows matters. *)
Ltac pass_step H := apply bind_Ok in H as (? & ? & _ & H).

Section RunFacts.

Import Re Browser Scraper.

Lemma extract_area_and_lotplan_fields (b : browser) (h h' : list call)
    (v : option string * option string) :
  extract_area_and_lotplan b h = (Ok v, h') -> card_fields_ok v.
Proof.
  unfold extract_area_and_lotplan, catch, bind at 1, count, ask.
  destruct (on_count b h (Count DETAIL_DIVS)) as [n|e].
  - destruct (scan_divs_run card_fields_ok b scan_div_fields_ok (seq 0 n)
                (None, None) (h ++ [Count DETAIL_DIVS]))
      as (v' & -> & Hv); [split; cbn [fst snd]; discriminate|].
    now intros [= <- _].
  - intros [= <- _]. split; cbn [fst snd]; discriminate.
Qed.

(** What a completed run of the steps has put in the record. *)
Lemma scrape_steps_record (query : string) (r0 r : PropertyData)
    (b : browser) (h h' : list call) :
  scrape_steps query r0 b h = (Ok r, h') ->
  exists v panel_text height h1 h2 h3 h4,
    extract_area_and_lotplan b h1 = (Ok v, h2) /\
    scrape_left_panel_text b h3 = (Ok panel_text, h4) /\
    (height = building_height r0 \/ height = Some "(see screenshot)") /\
    r = {| address := address r0; lot_plan := snd v;
           zone := extract_zone panel_text;
           residential_density := extract_density panel_text;
           area_sqm := fst v; building_height := height;
           overlays := extract_overlays panel_text |}.
Proof.
  unfold scrape_steps. intros H.
  do 9 pass_step H.
  apply bind_Ok in H as (v & h2 & Hv & H).
  apply bind_Ok in H as (panel_text & h4 & Hp & H).
  apply bind_Ok in H as (enabled & ? & _ & H).
  apply bind_Ok in H as (r1 & ? & H1 & H).
  pass_step H. injection H as <- _.
  exists v, panel_text, (building_height r1).
  do 4 eexists. split; [exact Hv|]. split; [exact Hp|].
  destruct enabled.
  - apply bind_Ok in H1 as (p & ? & _ & H1).
    destruct (Py.truthy p); injection H1 as <- _; simpl; auto.
  - injection H1 as <- _. simpl. auto.
Qed.

(** X6.  A record returned by the property workflow keeps the invariants of
    its parts: the zone, when present, is one of the four phrases up to
    case; the overlays are distinct, none is excluded or shorter than six
    characters; the area holds digits and dots only; the lot/plan is a
    non-empty run of word characters; and the building height is absent or
    the fixed marker. *)
Theorem record_invariants (query : string) (b : browser) (h h' : list call)
    (r : PropertyData) :
  scrape_goldcoast_property query b h = (Ok r, h') ->
  (forall z, zone r = Some z ->
             exists p, In p zone_phrases /\ Py.lower z = Py.lower p)
  /\ List.NoDup (overlays r)
  /\ (forall ln, In ln (overlays r) ->
                 excluded ln = false /\ 5 < String.length ln)
  /\ (forall a, area_sqm r = Some a -> all_chars digit_or_dot a = true)
  /\ (forall l, lot_plan r = Some l ->
                l <> "" /\ all_chars Py.isword l = true)
  /\ (building_height r = None
      \/ building_height r = Some "(see screenshot)").
Proof.
  intros H. unfold scrape_goldcoast_property in H.
  do 2 pass_step H. unfold finally, catch in H.
  match type of H with
  | context [scrape_steps ?q ?r0 ?b0 ?h0] =>
      destruct (scrape_steps q r0 b0 h0) as [[r1|e] h1] eqn:S
  end.
  - destruct (action Close b h1) as [[[]|e] h2]; [|discriminate].
    injection H as <- _.
    apply scrape_steps_record in S
      as (v & panel_text & height & ha & hb & hc & hd & Hv & _ & Hh & ->).
    cbn [zone overlays area_sqm lot_plan building_height] in *.
    destruct (extract_area_and_lotplan_fields _ _ _ _ Hv) as [Ha Hl].
    split; [|split; [|split; [|split; [|split]]]].
    + intros z Z. apply extract_zone_leftmost in Z
        as (p & _ & _ & Hp & _ & L & _). now exists p.
    + unfold extract_overlays.
      destruct (overlay_section panel_text); [|constructor].
      rewrite overlay_loop. apply first_seen_NoDup.
    + intros ln. unfold extract_overlays.
      destruct (overlay_section panel_text); [|intros []].
      rewrite overlay_loop. simpl. intros X.
      apply first_seen_In in X as [X _]. apply filter_In in X as [_ X].
      unfold kept in X. apply andb_prop in X as [X1 X2].
      apply negb_true_iff in X1. apply Nat.ltb_lt in X2. now split.
    + exact Ha.
    + exact Hl.
    + destruct Hh as [-> | ->]; auto.
  - unfold bind in H.
    destruct (action (Screenshot "page" "error_screenshot.png") b h1)
      as [[[]|e1] h2]; simpl in H;
      destruct (on_action b h2 Close); discriminate.
Qed.

Lemma record_invariants_witness :
  exists r h',
    scrape_goldcoast_property "12 Example St"
      (slow_panel scanner_blob) [] = (Ok r, h')
    /\ List.NoDup (overlays r)
    /\ (building_height r = None
        \/ building_height r = Some "(see screenshot)").
Proof.
  destruct (scrape_goldcoast_property "12 Example St"
              (slow_panel scanner_blob) []) as [[r|e] h'] eqn:E.
  - exists r, h'. split; [reflexivity|].
    destruct (record_invariants _ _ _ _ _ E) as (_ & N & _ & _ & _ & B).
    now split.
  - vm_compute in E. discriminate E.
Defined.

(** X7.  Once the browser and its page exist, the run ends with
    [browser.close()], whether the steps returned or raised.  If the close
    itself raises, its exception is what the caller gets, even when the
    record had been built; if the steps raised and both the snapshot and the
    close went well, the caller gets the exception of the steps. *)
Theorem run_ends_closed (query : string) (b : browser) (h : list call) :
  on_action b h Launch = Ok tt ->
  on_action b (h ++ [Launch]) NewPage = Ok tt ->
  exists h1,
    snd (scrape_goldcoast_property query b h) = h1 ++ [Close]
    /\ (forall e2, on_action b h1 Close = Raise e2 ->
                   fst (scrape_goldcoast_property query b h) = Raise e2)
    /\ (forall e h0,
          scrape_steps query
            {| address := query; lot_plan := None; zone := None;
               residential_density := None; area_sqm := None;
               building_height := None; overlays := [] |}
            b (h ++ [Launch; NewPage]) = (Raise e, h0) ->
          on_action b h0 (Screenshot "page" "error_screenshot.png") = Ok tt ->
          on_action b h1 Close = Ok tt ->
          fst (scrape_goldcoast_property query b h) = Raise e).
Proof.
  intros HL HN.
  set (r0 := {| address := query; lot_plan := None; zone := None;
                residential_density := None; area_sqm := None;
                building_height := None; overlays := [] |}).
  assert (scrape_goldcoast_property query b h
          = finally
              (catch (scrape_steps query r0)
                 (fun e =>
                    bind (action (Screenshot "page" "error_screenshot.png"))
                      (fun _ => raise e)))
              (action Close) b (h ++ [Launch; NewPage])) as ->.
  { unfold scrape_goldcoast_property, bind at 1, action at 1, ask.
    rewrite HL. unfold bind at 1, action at 1, ask. rewrite HN.
    now rewrite <- app_assoc. }
  unfold finally, catch.
  destruct (scrape_steps query r0 b (h ++ [Launch; NewPage]))
    as [[r|e] h0] eqn:S.
  - exists h0. unfold action, ask.
    destruct (on_action b h0 Close) as [[]|e2] eqn:C; cbn [fst snd].
    + split; [reflexivity|]. split; [discriminate|]. discriminate.
    + split; [reflexivity|]. split; [now intros ? [= <-]|]. discriminate.
  - unfold bind, action, ask, raise.
    exists (h0 ++ [Screenshot "page" "error_screenshot.png"]).
    destruct (on_action b h0 (Screenshot "page" "error_screenshot.png"))
      as [[]|e1] eqn:P;
      destruct (on_action b _ Close) as [[]|e2] eqn:C; cbn [fst snd];
      (split; [reflexivity|]); (split; [try discriminate|]);
      try discriminate; try (now intros ? [= <-]).
    + now intros e' h0' [= <- <-].
    + intros e' h0' [= <- <-]. congruence.
Qed.

Lemma run_ends_closed_witness :
  exists h1,
    snd (scrape_goldcoast_property "12 Example St" quiet []) = h1 ++ [Close].
Proof.
  destruct (run_ends_closed "12 Example St" quiet [] eq_refl eq_refl)
    as (h1 & E & _).
  now exists h1.
Defined.

(** X8.  The panel text is the text of one of the five panel selectors, and
    then it mentions a zone or an overlay, or else it is the text of the page
    body; the capture raises only when the read of the body raises. *)
Theorem panel_text_source (b : browser) (h : list call) :
  match fst (scrape_left_panel_text b h) with
  | Ok t =>
      (exists selector h1,
         In selector panel_selectors /\
         on_text b h1 (InnerText selector) = Ok t /\
         is_panel_text t = true)
      \/ (exists h1, on_text b h1 (InnerText "body") = Ok t)
  | Raise e => exists h1, on_text b h1 (InnerText "body") = Raise e
  end.
Proof.
  assert (forall h1,
            match fst (text (InnerText "body") b h1) with
            | Ok t =>
                (exists selector h2,
                   In selector panel_selectors /\
                   on_text b h2 (InnerText selector) = Ok t /\
                   is_panel_text t = true)
                \/ (exists h2, on_text b h2 (InnerText "body") = Ok t)
            | Raise e => exists h2, on_text b h2 (InnerText "body") = Raise e
            end) as Body.
  { intros h1. unfold text, ask. cbn [fst].
    destruct (on_text b h1 (InnerText "body")) eqn:E; eauto. }
  unfold scrape_left_panel_text, catch, bind at 1, action at 1, ask.
  destruct (on_action b h (WaitForSelector ZONE_TEXT 10000)) as [[]|e];
    [|apply Body].
  unfold bind at 1, action at 1, ask.
  destruct (on_action b _ (WaitForTimeout 2000)) as [[]|e]; [|apply Body].
  unfold bind.
  destruct (try_selectors_order b panel_selectors
              ((h ++ [WaitForSelector ZONE_TEXT 10000])
               ++ [WaitForTimeout 2000]))
    as (tried & later & w & E & -> & _ & He & Hp).
  destruct w as [t|].
  - cbn [ret fst]. left.
    destruct tried as [|x0 tried0] eqn:T; [now specialize (He eq_refl)|].
    destruct (@exists_last _ (x0 :: tried0)) as (pre & x & Ex);
      [discriminate|].
    specialize (Hp pre x [] Ex). cbn iota in Hp.
    unfold panel_resolves in Hp.
    destruct (on_text b _ (InnerText x)) as [t'|] eqn:Tx; [|discriminate].
    destruct (is_panel_text t') eqn:Pt; [|discriminate].
    injection Hp as ->.
    exists x. eexists. split; [|split; [exact Tx | exact Pt]].
    rewrite E, Ex. apply in_or_app. left. apply in_or_app. right. now left.
  - match goal with
    | |- context [text (InnerText "body") b ?h1] =>
        pose proof (Body h1) as First;
        destruct (text (InnerText "body") b h1) as [[t|e] h2]
    end; [exact First | apply Body].
Qed.

End RunFacts.

(** ** The document workflow as a whole *)

Section DownloadFacts.

Import Browser Downloader.

Lemma find_decision_notice_Some (all_rows : list row) (found : option link)
    (l : link) :
  find_decision_notice all_rows found = Some l ->
  found = Some l
  \/ exists r t,
       In r all_rows /\ row_text r = Ok t /\
       Py.contains MARKER t = true /\ row_link r = Ok (Some l).
Proof.
  revert found; induction all_rows as [|r rows IH]; intros found; simpl.
  - now left.
  - assert (forall f, find_decision_notice rows f = Some l ->
              f = Some l
              \/ exists r0 t,
                   (r = r0 \/ In r0 rows) /\ row_text r0 = Ok t /\
                   Py.contains MARKER t = true /\
                   row_link r0 = Ok (Some l)) as Rest.
    { intros f H. apply IH in H as [H | (r0 & t & ? & ? & ? & ?)];
        [now left | right; exists r0, t; auto]. }
    destruct (row_text r) as [t|] eqn:T; [|apply Rest].
    destruct (Py.contains MARKER t) eqn:C; [|apply Rest].
    destruct (row_link r) as [[l'|]|] eqn:K; try apply Rest.
    destruct (link_text l').
    + intros [= ->]. right. exists r, t. auto.
    + intros H. apply Rest in H as [[= ->] | H]; [|now right].
      right. exists r, t. auto.
Qed.

Lemma find_decision_notice_None (all_rows : list row) (found : option link) :
  find_decision_notice all_rows found = None <->
  found = None
  /\ forall r t l, In r all_rows -> row_text r = Ok t ->
                   Py.contains MARKER t = true ->
                   row_link r <> Ok (Some l).
Proof.
  revert found; induction all_rows as [|r rows IH]; intros found; simpl.
  - split; [intros ->; split; [reflexivity | intros ? ? ? []] | tauto].
  - assert (forall f,
              (forall t l, row_text r = Ok t ->
                           Py.contains MARKER t = true ->
                           row_link r <> Ok (Some l)) ->
              find_decision_notice rows f = None <->
              f = None
              /\ forall r0 t l, r = r0 \/ In r0 rows -> row_text r0 = Ok t ->
                                Py.contains MARKER t = true ->
                                row_link r0 <> Ok (Some l)) as Rest.
    { intros f Hr. rewrite IH. split.
      - intros [-> H]. split; [reflexivity|].
        intros r0 t l [<- | Hin]; [apply Hr | now apply H].
      - intros [-> H]. split; [reflexivity|].
        intros r0 t l Hin. apply H. now right. }
    destruct (row_text r) as [t|] eqn:T;
      [|apply Rest; intros; discriminate].
    destruct (Py.contains MARKER t) eqn:C;
      [|apply Rest; intros ? ? [= <-]; congruence].
    destruct (row_link r) as [[l'|]|] eqn:K;
      try (apply Rest; intros; discriminate).
    assert (~ (found = None
               /\ forall r0 t0 l, r = r0 \/ In r0 rows ->
                    row_text r0 = Ok t0 -> Py.contains MARKER t0 = true ->
                    row_link r0 <> Ok (Some l))) as No.
    { intros [_ H]. apply (H r t l' (or_introl eq_refl) T C K). }
    destruct (link_text l').
    + split; [discriminate | tauto].
    + split; [|tauto]. intros H. exfalso.
      destruct (proj1 (IH (Some l')) H) as [X _]. discriminate.
Qed.

(** X9.  The link chosen for the download always comes from a row whose
    text holds the marker, and no link is chosen exactly when no readable row
    holds both the marker and a link in its first cell. *)
Theorem decision_notice_link_sound (all_rows : list row) :
  (forall l,
     find_decision_notice all_rows None = Some l ->
     exists r t,
       In r all_rows /\ row_text r = Ok t /\
       Py.contains MARKER t = true /\ row_link r = Ok (Some l))
  /\ (find_decision_notice all_rows None = None <->
      forall r t l, In r all_rows -> row_text r = Ok t ->
                    Py.contains MARKER t = true ->
                    row_link r <> Ok (Some l)).
Proof.
  split.
  - intros l H. apply find_decision_notice_Some in H as [H | H];
      [discriminate | exact H].
  - rewrite find_decision_notice_None. tauto.
Qed.

Lemma decision_notice_link_sound_witness :
  exists r t,
    In r [doc_row 1 "Plan Form"; doc_row 2 "Signed Decision Notice"] /\
    row_text r = Ok t /\ Py.contains MARKER t = true /\
    row_link r = Ok (Some (view 2)).
Proof.
  apply (proj1 (decision_notice_link_sound
                  [doc_row 1 "Plan Form"; doc_row 2 "Signed Decision Notice"])).
  vm_compute. reflexivity.
Defined.

(** X10.  The documents listed for the caller are at most as many as the
    rows, and each is listed with a name that is not empty and a link text,
    both trimmed. *)
Theorem documents_found_clean (all_rows : list row) :
  List.length (documents_found all_rows) <= List.length all_rows
  /\ forall link_name name,
       In (link_name, name) (documents_found all_rows) ->
       name <> "" /\ Py.strip name = name /\ Py.strip link_name = link_name.
Proof.
  rewrite documents_found_listed. unfold listed. split.
  - induction all_rows as [|r rows IH]; simpl; [lia|].
    rewrite length_app. destruct (document_of r); simpl; lia.
  - intros lk nm H. apply in_flat_map in H as (r & _ & H).
    destruct (document_of r) as [[lk' nm']|] eqn:D; [|destruct H].
    destruct H as [[= -> ->] | []].
    apply document_of_Some in D as (t & lt & nt & more & _ & _ & _ & -> & -> & N).
    split; [exact N|]. split; apply strip_clean.
Qed.

Lemma documents_found_clean_witness :
  "Plan Form" <> "" /\ Py.strip "Plan Form" = "Plan Form"
  /\ Py.strip "View" = "View".
Proof.
  apply (proj2 (documents_found_clean [doc_row 1 " Plan Form "]) "View").
  vm_compute. tauto.
Defined.

Lemma failure_ok (e : string) : result_ok (failure e).
Proof. right. repeat split; try reflexivity. now exists e. Qed.

Lemma not_found_ok (all_rows : list row) : result_ok (not_found all_rows).
Proof.
  right. repeat split; try reflexivity.
  now exists "Signed Decision Notice not found".
Qed.

Lemma downloaded_ok (app_number output_dir : string) (n : nat) :
  result_ok (downloaded app_number output_dir n).
Proof. left. repeat split; try reflexivity. eexists. reflexivity. Qed.

(** What step 3 returns when it returns a [dict]. *)
Lemma open_first_result_Some (debug : bool) (b : browser)
    (h h' : list call) (d : gmap string pyval) :
  open_first_result debug b h = (Ok (Some d), h') ->
  exists h0,
    h' = h0 ++ [Close]
    /\ (d = failure "No clickable link found"
        \/ d = failure "No results found"
        \/ d = failure "Results table not found").
Proof.
  unfold open_first_result, catch.
  destruct (bind (action (WaitForSelector "table#gridResults" 5000)) _ b h)
    as [[r|e] h1] eqn:B.
  - intros [= -> ->].
    pass_step B. apply bind_Ok in B as (found & ? & _ & B). pass_step B.
    destruct found as [|first rest].
    + unfold bind, action, ask, ret in B.
      destruct (on_action b _ Close); [|discriminate].
      injection B as <- <-. eexists. split; [reflexivity | auto].
    + apply bind_Ok in B as ([l|] & ? & _ & B).
      * do 3 pass_step B. discriminate.
      * unfold bind, action, ask, ret in B.
        destruct (on_action b _ Close); [|discriminate].
        injection B as <- <-. eexists. split; [reflexivity | auto].
  - unfold bind, action, ask, ret.
    destruct (on_action b h1 Close); [|discriminate].
    intros [= <- <-]. eexists. split; [reflexivity | auto].
Qed.

(** X11.  On the summary page, when the browser can be closed, step 3 never
    raises: it goes on to the detail page, or it closes the browser and
    returns one of three failures.  With no result row the failure is
    [No results found]; with a first row that holds no link it is
    [No clickable link found]. *)
Theorem open_first_result_cases (debug : bool) (b : browser)
    (h : list call) :
  closes b ->
  (exists r h',
     open_first_result debug b h = (Ok r, h')
     /\ forall d, r = Some d ->
          exists h0,
            h' = h0 ++ [Close]
            /\ (d = failure "No clickable link found"
                \/ d = failure "No results found"
                \/ d = failure "Results table not found"))
  /\ (on_action b h (WaitForSelector "table#gridResults" 5000) = Ok tt ->
      on_rows b (h ++ [WaitForSelector "table#gridResults" 5000])
        (QuerySelectorAll RESULT_ROWS) = Ok [] ->
      fst (open_first_result debug b h)
      = Ok (Some (failure "No results found")))
  /\ (forall first rest,
        on_action b h (WaitForSelector "table#gridResults" 5000) = Ok tt ->
        on_rows b (h ++ [WaitForSelector "table#gridResults" 5000])
          (QuerySelectorAll RESULT_ROWS) = Ok (first :: rest) ->
        list_results (first :: rest) b
          (h ++ [WaitForSelector "table#gridResults" 5000;
                 QuerySelectorAll RESULT_ROWS])
        = (Ok tt, h ++ [WaitForSelector "table#gridResults" 5000;
                        QuerySelectorAll RESULT_ROWS]) ->
        row_link first = Ok None ->
        fst (open_first_result debug b h)
        = Ok (Some (failure "No clickable link found"))).
Proof.
  intros Hc. split; [|split].
  - destruct (open_first_result debug b h) as [[r|e] h'] eqn:E.
    + exists r, h'. split; [reflexivity|]. intros d ->.
      now apply open_first_result_Some in E.
    + exfalso. unfold open_first_result, catch in E.
      destruct (bind (action (WaitForSelector "table#gridResults" 5000)) _
                  b h) as [[r|e0] h1]; [discriminate|].
      unfold bind, action, ask, ret in E. rewrite Hc in E. discriminate.
  - intros Hw Hr. unfold open_first_result, catch, bind at 1, action at 1, ask.
    rewrite Hw. unfold bind at 1, rows, ask. rewrite Hr.
    unfold bind, list_results, action, ask, ret. now rewrite Hc.
  - intros first rest Hw Hr Hl Hk.
    unfold open_first_result, catch, bind at 1, action at 1, ask.
    rewrite Hw. unfold bind at 1, rows, ask. rewrite Hr.
    unfold bind at 1. rewrite <- app_assoc. cbn [app]. rewrite Hl.
    unfold bind at 1, of_outcome. rewrite Hk.
    unfold bind, action, ask, ret. now rewrite Hc.
Qed.

Lemma open_first_result_cases_witness :
  fst (open_first_result true quiet [])
  = Ok (Some (failure "No results found"))
  /\ fst (open_first_result true (showing [plain_row "MIN/2024/216"]) [])
     = Ok (Some (failure "No clickable link found")).
Proof.
  split.
  - apply (proj1 (proj2 (open_first_result_cases true quiet []
                           (fun _ => eq_refl)))); reflexivity.
  - apply (proj2 (proj2 (open_first_result_cases true
                           (showing [plain_row "MIN/2024/216"]) []
                           (fun _ => eq_refl)))
             (plain_row "MIN/2024/216") []); reflexivity.
Defined.

Lemma find_markers_total (b : browser) (markers found : list string)
    (h : list call) :
  exists found' h', find_markers markers found b h = (Ok found', h').
Proof.
  revert found h; induction markers as [|m rest IH]; intros found h.
  - now exists found, h.
  - cbn [find_markers]. unfold bind at 1, catch, bind, action, ask, ret.
    destruct (on_action b h (WaitForSelector m 3000)) as [[]|e]; apply IH.
Qed.

Lemma catch_false_total (m : M bool) (b : browser) (h : list call) :
  exists r h', catch m (fun _ => ret false) b h = (Ok r, h').
Proof.
  unfold catch, ret. destruct (m b h) as [[r|e] h']; eauto.
Qed.

(** X12.  Steps 4 and 5 only look at the page: without [debug] they return
    whatever the browser does.  With [debug] they raise exactly when their
    snapshot raises, and that ends the download. *)
Theorem advisory_steps (app_number : string) (b : browser) (h : list call) :
  (exists h', verify_detail_page app_number false b h = (Ok tt, h'))
  /\ (exists h', locate_documents app_number false b h = (Ok tt, h'))
  /\ (forall e h',
        verify_detail_page app_number true b h = (Raise e, h') ->
        exists h0,
          on_action b h0
            (Screenshot "page"
               ("debug_detail_page_" +:+ sanitized app_number +:+ ".png"))
          = Raise e)
  /\ (forall e h',
        locate_documents app_number true b h = (Raise e, h') ->
        exists h0,
          on_action b h0
            (Screenshot "page"
               ("debug_no_docs_" +:+ sanitized app_number +:+ ".png"))
          = Raise e).
Proof.
  split; [|split; [|split]].
  - unfold verify_detail_page, bind.
    destruct (find_markers_total b detail_markers [] h) as (f & h' & ->).
    exists h'. now destruct f.
  - unfold locate_documents, bind at 1.
    destruct (catch_false_total
                (bind (action (WaitForSelector "text=Application documents"
                                 5000))
                   (fun _ =>
                      bind (action
                              (ScrollIntoView "text=Application documents"))
                        (fun _ => ret true))) b h) as (r & h1 & ->).
    unfold bind at 1. destruct r.
    + now exists h1.
    + destruct (catch_false_total
                  (bind (tables (QuerySelectorAll "table"))
                     (fun found => find_documents_table found)) b h1)
        as (r2 & h2 & ->).
      exists h2. now destruct r2.
  - intros e h'. unfold verify_detail_page, bind.
    destruct (find_markers_total b detail_markers [] h) as (f & h1 & ->).
    destruct f; [|discriminate]. unfold action, ask.
    intros [= E _]. now exists h1.
  - intros e h'. unfold locate_documents, bind at 1.
    destruct (catch_false_total
                (bind (action (WaitForSelector "text=Application documents"
                                 5000))
                   (fun _ =>
                      bind (action
                              (ScrollIntoView "text=Application documents"))
                        (fun _ => ret true))) b h) as (r & h1 & ->).
    unfold bind at 1. destruct r; [discriminate|].
    destruct (catch_false_total
                (bind (tables (QuerySelectorAll "table"))
                   (fun found => find_documents_table found)) b h1)
      as (r2 & h2 & ->).
    destruct r2; [discriminate|]. unfold action, ask.
    intros [= E _]. now exists h2.
Qed.

Lemma advisory_steps_witness :
  exists h0,
    on_action blind h0
      (Screenshot "page"
         ("debug_detail_page_" +:+ sanitized "MIN/2024/216" +:+ ".png"))
    = Raise "Page.screenshot: Target closed".
Proof.
  apply (proj1 (proj2 (proj2 (advisory_steps "MIN/2024/216" blind [])))
           "Page.screenshot: Target closed"
           (snd (verify_detail_page "MIN/2024/216" true blind []))).
  vm_compute. reflexivity.
Defined.

Lemma all_chars_append (f : ascii -> bool) (s t : string) :
  all_chars f (s +:+ t) = all_chars f s && all_chars f t.
Proof.
  induction s as [|a s IH]; simpl; [reflexivity|].
  now rewrite IH, andb_assoc.
Qed.

Lemma replace_char_gone (a c : ascii) (s : string) :
  Ascii.eqb c a = false ->
  all_chars (fun x => negb (Ascii.eqb x a)) (Py.replace_char a c s) = true.
Proof.
  intros Hc. induction s as [|x s IH]; simpl; [reflexivity|].
  rewrite IH, andb_true_r.
  destruct (Ascii.eqb x a) eqn:E; [now rewrite Hc | now rewrite E].
Qed.

Lemma endswith_append (d f : string) : Py.endswith f (d +:+ f) = true.
Proof.
  induction d as [|a d IH]; simpl.
  - destruct f; simpl; [reflexivity|].
    now rewrite Ascii.eqb_refl, String.eqb_refl.
  - rewrite IH. apply orb_true_r.
Qed.

Lemma endswith_path_join (output_dir filename : string) :
  Py.endswith filename (path_join output_dir filename) = true.
Proof.
  unfold path_join. destruct output_dir as [|a d].
  - apply (endswith_append "").
  - destruct (Py.endswith "/" (String a d)).
    + apply endswith_append.
    + rewrite <- append_assoc. apply endswith_append.
Qed.

Lemma action_Ok (c : call) (b : browser) (h h' : list call) (u : unit) :
  action c b h = (Ok u, h') -> on_action b h c = Ok tt /\ h' = h ++ [c].
Proof.
  unfold action, ask. destruct (on_action b h c) as [[]|e]; [|discriminate].
  now intros [= _ <-].
Qed.

(** What steps 6 and 7 return when they return. *)
Lemma find_and_download_result (app_number output_dir : string)
    (b : browser) (h h' : list call) (d : gmap string pyval) :
  find_and_download app_number output_dir b h = (Ok d, h') ->
  ((exists all_rows, d = not_found all_rows)
   \/ (exists n, d = downloaded app_number output_dir n))
  /\ exists h0, h' = h0 ++ [Close].
Proof.
  unfold find_and_download. intros H.
  apply bind_Ok in H as (all_rows & ? & _ & H).
  destruct (find_decision_notice all_rows None) as [l|].
  - do 3 pass_step H. apply bind_Ok in H as (n & ? & _ & H).
    apply bind_Ok in H as (u & h1 & C & H).
    apply action_Ok in C as [_ ->]. injection H as <- <-.
    split; [right; now exists n | eauto].
  - apply bind_Ok in H as (u & h1 & C & H).
    apply action_Ok in C as [_ ->]. injection H as <- <-.
    split; [left; now exists all_rows | eauto].
Qed.

(** X13.  When a row with the notice is found and every call of step 7
    succeeds, the link is clicked, the download awaited, saved and measured,
    and the browser closed, in that order, and the result carries the path.
    The file lands in [output_dir] under a name without any slash, whatever
    the application number. *)
Theorem download_success (b : browser) (h : list call) (all_rows : list row)
    (l : link) (app_number output_dir : string) (n : nat) :
  let path := path_join output_dir (notice_filename app_number) in
  let h1 := h ++ [QuerySelectorAll "table tr"] in
  let h2 := h1 ++ [ClickHandle (link_id l)] in
  let h3 := h2 ++ [Download (link_id l)] in
  let h4 := h3 ++ [SaveAs path] in
  let h5 := h4 ++ [GetSize path] in
  on_rows b h (QuerySelectorAll "table tr") = Ok all_rows ->
  find_decision_notice all_rows None = Some l ->
  on_action b h1 (ClickHandle (link_id l)) = Ok tt ->
  on_action b h2 (Download (link_id l)) = Ok tt ->
  on_action b h3 (SaveAs path) = Ok tt ->
  on_count b h4 (GetSize path) = Ok n ->
  on_action b h5 Close = Ok tt ->
  find_and_download app_number output_dir b h
  = (Ok (downloaded app_number output_dir n), h5 ++ [Close])
  /\ downloaded app_number output_dir n !! "file_path" = Some (PStr path)
  /\ Py.endswith (notice_filename app_number) path = true
  /\ all_chars (fun a => negb (Ascii.eqb a "/")) (notice_filename app_number)
     = true.
Proof.
  intros path h1 h2 h3 h4 h5 Hr Hf H1 H2 H3 H4 H5.
  split; [|split; [|split]].
  - unfold find_and_download, bind at 1, rows, ask. rewrite Hr, Hf.
    fold h1. unfold bind at 1, action at 1, ask. rewrite H1. fold h2.
    unfold bind at 1, action at 1, ask. rewrite H2. fold h3.
    fold (notice_filename app_number). fold path.
    unfold bind at 1, action at 1, ask. rewrite H3. fold h4.
    unfold bind at 1, count, ask. rewrite H4. fold h5.
    unfold bind, action, ask, ret. rewrite H5. reflexivity.
  - reflexivity.
  - apply endswith_path_join.
  - unfold notice_filename. rewrite !all_chars_append.
    now rewrite replace_char_gone.
Qed.

Lemma download_success_witness :
  find_and_download "MIN/2024/216" "/tmp"
    (showing [doc_row 7 "Signed Decision Notice"]) []
  = (Ok (downloaded "MIN/2024/216" "/tmp" 0),
     [QuerySelectorAll "table tr"; ClickHandle 7; Download 7;
      SaveAs "/tmp/DA_MIN_2024_216_Decision_Notice.pdf";
      GetSize "/tmp/DA_MIN_2024_216_Decision_Notice.pdf"; Close]).
Proof.
  apply (download_success (showing [doc_row 7 "Signed Decision Notice"]) []
           [doc_row 7 "Signed Decision Notice"] (view 7)
           "MIN/2024/216" "/tmp" 0); reflexivity.
Defined.

Lemma on_error_run (b : browser) (app_number : string) (debug : bool)
    (e : exn) (h : list call) :
  closes b ->
  exists h0, on_error app_number debug e b h = (Ok (failure e), h0 ++ [Close]).
Proof.
  intros L. unfold on_error, bind at 1.
  assert (exists h1,
            (if debug
             then catch
                    (bind url
                       (fun _ =>
                          action
                            (Screenshot "page"
                               ("error_screenshot_" +:+ sanitized app_number
                                +:+ ".png"))))
                    (fun _ => ret tt)
             else ret tt) b h = (Ok tt, h1)) as (h1 & ->).
  { destruct debug; [|now exists h].
    unfold catch, bind, url, action, ask, ret.
    destruct (on_action b (h ++ [Url]) _) as [[]|]; eauto. }
  unfold bind, action, ask, ret. rewrite (L h1). now exists h1.
Qed.

Lemma on_error_result (b : browser) (app_number : string) (debug : bool)
    (e : exn) (h h' : list call) (d : gmap string pyval) :
  on_error app_number debug e b h = (Ok d, h') ->
  d = failure e /\ exists h0, h' = h0 ++ [Close].
Proof.
  unfold on_error. intros H. pass_step H.
  apply bind_Ok in H as (u & h1 & C & H).
  apply action_Ok in C as [_ ->]. injection H as <- <-. eauto.
Qed.

Lemma download_steps_result (app_number output_dir : string) (debug : bool)
    (b : browser) (h h' : list call) (d : gmap string pyval) :
  download_steps app_number output_dir debug b h = (Ok d, h') ->
  result_ok d /\ exists h0, h' = h0 ++ [Close].
Proof.
  unfold download_steps. intros H. do 3 pass_step H.
  apply bind_Ok in H as (current & ? & _ & H).
  apply bind_Ok in H as (returned & ? & R & H).
  destruct returned as [d0|].
  - injection H as <- <-.
    destruct (Py.contains "EnquirySummaryView" current); [|discriminate].
    apply open_first_result_Some in R as (h0 & -> & [-> | [-> | ->]]);
      (split; [apply failure_ok | eauto]).
  - do 3 pass_step H.
    apply find_and_download_result in H as [[[rows ->] | [n ->]] C];
      (split; [|exact C]); [apply not_found_ok | apply downloaded_ok].
Qed.

(** X14.  Every [dict] the function returns has one of two shapes: a
    download, with [success] true and a path and no [error]; or a failure,
    with [success] false, [file_path] None and an [error] text.  So the
    caller's [result['success']] and [result['file_path']] never miss their
    key.  And whenever it returns, its last call was [browser.close()]. *)
Theorem result_shape (app_number output_dir : string) (debug : bool)
    (b : browser) (h h' : list call) (d : gmap string pyval) :
  download_decision_notice app_number output_dir debug b h = (Ok d, h') ->
  result_ok d /\ exists h0, h' = h0 ++ [Close].
Proof.
  unfold download_decision_notice. intros H. do 4 pass_step H.
  unfold catch in H.
  destruct (download_steps app_number output_dir debug b _)
    as [[d0|e] h1] eqn:S.
  - injection H as <- <-. now apply download_steps_result in S.
  - apply on_error_result in H as [-> C]. split; [apply failure_ok | exact C].
Qed.

Lemma result_shape_witness :
  result_ok (not_found [doc_row 1 "Plan Form"])
  /\ exists h0,
       snd (download_decision_notice "MIN/2024/216" "/tmp" false
              (showing [doc_row 1 "Plan Form"]) [])
       = h0 ++ [Close].
Proof.
  apply (result_shape "MIN/2024/216" "/tmp" false
           (showing [doc_row 1 "Plan Form"]) []
           (snd (download_decision_notice "MIN/2024/216" "/tmp" false
                   (showing [doc_row 1 "Plan Form"]) []))).
  vm_compute. reflexivity.
Defined.

(** X15.  Whatever exception the steps raise, the caller gets it back as the
    [error] of a failure and the browser is closed last, provided the browser
    can be started and closed; the snapshot of the handler cannot change
    that. *)
Theorem exception_becomes_failure (app_number output_dir : string)
    (debug : bool) (b : browser) (h h1 : list call) (e : exn) :
  lifecycle_ok b ->
  download_steps app_number output_dir debug b
    (h ++ [Launch; NewContext; NewPage; SetDefaultTimeout 30000])
  = (Raise e, h1) ->
  exists h0,
    download_decision_notice app_number output_dir debug b h
    = (Ok (failure e), h0 ++ [Close]).
Proof.
  intros L S.
  unfold download_decision_notice, bind, action, ask.
  rewrite (L h Launch) by (simpl; tauto).
  rewrite (L _ NewContext) by (simpl; tauto).
  rewrite (L _ NewPage) by (simpl; tauto).
  rewrite (L _ (SetDefaultTimeout 30000)) by (simpl; tauto).
  unfold catch. rewrite <- !app_assoc. cbn [app]. rewrite S.
  apply on_error_run. intros h'. apply L. simpl. tauto.
Qed.

Lemma exception_becomes_failure_witness :
  exists h0,
    download_decision_notice "MIN/2024/216" "/tmp" true offline []
    = (Ok (failure "net::ERR_INTERNET_DISCONNECTED"), h0 ++ [Close]).
Proof.
  apply (exception_becomes_failure "MIN/2024/216" "/tmp" true offline []
           (snd (download_steps "MIN/2024/216" "/tmp" true offline
                   ([] ++ [Launch; NewContext; NewPage;
                           SetDefaultTimeout 30000])))).
  - intros h c Hc. simpl in Hc.
    destruct Hc as [<-|[<-|[<-|[<-|[<-|[]]]]]]; reflexivity.
  - vm_compute. reflexivity.
Defined.

End DownloadFacts.

(** ** The command line of the property scraper *)

Section CliFacts.

Import Browser Scraper Cli.

Lemma lstrip_blank (s : string) :
  all_chars Py.isspace s = true <-> Py.lstrip s = EmptyString.
Proof.
  induction s as [|a s IH]; simpl; [tauto|].
  destruct (Py.isspace a); simpl; [exact IH|].
  split; discriminate.
Qed.

(** A line is trimmed to nothing exactly when it holds white space only. *)
Lemma strip_blank (s : string) :
  all_chars Py.isspace s = true <-> Py.strip s = EmptyString.
Proof.
  unfold Py.strip. rewrite lstrip_blank. split; [now intros ->|].
  intros H. pose proof (lstrip_head s) as S.
  destruct (Py.lstrip s) as [|a t]; [reflexivity|].
  simpl in S, H. destruct (Py.rstrip t); [|discriminate].
  now rewrite S in H.
Qed.

Lemma scrape_goldcoast_property_address (query : string) (b : browser)
    (h h' : list call) (r : PropertyData) :
  scrape_goldcoast_property query b h = (Ok r, h') -> address r = query.
Proof.
  unfold scrape_goldcoast_property. intros H. do 2 pass_step H.
  unfold finally, catch in H.
  match type of H with
  | context [scrape_steps ?q ?r0 ?b0 ?h0] =>
      destruct (scrape_steps q r0 b0 h0) as [[r1|e] h1] eqn:S
  end.
  - apply scrape_steps_address in S. simpl in S.
    destruct (action Close b h1) as [[[]|e] h2]; [|discriminate].
    now injection H as <- _.
  - unfold bind in H.
    destruct (action (Screenshot "page" "error_screenshot.png") b h1)
      as [[[]|e1] h2]; simpl in H;
      destruct (on_action b h2 Close); discriminate.
Qed.

Lemma main_query (argv : list string) (typed : outcome string) (q : string)
    (b : browser) (h : list call) :
  query_of argv typed = Ok q ->
  main argv typed b h
  = match q with
    | EmptyString => (Ok 1, h)
    | String _ _ =>
        match scrape_goldcoast_property q b h with
        | (Ok _, h') => (Ok 0, h')
        | (Raise _, h') => (Ok 1, h')
        end
    end.
Proof.
  intros Q. unfold main, bind at 1, of_outcome. rewrite Q.
  destruct q as [|a q]; [reflexivity|].
  unfold catch, bind, ret.
  now destruct (scrape_goldcoast_property (String a q) b h) as [[r|e] h'].
Qed.

(** X16.  The script ends with status 0 or 1, and with 0 only after the
    workflow has returned a record for a non-empty query, whose address is
    that query.  No exception of the workflow leaves the script: the only
    one that can is that of the prompt, raised before any browser call. *)
Theorem main_exit_status (argv : list string) (typed : outcome string)
    (b : browser) (h : list call) :
  (forall n h', main argv typed b h = (Ok n, h') ->
     exists q,
       query_of argv typed = Ok q
       /\ (n = 0 /\ q <> EmptyString
           /\ (exists r, scrape_goldcoast_property q b h = (Ok r, h')
                         /\ address r = q)
           \/ n = 1
              /\ (q = EmptyString /\ h' = h
                  \/ exists e,
                       scrape_goldcoast_property q b h = (Raise e, h'))))
  /\ (forall e h', main argv typed b h = (Raise e, h') ->
        typed = Raise e /\ List.length argv <= 1 /\ h' = h).
Proof.
  destruct (query_of argv typed) as [q|e0] eqn:Q.
  - rewrite (main_query _ _ _ b h Q). split.
    + intros n h' H. exists q. split; [reflexivity|].
      destruct q as [|a q].
      * injection H as <- <-. right. split; [reflexivity|]. now left.
      * destruct (scrape_goldcoast_property (String a q) b h)
          as [[r|e] h1] eqn:S; injection H as <- <-.
        -- left. split; [reflexivity|]. split; [discriminate|].
           exists r. split; [reflexivity|].
           now apply scrape_goldcoast_property_address in S.
        -- right. split; [reflexivity|]. right. now exists e.
    + intros e h' H. destruct q as [|a q]; [discriminate|].
      now destruct (scrape_goldcoast_property (String a q) b h) as [[r|e1] h1].
  - split; intros x h' H; unfold main, bind, of_outcome in H; rewrite Q in H;
      [discriminate|].
    injection H as <- <-. unfold query_of in Q.
    destruct (1 <? List.length argv) eqn:L; [discriminate|].
    apply Nat.ltb_ge in L.
    destruct typed as [line|e1]; [discriminate|].
    injection Q as ->. auto.
Qed.

Lemma main_exit_status_witness :
  exists q,
    query_of ["goldcoast_scraper.py"; "12"; "Example"; "St"] (Ok "")
    = Ok q
    /\ (0 = 0 /\ q <> EmptyString
        /\ (exists r,
              scrape_goldcoast_property q quiet []
              = (Ok r,
                 snd (main ["goldcoast_scraper.py"; "12"; "Example"; "St"]
                        (Ok "") quiet []))
              /\ address r = q)
        \/ 0 = 1
           /\ (q = EmptyString
               /\ snd (main ["goldcoast_scraper.py"; "12"; "Example"; "St"]
                         (Ok "") quiet []) = []
               \/ exists e,
                    scrape_goldcoast_property q quiet []
                    = (Raise e,
                       snd (main ["goldcoast_scraper.py"; "12"; "Example";
                                  "St"] (Ok "") quiet [])))).
Proof.
  apply (proj1 (main_exit_status
                  ["goldcoast_scraper.py"; "12"; "Example"; "St"] (Ok "")
                  quiet [])).
  vm_compute. reflexivity.
Defined.

(** X17.  A line typed at the prompt is trimmed before it is tested: a line
    of white space ends the script with status 1 and no browser call, and
    any other line reaches the workflow without white space at either end.
    Arguments are not trimmed: the same white space given as the one
    argument is taken as the query. *)
Theorem prompt_line_trimmed (prog line : string) (b : browser)
    (h : list call) :
  let run q :=
    match scrape_goldcoast_property q b h with
    | (Ok _, h') => (Ok 0, h')
    | (Raise _, h') => (Ok 1, h')
    end in
  (all_chars Py.isspace line = true ->
   main [prog] (Ok line) b h = (Ok 1, h)
   /\ (line <> EmptyString ->
       main [prog; line] (Ok EmptyString) b h = run line))
  /\ (all_chars Py.isspace line = false ->
      main [prog] (Ok line) b h = run (Py.strip line)
      /\ starts_with_space (Py.strip line) = false
      /\ ends_with_space (Py.strip line) = false).
Proof.
  intros run. split.
  - intros B. split.
    + rewrite (main_query [prog] (Ok line) (Py.strip line) b h eq_refl).
      now rewrite (proj1 (strip_blank line) B).
    + intros N.
      rewrite (main_query [prog; line] (Ok EmptyString) line b h eq_refl).
      now destruct line.
  - intros B.
    rewrite (main_query [prog] (Ok line) (Py.strip line) b h eq_refl).
    destruct (strip_clean line) as (S1 & S2 & _).
    repeat split; [|assumption..].
    destruct (Py.strip line) eqn:E; [|reflexivity].
    apply strip_blank in E. congruence.
Qed.

Lemma prompt_line_trimmed_witness :
  main ["goldcoast_scraper.py"] (Ok "   ") quiet [] = (Ok 1, [])
  /\ fst (main ["goldcoast_scraper.py"; "   "] (Ok "") quiet []) = Ok 0
  /\ main ["goldcoast_scraper.py"] (Ok "  4GTP446 ") quiet []
     = main ["goldcoast_scraper.py"; "4GTP446"] (Ok "") quiet [].
Proof.
  pose proof (prompt_line_trimmed "goldcoast_scraper.py" "   " quiet [])
    as [B _].
  destruct (B eq_refl) as [B1 B2].
  pose proof (prompt_line_trimmed "goldcoast_scraper.py" "  4GTP446 " quiet [])
    as [_ T].
  destruct (T eq_refl) as [T1 _].
  split; [exact B1|]. split.
  - rewrite (B2 ltac:(discriminate)). vm_compute. reflexivity.
  - rewrite T1. vm_compute. reflexivity.
Defined.

End CliFacts.

(** ** The building height capture *)

Section HeightFacts.

Import Browser Scraper.

Lemma enable_building_height_layer_true (b : browser) (h h' : list call) :
  enable_building_height_layer b h = (Ok true, h') ->
  exists n h1 h2,
    on_count b h1 (Count "text=Building height") = Ok n /\ 0 < n
    /\ on_action b h2 (Click "text=Building height") = Ok tt.
Proof.
  unfold enable_building_height_layer, catch.
  match goal with
  | |- context [bind ?m ?f b h] => destruct (bind m f b h) as [[v|e] h1] eqn:E
  end; [|discriminate].
  intros [= -> <-]. do 2 pass_step E.
  apply bind_Ok in E as (n & h2 & C & E).
  unfold count, ask in C.
  destruct (0 <? n) eqn:N; [|discriminate].
  apply Nat.ltb_lt in N. pass_step E.
  apply bind_Ok in E as (u & h3 & K & _).
  apply action_Ok in K as [K _].
  match type of C with
  | context [on_count b ?h0 ?c] => destruct (on_count b h0 c) eqn:C0
  end; [|discriminate].
  injection C as -> _. eauto 6.
Qed.

Lemma screenshot_map_truthy (b : browser) (h h' : list call)
    (p : option string) :
  screenshot_map b h = (Ok p, h') -> Py.truthy p = true ->
  p = Some "map_height.png"
  /\ on_action b h (Screenshot ".esri-view, #mapView" "map_height.png")
     = Ok tt.
Proof.
  unfold screenshot_map, catch, bind, action, ask, ret.
  destruct (on_action b h _) as [[]|e]; intros [= <- _]; [auto|discriminate].
Qed.

Lemma scrape_steps_height (query : string) (r0 r : PropertyData)
    (b : browser) (h h' : list call) (m : string) :
  building_height r0 = None ->
  scrape_steps query r0 b h = (Ok r, h') ->
  building_height r = Some m ->
  m = "(see screenshot)"
  /\ exists n h1 h2 h3,
       on_count b h1 (Count "text=Building height") = Ok n /\ 0 < n
       /\ on_action b h2 (Click "text=Building height") = Ok tt
       /\ on_action b h3 (Screenshot ".esri-view, #mapView" "map_height.png")
          = Ok tt.
Proof.
  intros H0 H Hm. unfold scrape_steps in H.
  do 11 pass_step H.
  apply bind_Ok in H as (enabled & h1 & En & H).
  apply bind_Ok in H as (r1 & ? & H1 & H).
  pass_step H. injection H as <- _.
  destruct enabled.
  - apply bind_Ok in H1 as (p & ? & P & H1).
    destruct (Py.truthy p) eqn:T; injection H1 as <- _; simpl in Hm;
      [|congruence].
    split; [congruence|].
    apply enable_building_height_layer_true in En
      as (n & ha & hb & C & N & K).
    apply screenshot_map_truthy in P as [_ P]; [|exact T].
    eauto 8.
  - injection H1 as <- _. simpl in Hm. congruence.
Qed.

(** X18.  The two steps of the height capture never raise.  A record that
    carries the height marker comes from a run in which the
    [Building height] entry was found and clicked and the snapshot of the
    map was taken. *)
Theorem height_marker_sound (b : browser) (h : list call) :
  (exists v h', enable_building_height_layer b h = (Ok v, h'))
  /\ (exists p h', screenshot_map b h = (Ok p, h'))
  /\ (forall query r h' m,
        scrape_goldcoast_property query b h = (Ok r, h') ->
        building_height r = Some m ->
        exists n h1 h2 h3,
          on_count b h1 (Count "text=Building height") = Ok n /\ 0 < n
          /\ on_action b h2 (Click "text=Building height") = Ok tt
          /\ on_action b h3
               (Screenshot ".esri-view, #mapView" "map_height.png") = Ok tt).
Proof.
  split; [|split].
  - unfold enable_building_height_layer, catch.
    match goal with
    | |- context [bind ?m ?f b h] => destruct (bind m f b h) as [[v|e] h1]
    end; unfold ret; eauto.
  - unfold screenshot_map, catch.
    match goal with
    | |- context [bind ?m ?f b h] => destruct (bind m f b h) as [[v|e] h1]
    end; unfold ret; eauto.
  - intros query r h' m H Hm. unfold scrape_goldcoast_property in H.
    do 2 pass_step H. unfold finally, catch in H.
    match type of H with
    | context [scrape_steps ?q ?r0 ?b0 ?h0] =>
        destruct (scrape_steps q r0 b0 h0) as [[r1|e] h1] eqn:S
    end.
    + destruct (action Close b h1) as [[[]|e] h2]; [|discriminate].
      injection H as <- _.
      apply (scrape_steps_height _ _ _ _ _ _ m) in S as [_ S];
        [exact S | reflexivity | exact Hm].
    + unfold bind in H.
      destruct (action (Screenshot "page" "error_screenshot.png") b h1)
        as [[[]|e1] h2]; simpl in H;
        destruct (on_action b h2 Close); discriminate.
Qed.

Lemma height_marker_sound_witness :
  exists n h1 h2 h3,
    on_count (card ["Plan Area 200 m2"]) h1 (Count "text=Building height")
    = Ok n /\ 0 < n
    /\ on_action (card ["Plan Area 200 m2"]) h2
         (Click "text=Building height") = Ok tt
    /\ on_action (card ["Plan Area 200 m2"]) h3
         (Screenshot ".esri-view, #mapView" "map_height.png") = Ok tt.
Proof.
  destruct (scrape_goldcoast_property "4GTP446" (card ["Plan Area 200 m2"])
              []) as [[r|e] h'] eqn:E.
  - apply (proj2 (proj2 (height_marker_sound (card ["Plan Area 200 m2"]) []))
             "4GTP446" r h' "(see screenshot)" E).
    vm_compute in E. injection E as <- _. reflexivity.
  - vm_compute in E. discriminate E.
Defined.

End HeightFacts.
